(** * Fair-universe data generators: a shallow embedding

    This development embeds the toy-data generators of the repository
    ([data_generator_all_systematics.py], [data_generator_mix.py]) and the
    weight bookkeeping of the HEP bundle ([datagen_temp.py]) and proves
    the properties their specification states about them.

    Numbers.  The event counts are computed as Python computes them, in
    IEEE 754 binary64 arithmetic: a float is the rational it denotes, and
    every operation rounds its exact result to the nearest double, ties
    to even ([PyFloat]).  The weights of the HEP bundle are computed over
    the rationals [Q] in exact arithmetic; coordinates, angles and the
    trigonometric part live in the reals [R].  Integers are [Z]. *)

From Stdlib Require Import Bool String.
From Stdlib Require Import List ZArith QArith Qround Qabs Qpower Qreduction.
From Stdlib Require Import Lia Psatz.
From Stdlib Require Import Reals ROrderedType DecimalString.
From Stdlib Require Import Permutation.
Import ListNotations.

(** * Integer part and rounding of a rational *)

Module PyNum.

Open Scope Q_scope.

(** [int(x)] on a float: truncation toward zero. *)
Definition py_int (q : Q) : Z := Z.quot (Qnum q) (Zpos (Qden q)).

(** Round-half-to-even of a rational to an integer, the tie rule of
    Python's [round] and of IEEE 754 rounding. *)
Definition round_half_even (q : Q) : Z :=
  let f := Qfloor q in
  match Qcompare (q - inject_Z f) (1 # 2) with
  | Lt => f
  | Gt => (f + 1)%Z
  | Eq => if Z.even f then f else (f + 1)%Z
  end.

(** The decimal with [ndigits] places nearest to [q], ties to even. *)
Definition py_round (q : Q) (ndigits : nat) : Q :=
  let scale := inject_Z (10 ^ Z.of_nat ndigits) in
  inject_Z (round_half_even (q * scale)) / scale.

End PyNum.

(** * Python floats: IEEE 754 binary64, round to nearest, ties to even

    A finite float is the rational number it denotes.  The doubles near
    a rational [q] with [2 ^ k <= |q| < 2 ^ (k + 1)] are the multiples of
    [2 ^ (k - 52)] (53 significant bits); below [2 ^ -1022] they are the
    multiples of [2 ^ -1074] (subnormal numbers).  An operation returns
    the double nearest to its exact result, the one with the even
    significand on a tie, and infinity when that double would reach
    [2 ^ 1024]. *)

Module PyFloat.

Import PyNum.
Open Scope Q_scope.

(** [floor(log2 q)] for a positive rational. *)
Definition ilog2 (q : Q) : Z :=
  let e := (Z.log2 (Qnum q) - Z.log2 (Zpos (Qden q)))%Z in
  if Qle_bool (2 ^ e) q then e else (e - 1)%Z.

(** The exponent of the spacing of the doubles around [q]. *)
Definition ulp_exponent (q : Q) : Z := Z.max (ilog2 (Qabs q) - 52) (-1074).

(** The double nearest to [q], ties to even, the exponent unbounded
    above. *)
Definition nearest (q : Q) : Q :=
  let e := ulp_exponent q in
  Qred (inject_Z (round_half_even (q / 2 ^ e)) * 2 ^ e).

(** The result of a float operation whose exact result is [q]: [None]
    stands for an infinity. *)
Definition to_double (q : Q) : option Q :=
  let r := nearest q in
  if Qle_bool (2 ^ 1024) (Qabs r) then None else Some r.


(** The float that a decimal literal denotes. *)
Definition literal (q : Q) : Q := nearest q.

(** [round(x, ndigits)] on a float: the double nearest to the decimal
    with [ndigits] places nearest to the exact value of [x] (CPython
    rounds the exact decimal expansion, then converts back). *)
Definition py_round (x : Q) (ndigits : nat) : Q :=
  nearest (PyNum.py_round x ndigits).

(** [int(n * x)] for an int [n] and a float [x].  The int is converted
    to a float first, which raises when it is too large; the product is
    rounded, and [int] raises on an infinity. *)
Definition int_of_product (n : Z) (x : Q) : string + Z :=
  match to_double (inject_Z n) with
  | None => inl "OverflowError: int too large to convert to float"%string
  | Some t =>
      match to_double (t * x) with
      | None =>
          inl "OverflowError: cannot convert float infinity to integer"%string
      | Some y => inr (py_int y)
      end
  end.

End PyFloat.

(** * Event counts derived in [DataGenerator.__init__] *)

Module Counts.

Import PyNum PyFloat.
Open Scope Q_scope.

(** The two generator pipelines of the repository. *)
Inductive Pipeline := AllSystematics | Mix.

(** [self.ps]: [round(1 - self.pb, 5)] in the all-systematics generator,
    [1 - self.pb] in the mix generator.  The difference of 1 and a
    finite double is finite. *)
Definition ps (v : Pipeline) (pb : Q) : Q :=
  match v with
  | AllSystematics => PyFloat.py_round (nearest (1 - pb)) 5
  | Mix => nearest (1 - pb)
  end.

(** [int(self.total_number_of_events*self.ps)] *)
Definition number_of_signal_events (v : Pipeline) (total : Z) (pb : Q)
  : string + Z :=
  int_of_product total (ps v pb).

(** [int(self.total_number_of_events * self.pb)] *)
Definition number_of_background_events (total : Z) (pb : Q) : string + Z :=
  int_of_product total pb.

End Counts.

(** * Weight bookkeeping of the HEP bundle ([datagen_temp.py])

    Only the label and weight columns take part in the reweighting; the
    feature frame, the file writes and the prints are left out.  The
    random [train_test_split] is an input of the model. *)

Module HEP.

Open Scope Q_scope.

(** [weights[label == v]]: the weights at the positions whose label is
    [v].  The two series carry the same index, so positions agree. *)
Fixpoint select (v : Z) (label : list Z) (weights : list Q) : list Q :=
  match label, weights with
  | l :: ls, w :: ws =>
      if Z.eqb l v then w :: select v ls ws else select v ls ws
  | _, _ => []
  end.

(** [np.sum] *)
Definition np_sum (ws : list Q) : Q := fold_right Qplus 0 ws.

(** [weights[label == v] *= c] *)
Fixpoint scale_where (v : Z) (c : Q) (label : list Z) (weights : list Q)
  : list Q :=
  match label, weights with
  | l :: ls, w :: ws =>
      (if Z.eqb l v then w * c else w) :: scale_where v c ls ws
  | _, ws => ws
  end.

(** The reweighting block, written three times in the source (train
    split, mu-calculation fold, each test fold): both subset sums are
    read first, then the signal rows and the background rows are
    rescaled in place.  A zero subset sum makes the float division give
    [inf] or [nan]; [Q]'s division gives 0 there, so the block is
    modelled for nonzero sums only. *)
Definition reweight (total_signal_weight total_background_weight : Q)
    (label : list Z) (weights : list Q) : list Q :=
  let subset_signal_weight := np_sum (select 1 label weights) in
  let subset_background_weight := np_sum (select 0 label weights) in
  let weights :=
    scale_where 1 (total_signal_weight / subset_signal_weight) label weights in
  scale_where 0 (total_background_weight / subset_background_weight)
    label weights.

(** [range(0, n, k)] for a positive step [k]. *)
Definition py_range_step (n k : nat) : list nat :=
  map (fun j => (j * k)%nat) (seq 0 ((n + k - 1) / k)).

(** [[xs[i:i+len(xs)//10] for i in range(0, len(xs), len(xs)//10)]];
    [range] raises [ValueError] on a zero step. *)
Definition tenths {A} (xs : list A) : option (list (list A)) :=
  let k := (length xs / 10)%nat in
  match k with
  | O => None
  | _ => Some (map (fun i => firstn k (skipn i xs))
                   (py_range_step (length xs) k))
  end.

Record Split := {
  train_label : list Z;
  train_weights : list Q;
  test_label : list Z;
  test_weights : list Q
}.

Record Output := {
  out_train_weights : list Q;
  out_mu_calc_weights : list Q;
  out_test_weights : list (list Q)
}.

(** One iteration of the loop over the test folds: reweight, then
    [test_weights[test_label==1] *= mu]. *)
Definition test_fold (total_signal_weight total_background_weight mu : Q)
    (label : list Z) (weights : list Q) : list Q :=
  let weights :=
    reweight total_signal_weight total_background_weight label weights in
  scale_where 1 mu label weights.

(** [enumerate(zip(test_weights_, test_label_))] with the ground-truth
    [mu] of fold [i] read from its settings file. *)
Fixpoint test_loop (S B : Q) (ground_truth_mu : nat -> Q) (i : nat)
    (ws : list (list Q)) (ls : list (list Z)) : list (list Q) :=
  match ws, ls with
  | w :: ws', l :: ls' =>
      test_fold S B (ground_truth_mu i) l w
      :: test_loop S B ground_truth_mu (Datatypes.S i) ws' ls'
  | _, _ => []
  end.

Definition DataGenerator (label : list Z) (weights : list Q) (sp : Split)
    (ground_truth_mu : nat -> Q) : option Output :=
  let total_signal_weight := np_sum (select 1 label weights) in
  let total_background_weight := np_sum (select 0 label weights) in
  let train_weights :=
    reweight total_signal_weight total_background_weight
      (train_label sp) (train_weights sp) in
  match tenths (test_weights sp), tenths (test_label sp) with
  | Some (mu_calc_weights :: test_weights_),
    Some (mu_calc_label :: test_label_) =>
      let mu_calc_weights :=
        reweight total_signal_weight total_background_weight
          mu_calc_label mu_calc_weights in
      Some {| out_train_weights := train_weights;
              out_mu_calc_weights := mu_calc_weights;
              out_test_weights :=
                test_loop total_signal_weight total_background_weight
                  ground_truth_mu 0 test_weights_ test_label_ |}
  | _, _ => None
  end.

(** The subset has nonzero signal and background weight sums. *)
Definition nonzero_sums (label : list Z) (weights : list Q) : Prop :=
  ~ np_sum (select 1 label weights) == 0 /\
  ~ np_sum (select 0 label weights) == 0.

(** The subset's signal and background totals are [S] and [B]. *)
Definition totals (label : list Z) (weights : list Q) (S B : Q) : Prop :=
  np_sum (select 1 label weights) == S /\
  np_sum (select 0 label weights) == B.

(** A small reference dataset with its split, for running the model. *)
Definition toy_split : Split :=
  {| train_label := [1; 0; 1; 0]%Z;
     train_weights := [1; 2; 2; 3];
     test_label := [1; 0; 1; 0; 1; 0; 1; 0; 1; 0; 1; 0; 1; 0; 1; 0; 1; 0; 1; 0]%Z;
     test_weights := [1; 2; 1; 2; 1; 2; 1; 2; 1; 2; 1; 2; 1; 2; 1; 2; 1; 2; 1; 2] |}.

Definition toy_label : list Z := (train_label toy_split ++ test_label toy_split)%list.

Definition toy_weights : list Q :=
  (train_weights toy_split ++ test_weights toy_split)%list.

End HEP.

(** * The toy-data generators

    [data_generator_all_systematics.py] and [data_generator_mix.py] are
    two editions of one class; the model is one set of definitions indexed
    by [Counts.Pipeline], with a [match] wherever the two files differ. *)

Module Generator.

Import Counts.
Open Scope string_scope.
Open Scope R_scope.

(** ** constants.py *)

Definition DISTRIBUTION_GAUSSIAN := "Gaussian".
Definition DISTRIBUTION_GAMMA := "Gamma".
Definition SYSTEMATIC_TRANSLATION := "Translation".
Definition SYSTEMATIC_SCALING := "Scaling".
Definition SYSTEMATIC_BOX := "Box".
Definition SYSTEMATIC_ROTATION := "Rotation".
Definition SIGNAL_LABEL := 1%Z.
Definition BACKGROUND_LABEL := 0%Z.

(** ** Arrays *)

(** A row of coordinates and an [n x d] array of rows. *)
Definition point := list R.
Definition points := list point.

(** A frame with columns [x1 .. xd, y]: each row is a point and its
    label. *)
Definition frame := list (point * Z).

(** ** Configuration dictionaries

    A dictionary is the record of the keys the code reads; a key that
    is absent is [None], and reading it with [d[key]] raises
    [KeyError]. *)

Module dist.
Record t := {
  name : option string;
  mu : option (list R);
  sigma : option (list R);
  k : option R;
  _theta_ : option R
}.
End dist.

Module syst.
Record t := {
  name : option string;
  z_magnitude : option R;
  alpha : option R;
  scaling_factor : option R;
  box_l : option R;
  rotation_degree : option R
}.
End syst.

Module settings.
Record t := {
  problem_dimension : option nat;
  total_number_of_events : option Z;
  p_b : option Q;
  generator : option string;
  (* all-systematics edition *)
  background_distribution : option dist.t;
  signal_distribution : option dist.t;
  signal_from_background : option bool;
  angle_rotation : option R;
  apply_copula : option bool;
  alpha : option R;
  beta : option R;
  (* mix edition *)
  background_mu : option (list R);
  background_sigma : option (list R);
  background_angle_rotation : option R;
  signal_angle_rotation : option R;
  (* both *)
  theta : option R;
  L : option R;
  signal_sigma_scale : option R;
  systematics : option (list syst.t);
  (* written back by the constructor *)
  box_center : option (list R)
}.

Definition set_box_center (s : t) (c : list R) : t :=
  {| problem_dimension := problem_dimension s;
     total_number_of_events := total_number_of_events s;
     p_b := p_b s;
     generator := generator s;
     background_distribution := background_distribution s;
     signal_distribution := signal_distribution s;
     signal_from_background := signal_from_background s;
     angle_rotation := angle_rotation s;
     apply_copula := apply_copula s;
     alpha := alpha s;
     beta := beta s;
     background_mu := background_mu s;
     background_sigma := background_sigma s;
     background_angle_rotation := background_angle_rotation s;
     signal_angle_rotation := signal_angle_rotation s;
     theta := theta s;
     L := L s;
     signal_sigma_scale := signal_sigma_scale s;
     systematics := systematics s;
     box_center := Some c |}.
End settings.

(** ** Distribution and systematic objects *)

Record GaussianParams := {
  g_mu : list R;
  g_sigma : list R;
  g_generator : string;
  g_angle_rotation : option R
}.

Record GammaParams := {
  gm_k : R;
  gm_theta : R
}.

Inductive Distribution :=
| Gaussian (params : GaussianParams)
| Gamma (params : GammaParams).

Record Translation := {
  translation_name : string;
  translation_allowed_dimension : Z;
  translation_vector : list R
}.

Record Scaling := {
  scaling_name : string;
  scaling_allowed_dimension : Z;
  scaling_vector : list R
}.

Record Box := {
  box_name : string;
  box_center : list R;
  box_length : R
}.

Record Rotation := {
  rotation_name : string;
  rotation_degree : R
}.

(** ** What lies outside the repository

    The random draw behind [generate_points] (drawing advances numpy's
    random state), scipy's [norm.cdf(x)] and [gamma.ppf(q, a, loc)], and
    scikit-learn's seeded [shuffle].  [shuffle(a,
    random_state=seed)] permutes with [indices = arange(len(a))]
    shuffled by a generator seeded with [seed]: the index order is a
    function of the seed and of the length alone.

    The file system.  What the program asks of it is recorded call by
    call; whether a path exists and whether a call fails is its answer,
    which may depend on the calls made so far.  A [with open(path, 'w')]
    block counts as one call, made with the text written.  The text
    that pandas' [to_csv(index=False)] produces for a frame and the text
    that [json.dump] produces for the settings are taken as given;
    [json.dump] may raise after writing a part of it. *)

Inductive OsCall :=
| Mkdir (path : string)
| Makedirs (path : string)
| WriteFile (path content : string).

Class External := {
  RandomState : Type;
  generate_points :
    Distribution -> Z -> nat -> RandomState -> points * RandomState;
  norm_cdf : R -> R;
  gamma_ppf : R -> R -> R -> R;
  shuffled_indices : Z -> nat -> list nat;
  shuffled_indices_perm :
    forall seed n, Permutation (shuffled_indices seed n) (seq 0 n);
  path_exists : list OsCall -> string -> bool;
  os_error : list OsCall -> OsCall -> option string;
  to_csv : points -> string;
  json_dump : settings.t -> string * option string
}.

(** ** Effects: the logger, [exit()], exceptions, the random state, the
    file system

    Every call of the logger ([logger.py], not among the sources) is
    recorded with its level, whether or not the line is shown. *)

Inductive Level := SUCCESS | WARNING | ERROR.

Inductive Call := Drawn (d : Distribution) (n : Z) (dimension : nat).

(** The world a method runs in: numpy's random state, the lines handed
    to the logger, a trace of the [generate_points] calls made so far
    (kept for the properties about the draws), and the calls the file
    system has carried out. *)
Record World {ext : External} := {
  random_state : RandomState;
  draws : list Call;
  logged : list (Level * string);
  os_calls : list OsCall
}.

Inductive Outcome (A : Type) :=
| Return (a : A)
| SysExit
| Raise (exception : string).
Arguments Return {A} a.
Arguments SysExit {A}.
Arguments Raise {A} exception.

Definition Py {ext : External} (A : Type) : Type :=
  World -> Outcome A * World.

Section Effects.
Context {ext : External}.

Definition ret {A} (a : A) : Py A := fun w => (Return a, w).

Definition bind {A B} (m : Py A) (f : A -> Py B) : Py B :=
  fun w =>
    match m w with
    | (Return a, w') => f a w'
    | (SysExit, w') => (SysExit, w')
    | (Raise e, w') => (Raise e, w')
    end.

Definition exit {A} : Py A := fun w => (SysExit, w).

Definition raise {A} (e : string) : Py A := fun w => (Raise e, w).

Definition log (l : Level) (msg : string) : Py unit :=
  fun w =>
    (Return tt,
     {| random_state := random_state w;
        draws := draws w;
        logged := logged w ++ [(l, msg)];
        os_calls := os_calls w |}).

(** [d[key]] *)
Definition item {A} (key : string) (v : option A) : Py A :=
  match v with
  | Some a => ret a
  | None => raise ("KeyError: " ++ key)
  end.

(** [d.get(key, default)] *)
Definition get {A} (v : option A) (default : A) : A :=
  match v with
  | Some a => a
  | None => default
  end.

(** [distribution.generate_points(n, dimension)] *)
Definition draw (d : Distribution) (n : Z) (dimension : nat) : Py points :=
  fun w =>
    let (pts, rs) := generate_points d n dimension (random_state w) in
    (Return pts,
     {| random_state := rs;
        draws := draws w ++ [Drawn d n dimension];
        logged := logged w;
        os_calls := os_calls w |}).

(** [os.path.exists(path)] *)
Definition os_path_exists (path : string) : Py bool :=
  fun w => (Return (path_exists (os_calls w) path), w).

(** A call that changes the file system: it raises, or it is carried
    out. *)
Definition os_call (c : OsCall) : Py unit :=
  fun w =>
    match os_error (os_calls w) c with
    | Some e => (Raise e, w)
    | None =>
        (Return tt,
         {| random_state := random_state w;
            draws := draws w;
            logged := logged w;
            os_calls := os_calls w ++ [c] |})
    end.
End Effects.

Notation "x <- m ;; k" := (bind m (fun x => k))
  (at level 61, m at next level, right associativity).
Notation "m ;;; k" := (bind m (fun _ => k))
  (at level 61, right associativity).

(** ** numpy and Python arithmetic on reals *)

(** [np.radians] *)
Definition radians (deg : R) : R := deg * PI / 180.

(** [round(x, ndigits)] with Python's round-half-to-even tie rule. *)
Definition round_half_even (x : R) : Z :=
  let f := Int_part x in
  match Rcompare (x - IZR f) (1 / 2) with
  | Lt => f
  | Gt => (f + 1)%Z
  | Eq => if Z.even f then f else (f + 1)%Z
  end.

Definition py_round (x : R) (ndigits : nat) : R :=
  IZR (round_half_even (x * 10 ^ ndigits)) / 10 ^ ndigits.

(** [np.multiply(v, c)] for a vector and a scalar. *)
Definition np_multiply (v : list R) (c : R) : list R :=
  map (fun x => x * c) v.

Fixpoint zip_with {A B C} (f : A -> B -> C) (u : list A) (v : list B)
  : list C :=
  match u, v with
  | a :: u', b :: v' => f a b :: zip_with f u' v'
  | _, _ => []
  end.

(** [u + v] on one-dimensional arrays: elementwise on equal lengths, a
    length-one operand is broadcast, anything else is a [ValueError]. *)
Definition np_add (u v : list R) : option (list R) :=
  if Nat.eqb (List.length u) (List.length v) then Some (zip_with Rplus u v)
  else
    match u, v with
    | [a], _ => Some (map (fun y => a + y) v)
    | _, [b] => Some (map (fun x => x + b) u)
    | _, _ => None
    end.

(** Python truthiness of an optional float: [None] and [0.0] are
    false. *)
Definition truthy (x : option R) : bool :=
  match x with
  | None => false
  | Some r => if Req_dec_T r 0 then false else true
  end.

(** ** systematics.py *)

(** Modelled from the spec: [Translation.apply_systematics] is not
    among the sources.  The operator adds its fixed vector to every
    point; the vector has two components, so the first two axes move
    and higher axes are untouched. *)
Fixpoint add_vector (v : list R) (p : point) : point :=
  match v, p with
  | a :: v', x :: p' => (x + a) :: add_vector v' p'
  | _, _ => p
  end.

Definition Translation_apply_systematics (t : Translation)
    (problem_dimension : nat) (pts : points) : points :=
  map (add_vector (translation_vector t)) pts.

(** Modelled from the spec: [Scaling.apply_systematics] is not among
    the sources.  The operator multiplies the coordinates elementwise
    by its per-axis factors. *)
Fixpoint scale_vector (v : list R) (p : point) : point :=
  match v, p with
  | a :: v', x :: p' => (x * a) :: scale_vector v' p'
  | _, _ => p
  end.

Definition Scaling_apply_systematics (t : Scaling)
    (problem_dimension : nat) (pts : points) : points :=
  map (scale_vector (scaling_vector t)) pts.

(** Modelled from the spec: [Rotation.apply_systematics] is not among
    the sources.  The operator rotates the first two axes by its degree
    value with the standard 2D rotation matrix. *)
Definition rotate (deg : R) (p : point) : point :=
  match p with
  | x :: y :: rest =>
      (x * cos (radians deg) - y * sin (radians deg))
      :: (x * sin (radians deg) + y * cos (radians deg)) :: rest
  | _ => p
  end.

Definition Rotation_apply_systematics (t : Rotation)
    (problem_dimension : nat) (pts : points) : points :=
  map (rotate (rotation_degree t)) pts.

(** Modelled from the spec: [Box.apply_systematics] is not among the
    sources.  A row is retained when [|coordinate_i - center_i| <=
    length / 2] on every axis of the centre, in the original and in the
    biased frame simultaneously; the same rows are removed from both
    frames. *)
Definition in_box (b : Box) (p : point) : bool :=
  forallb (fun xc : R * R =>
             if Rle_dec (Rabs (fst xc - snd xc)) (box_length b / 2)
             then true else false)
          (combine p (box_center b)).

Fixpoint Box_apply_systematics (b : Box) (df_a df_b : frame)
  : frame * frame :=
  match df_a, df_b with
  | ra :: df_a', rb :: df_b' =>
      let (a', b') := Box_apply_systematics b df_a' df_b' in
      if in_box b (fst ra) && in_box b (fst rb)
      then (ra :: a', rb :: b') else (a', b')
  | _, _ => ([], [])
  end.

(** ** The generator object *)

Record Systematics := {
  systematic_translation : option Translation;
  systematic_scaling : option Scaling;
  systematic_box : option Box;
  systematic_rotation : option Rotation
}.

Record DataGenerator := {
  settings_ : settings.t;
  signal_distribution : option Distribution;
  background_distribution : option Distribution;
  loaded : Systematics;
  systematics_loaded : bool;
  generated_data : option points;
  generated_labels : option (list Z);
  biased_data : option points;
  biased_labels : option (list Z);
  problem_dimension : nat;
  ps : Q;
  pb : Q;
  total_number_of_events : Z;
  number_of_background_events : Z;
  number_of_signal_events : Z;
  apply_copula : bool;
  alpha : option R;
  beta : option R
}.

Section Model.
Context {ext : External}.

(** A [ValueError] or [IndexError] raised inside numpy, pandas or
    scikit-learn. *)
Definition or_raise {A} (e : string) (v : option A) : Py A :=
  match v with
  | Some a => ret a
  | None => raise e
  end.

(** An exception raised by a Python primitive. *)
Definition or_error {A} (r : string + A) : Py A :=
  match r with
  | inr a => ret a
  | inl e => raise e
  end.

(** [for x in xs: acc = body(acc, x)] *)
Fixpoint for_each {A S} (body : S -> A -> Py S) (acc : S) (xs : list A)
  : Py S :=
  match xs with
  | [] => ret acc
  | x :: xs' => acc' <- body acc x ;; for_each body acc' xs'
  end.

(** ** [DataGenerator.__init__] *)

(** "Load Background distribution". *)
Definition load_background (v : Pipeline) (s : settings.t)
  : Py (option Distribution) :=
  match v with
  | AllSystematics =>
      background_dist <-
        item "background_distribution" (settings.background_distribution s) ;;
      name <- item "name" (dist.name background_dist) ;;
      d <- (if String.eqb name DISTRIBUTION_GAUSSIAN then
              mu <- item "mu" (dist.mu background_dist) ;;
              sigma <- item "sigma" (dist.sigma background_dist) ;;
              generator <- item "generator" (settings.generator s) ;;
              ret (Some (Gaussian
                     {| g_mu := mu;
                        g_sigma := sigma;
                        g_generator := generator;
                        g_angle_rotation :=
                          Some (get (settings.angle_rotation s) 0) |}))
            else ret None) ;;
      d <- (if String.eqb name DISTRIBUTION_GAMMA then
              k <- item "k" (dist.k background_dist) ;;
              th <- item "_theta_" (dist._theta_ background_dist) ;;
              ret (Some (Gamma {| gm_k := k; gm_theta := th |}))
            else ret d) ;;
      match d with
      | None =>
          log ERROR "Background distribution should be Gaussian or Gamma!" ;;;
          exit
      | Some _ =>
          log SUCCESS "Background Distributions Loaded!" ;;;
          ret d
      end
  | Mix =>
      background_mu <- item "background_mu" (settings.background_mu s) ;;
      background_sigma <-
        item "background_sigma" (settings.background_sigma s) ;;
      generator <- item "generator" (settings.generator s) ;;
      log SUCCESS "Background Distributions Loaded!" ;;;
      ret (Some (Gaussian
             {| g_mu := background_mu;
                g_sigma := background_sigma;
                g_generator := generator;
                g_angle_rotation := settings.background_angle_rotation s |}))
  end.

(** The signal placed at distance [L] and angle [theta] from the
    background, with the background's sigma scaled. *)
Definition signal_from (s : settings.t)
    (background_mu background_sigma : option (list R))
  : Py (list R * list R) :=
  theta <- item "theta" (settings.theta s) ;;
  L <- item "L" (settings.L s) ;;
  signal_sigma_scale <-
    item "signal_sigma_scale" (settings.signal_sigma_scale s) ;;
  background_sigma <- item "sigma" background_sigma ;;
  let signal_sigma := np_multiply background_sigma signal_sigma_scale in
  background_mu <- item "mu" background_mu ;;
  signal_mu <-
    or_raise "ValueError: operands could not be broadcast together"
      (np_add background_mu
         [L * cos (radians theta); L * sin (radians theta)]) ;;
  ret (signal_mu, signal_sigma).

(** "Load Signal distribution".  The second component is [box_center]
    ([signal_mu] in the mix edition). *)
Definition load_signal (v : Pipeline) (s : settings.t)
  : Py (option Distribution * list R) :=
  match v with
  | AllSystematics =>
      let box_center := [0; 0] in
      signal_from_background <-
        item "signal_from_background" (settings.signal_from_background s) ;;
      background_dist <-
        item "background_distribution" (settings.background_distribution s) ;;
      derived <-
        (if signal_from_background : bool then
           name <- item "name" (dist.name background_dist) ;;
           ret (String.eqb name DISTRIBUTION_GAUSSIAN)
         else ret false) ;;
      r <- (if derived : bool then
              ms <- signal_from s (dist.mu background_dist)
                      (dist.sigma background_dist) ;;
              generator <- item "generator" (settings.generator s) ;;
              ret (Some (Gaussian
                     {| g_mu := fst ms;
                        g_sigma := snd ms;
                        g_generator := generator;
                        g_angle_rotation :=
                          Some (- get (settings.angle_rotation s) 0) |}),
                   fst ms)
            else
              signal_dist <-
                item "signal_distribution" (settings.signal_distribution s) ;;
              name <- item "name" (dist.name signal_dist) ;;
              if String.eqb name DISTRIBUTION_GAUSSIAN then
                mu <- item "mu" (dist.mu signal_dist) ;;
                sigma <- item "sigma" (dist.sigma signal_dist) ;;
                generator <- item "generator" (settings.generator s) ;;
                ret (Some (Gaussian
                       {| g_mu := mu;
                          g_sigma := sigma;
                          g_generator := generator;
                          g_angle_rotation :=
                            Some (- get (settings.angle_rotation s) 0) |}),
                     mu)
              else ret (None, box_center)) ;;
      match fst r with
      | None => log ERROR "Signal Distributions should be Gaussian only!"
      | Some _ => log SUCCESS "Signal Distributions Loaded!"
      end ;;;
      ret r
  | Mix =>
      background_mu <- item "background_mu" (settings.background_mu s) ;;
      background_sigma <-
        item "background_sigma" (settings.background_sigma s) ;;
      ms <- signal_from s (Some background_mu) (Some background_sigma) ;;
      generator <- item "generator" (settings.generator s) ;;
      log SUCCESS "Signal Distributions Loaded!" ;;;
      ret (Some (Gaussian
             {| g_mu := fst ms;
                g_sigma := snd ms;
                g_generator := generator;
                g_angle_rotation := settings.signal_angle_rotation s |}),
           fst ms)
  end.

Definition no_systematics : Systematics :=
  {| systematic_translation := None;
     systematic_scaling := None;
     systematic_box := None;
     systematic_rotation := None |}.

(** The translation vector [z] of a descriptor: the mix edition rounds
    the cosine and the sine to two places before scaling. *)
Definition translation_z (v : Pipeline) (z_magnitude alpha : R) : list R :=
  match v with
  | AllSystematics =>
      np_multiply [cos (radians alpha); sin (radians alpha)] z_magnitude
  | Mix =>
      np_multiply [py_round (cos (radians alpha)) 2;
                   py_round (sin (radians alpha)) 2] z_magnitude
  end.

(** The body of [for systematic in systematics]: four independent
    [if]s on the descriptor's name. *)
Definition load_systematic (v : Pipeline) (box_center : list R)
    (self : Systematics) (systematic : syst.t) : Py Systematics :=
  name <- item "name" (syst.name systematic) ;;
  self <- (if String.eqb name SYSTEMATIC_TRANSLATION then
             z_magnitude <- item "z_magnitude" (syst.z_magnitude systematic) ;;
             alpha <- item "alpha" (syst.alpha systematic) ;;
             let z := translation_z v z_magnitude alpha in
             ret {| systematic_translation :=
                      Some {| translation_name := SYSTEMATIC_TRANSLATION;
                              translation_allowed_dimension := -1;
                              translation_vector := z |};
                    systematic_scaling := systematic_scaling self;
                    systematic_box := systematic_box self;
                    systematic_rotation := systematic_rotation self |}
           else ret self) ;;
  self <- (if String.eqb name SYSTEMATIC_SCALING then
             scaling_factor <-
               item "scaling_factor" (syst.scaling_factor systematic) ;;
             if Rlt_dec 1 scaling_factor then
               ret {| systematic_translation := systematic_translation self;
                      systematic_scaling :=
                        Some {| scaling_name := SYSTEMATIC_SCALING;
                                scaling_allowed_dimension := -1;
                                scaling_vector :=
                                  [scaling_factor; scaling_factor] |};
                      systematic_box := systematic_box self;
                      systematic_rotation := systematic_rotation self |}
             else ret self
           else ret self) ;;
  self <- (if String.eqb name SYSTEMATIC_BOX then
             box_length <- item "box_l" (syst.box_l systematic) ;;
             if Rlt_dec 1 box_length then
               ret {| systematic_translation := systematic_translation self;
                      systematic_scaling := systematic_scaling self;
                      systematic_box :=
                        Some {| box_name := SYSTEMATIC_BOX;
                                box_center := box_center;
                                box_length := box_length |};
                      systematic_rotation := systematic_rotation self |}
             else ret self
           else ret self) ;;
  if String.eqb name SYSTEMATIC_ROTATION then
    rotation_degree <-
      item "rotation_degree" (syst.rotation_degree systematic) ;;
    if Req_dec_T rotation_degree 0 then ret self
    else
      ret {| systematic_translation := systematic_translation self;
             systematic_scaling := systematic_scaling self;
             systematic_box := systematic_box self;
             systematic_rotation :=
               Some {| rotation_name := SYSTEMATIC_BOX;
                       rotation_degree := rotation_degree |} |}
  else ret self.

(** "Load Systematics". *)
Definition load_systematics (v : Pipeline) (box_center : list R)
    (s : settings.t) : Py Systematics :=
  match settings.systematics s with
  | None => log ERROR "Systematics not found in settings"
  | Some _ => ret tt
  end ;;;
  systematics <- item "systematics" (settings.systematics s) ;;
  self <- for_each (load_systematic v box_center) no_systematics systematics ;;
  log SUCCESS "Systematics Loaded!" ;;;
  ret self.

Definition __init__ (v : Pipeline) (settings_dict : settings.t)
  : Py DataGenerator :=
  log SUCCESS "Settings Loaded!" ;;;
  problem_dimension <-
    item "problem_dimension" (settings.problem_dimension settings_dict) ;;
  total_number_of_events <-
    item "total_number_of_events"
      (settings.total_number_of_events settings_dict) ;;
  pb <- item "p_b" (settings.p_b settings_dict) ;;
  number_of_signal_events <-
    or_error (Counts.number_of_signal_events v total_number_of_events pb) ;;
  number_of_background_events <-
    or_error (Counts.number_of_background_events total_number_of_events pb) ;;
  background <- load_background v settings_dict ;;
  signal <- load_signal v settings_dict ;;
  let settings_dict :=
    match v with
    | AllSystematics => settings.set_box_center settings_dict (snd signal)
    | Mix => settings_dict
    end in
  systematics <- load_systematics v (snd signal) settings_dict ;;
  ret {| settings_ := settings_dict;
         signal_distribution := fst signal;
         background_distribution := background;
         loaded := systematics;
         systematics_loaded := true;
         generated_data := None;
         generated_labels := None;
         biased_data := None;
         biased_labels := None;
         problem_dimension := problem_dimension;
         ps := Counts.ps v pb;
         pb := pb;
         total_number_of_events := total_number_of_events;
         number_of_background_events := number_of_background_events;
         number_of_signal_events := number_of_signal_events;
         apply_copula :=
           match v with
           | AllSystematics => get (settings.apply_copula settings_dict) false
           | Mix => false
           end;
         alpha :=
           match v with
           | AllSystematics => settings.alpha settings_dict
           | Mix => None
           end;
         beta :=
           match v with
           | AllSystematics => settings.beta settings_dict
           | Mix => None
           end |}.

(** ** [DataGenerator.generate_data] *)

(** "Generate Data": four calls of [generate_points] in the
    all-systematics edition; two calls in the mix edition, where the
    biased names are bound to the very same arrays. *)
Definition draw_data (v : Pipeline) (self : DataGenerator)
    (signal_distribution background_distribution : Distribution)
  : Py (points * points * (points * points)) :=
  match v with
  | AllSystematics =>
      signal_data <-
        draw signal_distribution (number_of_signal_events self)
          (problem_dimension self) ;;
      background_data <-
        draw background_distribution (number_of_background_events self)
          (problem_dimension self) ;;
      biased_signal_data <-
        draw signal_distribution (number_of_signal_events self)
          (problem_dimension self) ;;
      biased_background_data <-
        draw background_distribution (number_of_background_events self)
          (problem_dimension self) ;;
      log SUCCESS "Data Generated!" ;;;
      ret (signal_data, background_data,
           (biased_signal_data, biased_background_data))
  | Mix =>
      signal_data <-
        draw signal_distribution (number_of_signal_events self)
          (problem_dimension self) ;;
      background_data <-
        draw background_distribution (number_of_background_events self)
          (problem_dimension self) ;;
      log SUCCESS "Data Generated!" ;;;
      let biased_signal_data := signal_data in
      let biased_background_data := background_data in
      ret (signal_data, background_data,
           (biased_signal_data, biased_background_data))
  end.

(** The value of an optional float when it is truthy. *)
Definition if_truthy (x : option R) : option R :=
  if truthy x then x else None.

(** [sp.stats.gamma.ppf(sp.stats.norm.cdf(data), alpha, beta)],
    elementwise. *)
Definition copula_remap (alpha beta : R) (data : points) : points :=
  map (map (fun x => gamma_ppf (norm_cdf x) alpha beta)) data.

(** "Apply copula on Background Distribution". *)
Definition copula (self : DataGenerator)
    (background_data biased_background_data : points)
  : Py (points * points) :=
  if apply_copula self then
    match if_truthy (alpha self), if_truthy (beta self) with
    | Some a, Some b =>
        ret (copula_remap a b background_data,
             copula_remap a b biased_background_data)
    | _, _ =>
        log WARNING
          "Parameters of Gamma Distribution (alpha, beta) are not valid" ;;;
        ret (background_data, biased_background_data)
    end
  else ret (background_data, biased_background_data).

(** The copula block exists in the all-systematics edition only. *)
Definition copula_block (v : Pipeline) (self : DataGenerator)
    (background_data biased_background_data : points)
  : Py (points * points) :=
  match v with
  | AllSystematics => copula self background_data biased_background_data
  | Mix => ret (background_data, biased_background_data)
  end.

(** "Apply Rotation, Translation, Scaling": three [if] blocks, each
    rebinding the biased signal and the biased background. *)
Definition apply_point_systematics (self : DataGenerator)
    (biased_signal_data biased_background_data : points)
  : Py (points * points) :=
  biased <-
    match systematic_rotation (loaded self) with
    | Some rotation =>
        let s := Rotation_apply_systematics rotation
                   (problem_dimension self) biased_signal_data in
        let b := Rotation_apply_systematics rotation
                   (problem_dimension self) biased_background_data in
        log SUCCESS "Rotation Systematics Applied!" ;;;
        ret (s, b)
    | None => ret (biased_signal_data, biased_background_data)
    end ;;
  biased <-
    match systematic_translation (loaded self) with
    | Some translation =>
        let s := Translation_apply_systematics translation
                   (problem_dimension self) (fst biased) in
        let b := Translation_apply_systematics translation
                   (problem_dimension self) (snd biased) in
        log SUCCESS "Translation Systematics Applied!" ;;;
        ret (s, b)
    | None => ret biased
    end ;;
  match systematic_scaling (loaded self) with
  | Some scaling =>
      let s := Scaling_apply_systematics scaling
                 (problem_dimension self) (fst biased) in
      let b := Scaling_apply_systematics scaling
                 (problem_dimension self) (snd biased) in
      log SUCCESS "Scaling Systematics Applied!" ;;;
      ret (s, b)
  | None => ret biased
  end.

(** [np.hstack((data, labels))]: the row counts must agree. *)
Definition hstack (data : points) (labels : list Z) : Py frame :=
  if Nat.eqb (List.length data) (List.length labels)
  then ret (combine data labels)
  else raise "ValueError: all the input array dimensions must match".

(** [pd.DataFrame(rows, columns=columns)] with [columns = x1 .. xd, y]. *)
Definition DataFrame (dimension : nat) (rows : frame) : Py frame :=
  if forallb (fun r => Nat.eqb (List.length (fst r)) dimension) rows
  then ret rows
  else raise "ValueError: Shape of passed values".

(** "Generate labels", "Create DataFrame from Data" and "Combine Signal
    and Background": the original and the biased frame. *)
Definition stack_frames (dimension : nat)
    (signal_data background_data : points)
    (biased_signal_data biased_background_data : points)
  : Py (frame * frame) :=
  let signal_labels := repeat SIGNAL_LABEL (List.length signal_data) in
  signal_original <- hstack signal_data signal_labels ;;
  signal_biased <- hstack biased_signal_data signal_labels ;;
  let background_labels :=
    repeat BACKGROUND_LABEL (List.length background_data) in
  background_original <- hstack background_data background_labels ;;
  background_biased <- hstack biased_background_data background_labels ;;
  signal_df <- DataFrame dimension signal_original ;;
  signal_df_biased <- DataFrame dimension signal_biased ;;
  background_df <- DataFrame dimension background_original ;;
  background_df_biased <- DataFrame dimension background_biased ;;
  let generated_dataframe := (signal_df ++ background_df)%list in
  let biased_dataframe := (signal_df_biased ++ background_df_biased)%list in
  ret (generated_dataframe, biased_dataframe).

(** "Apply Box Systematics". *)
Definition apply_box (self : DataGenerator)
    (generated_dataframe biased_dataframe : frame) : Py (frame * frame) :=
  match systematic_box (loaded self) with
  | Some box =>
      let dfs :=
        Box_apply_systematics box generated_dataframe biased_dataframe in
      log SUCCESS "Box Systematics Applied!" ;;;
      ret dfs
  | None => ret (generated_dataframe, biased_dataframe)
  end.

(** [a[indices]] by position. *)
Fixpoint safe_indexing {A} (a : list A) (indices : list nat)
  : option (list A) :=
  match indices with
  | [] => Some []
  | i :: rest =>
      match nth_error a i, safe_indexing a rest with
      | Some x, Some xs => Some (x :: xs)
      | _, _ => None
      end
  end.

(** [sklearn.utils.shuffle(a, random_state=seed)] *)
Definition shuffle {A} (a : list A) (seed : Z) : Py (list A) :=
  or_raise "IndexError"
    (safe_indexing a (shuffled_indices seed (List.length a))).

(** "Separate original and biased data" and "shuffle data": each frame
    is split into its coordinate columns and its [y] column, and the four
    arrays are shuffled in four calls with [random_state=33]. *)
Definition separate_and_shuffle (generated_dataframe biased_dataframe : frame)
  : Py (points * list Z * (points * list Z)) :=
  let generated_data := map fst generated_dataframe in
  let generated_labels := map snd generated_dataframe in
  let biased_data := map fst biased_dataframe in
  let biased_labels := map snd biased_dataframe in
  generated_data <- shuffle generated_data 33 ;;
  generated_labels <- shuffle generated_labels 33 ;;
  biased_data <- shuffle biased_data 33 ;;
  biased_labels <- shuffle biased_labels 33 ;;
  ret (generated_data, generated_labels, (biased_data, biased_labels)).

Definition with_data (self : DataGenerator)
    (generated_data : points) (generated_labels : list Z)
    (biased_data : points) (biased_labels : list Z) : DataGenerator :=
  {| settings_ := settings_ self;
     signal_distribution := signal_distribution self;
     background_distribution := background_distribution self;
     loaded := loaded self;
     systematics_loaded := systematics_loaded self;
     generated_data := Some generated_data;
     generated_labels := Some generated_labels;
     biased_data := Some biased_data;
     biased_labels := Some biased_labels;
     problem_dimension := problem_dimension self;
     ps := ps self;
     pb := pb self;
     total_number_of_events := total_number_of_events self;
     number_of_background_events := number_of_background_events self;
     number_of_signal_events := number_of_signal_events self;
     apply_copula := apply_copula self;
     alpha := alpha self;
     beta := beta self |}.

(** The whole method.  The population centres written to the settings
    for visualisation do not feed back into the data and are left out.
    [Checker.distribution_is_not_loaded] and
    [Checker.data_is_not_generated] ([checker.py], not among the sources)
    are taken to test for [None]. *)
Definition generate_data (v : Pipeline) (self : DataGenerator)
  : Py DataGenerator :=
  signal_distribution <-
    match signal_distribution self with
    | None => log ERROR "Signal distribution is not loaded!" ;;; exit
    | Some d => ret d
    end ;;
  background_distribution <-
    match background_distribution self with
    | None => log ERROR "Background distribution is not loaded!" ;;; exit
    | Some d => ret d
    end ;;
  (if systematics_loaded self then ret tt
   else log ERROR "Systematics are not loaded!" ;;; exit) ;;;
  dimension <-
    item "problem_dimension" (settings.problem_dimension (settings_ self)) ;;
  drawn <- draw_data v self signal_distribution background_distribution ;;
  let '(signal_data, background_data,
        (biased_signal_data, biased_background_data)) := drawn in
  backgrounds <-
    copula_block v self background_data biased_background_data ;;
  let '(background_data, biased_background_data) := backgrounds in
  biased <-
    apply_point_systematics self biased_signal_data biased_background_data ;;
  let '(biased_signal_data, biased_background_data) := biased in
  dfs <- stack_frames dimension signal_data background_data
           biased_signal_data biased_background_data ;;
  dfs <- apply_box self (fst dfs) (snd dfs) ;;
  shuffled <- separate_and_shuffle (fst dfs) (snd dfs) ;;
  let '(generated_data, generated_labels, (biased_data, biased_labels)) :=
    shuffled in
  ret (with_data self generated_data generated_labels
         biased_data biased_labels).

(** ** [DataGenerator.save_data] *)

Definition newline : string := String (Ascii.ascii_of_nat 10) EmptyString.

(** [str(int(lbl))] *)
Definition str (z : Z) : string := NilZero.string_of_int (Z.to_int z).

(** The loop that writes a labels file: one label per line, no newline
    after the last. *)
Fixpoint write_labels (labels : list Z) : string :=
  match labels with
  | [] => EmptyString
  | lbl :: rest =>
      match rest with
      | [] => str lbl
      | _ => str lbl ++ newline ++ write_labels rest
      end
  end.

(** [path.endswith("/")] *)
Fixpoint ends_with_sep (path : string) : bool :=
  match path with
  | EmptyString => false
  | String c EmptyString => Ascii.eqb c (Ascii.ascii_of_nat 47)
  | String _ rest => ends_with_sep rest
  end.

(** [os.path.join(a, *p)] of [posixpath]: a component that starts with
    the separator replaces what precedes it; otherwise it is appended,
    after a separator unless the path is empty or ends with one. *)
Definition os_path_join (a : string) (p : list string) : string :=
  fold_left
    (fun path b =>
       if String.prefix "/" b then b
       else if String.eqb path "" || ends_with_sep path then path ++ b
       else path ++ "/" ++ b)
    p a.

(** ["train.csv"], or ["train_" + str(file_index) + ".csv"]. *)
Definition file_name (stem : string) (file_index : option Z)
    (extension : string) : string :=
  match file_index with
  | None => stem ++ extension
  | Some i => stem ++ "_" ++ str i ++ extension
  end.

(** The files of one split ([train] or [test]) and the settings file. *)
Definition data_file (split directory : string) (file_index : option Z)
  : string :=
  os_path_join (os_path_join directory [split; "data"])
    [file_name split file_index ".csv"].

Definition labels_file (split directory : string) (file_index : option Z)
  : string :=
  os_path_join (os_path_join directory [split; "labels"])
    [file_name split file_index ".labels"].

Definition settings_file (directory : string) (file_index : option Z)
  : string :=
  os_path_join (os_path_join directory ["settings"])
    [file_name "settings" file_index ".json"].

(** [if not os.path.exists(d): os.makedirs(d)] *)
Definition makedirs_if_missing (path : string) : Py unit :=
  present <- os_path_exists path ;;
  if present : bool then ret tt else os_call (Makedirs path).

(** [frame.to_csv(path, index=False)] *)
Definition write_csv (path : string) (data : option points) : Py unit :=
  data <-
    or_raise "AttributeError: 'NoneType' object has no attribute 'to_csv'"
      data ;;
  os_call (WriteFile path (to_csv data)).

(** The [with open(path, 'w')] block around the label loop.  The file
    is opened, and so emptied, before the labels are iterated. *)
Definition write_labels_file (path : string) (labels : option (list Z))
  : Py unit :=
  match labels with
  | Some labels => os_call (WriteFile path (write_labels labels))
  | None =>
      os_call (WriteFile path "") ;;;
      raise "TypeError: 'NoneType' object is not iterable"
  end.

Definition save_data (self : DataGenerator) (directory : string)
    (file_index : option Z) : Py unit :=
  match generated_data self with
  | None =>
      log ERROR "Data is not generated. First call `generate_data` function!" ;;;
      exit
  | Some _ => ret tt
  end ;;;
  present <- os_path_exists directory ;;
  (if present : bool then ret tt
   else
     log WARNING
       ("Directory " ++ directory ++ " does not exist. Creating directory!") ;;;
     os_call (Mkdir directory)) ;;;
  makedirs_if_missing (os_path_join directory ["train"; "data"]) ;;;
  makedirs_if_missing (os_path_join directory ["train"; "labels"]) ;;;
  makedirs_if_missing (os_path_join directory ["test"; "data"]) ;;;
  makedirs_if_missing (os_path_join directory ["test"; "labels"]) ;;;
  makedirs_if_missing (os_path_join directory ["settings"]) ;;;
  write_csv (data_file "train" directory file_index) (generated_data self) ;;;
  write_csv (data_file "test" directory file_index) (biased_data self) ;;;
  write_labels_file (labels_file "train" directory file_index)
    (generated_labels self) ;;;
  write_labels_file (labels_file "test" directory file_index)
    (biased_labels self) ;;;
  os_call (WriteFile (settings_file directory file_index)
             (fst (json_dump (settings_ self)))) ;;;
  match snd (json_dump (settings_ self)) with
  | Some e => raise e
  | None => ret tt
  end ;;;
  log SUCCESS "Train and Test data saved!".

(** ** Vocabulary of the properties *)

(** A world with some more lines logged. *)
Definition logging (w : World) (lines : list (Level * string)) : World :=
  {| random_state := random_state w;
     draws := draws w;
     logged := (logged w ++ lines)%list;
     os_calls := os_calls w |}.

(** A world in which some more draws were made, ending in random state
    [rs]. *)
Definition drawing (w : World) (rs : RandomState) (calls : list Call)
  : World :=
  {| random_state := rs;
     draws := (draws w ++ calls)%list;
     logged := logged w;
     os_calls := os_calls w |}.

(** A world in which the file system carried out some more calls. *)
Definition calling (w : World) (calls : list OsCall) : World :=
  {| random_state := random_state w;
     draws := draws w;
     logged := logged w;
     os_calls := (os_calls w ++ calls)%list |}.

(** One signal draw followed by one background draw. *)
Definition pair_of_draws (self : DataGenerator) (sd bd : Distribution)
  : list Call :=
  [Drawn sd (number_of_signal_events self) (problem_dimension self);
   Drawn bd (number_of_background_events self) (problem_dimension self)].

(** The enabled point systematics composed in the order Rotation,
    Translation, Scaling; a systematic that is not loaded is skipped. *)
Definition rotated (self : DataGenerator) (pts : points) : points :=
  match systematic_rotation (loaded self) with
  | Some r => Rotation_apply_systematics r (problem_dimension self) pts
  | None => pts
  end.

Definition translated (self : DataGenerator) (pts : points) : points :=
  match systematic_translation (loaded self) with
  | Some t => Translation_apply_systematics t (problem_dimension self) pts
  | None => pts
  end.

Definition scaled (self : DataGenerator) (pts : points) : points :=
  match systematic_scaling (loaded self) with
  | Some t => Scaling_apply_systematics t (problem_dimension self) pts
  | None => pts
  end.

Definition biased_by (self : DataGenerator) (pts : points) : points :=
  scaled self (translated self (rotated self pts)).

Definition line_if {T} (o : option T) (msg : string)
  : list (Level * string) :=
  match o with
  | Some _ => [(SUCCESS, msg)]
  | None => []
  end.

Definition applied_lines (self : DataGenerator) : list (Level * string) :=
  (line_if (systematic_rotation (loaded self)) "Rotation Systematics Applied!"
   ++ line_if (systematic_translation (loaded self))
        "Translation Systematics Applied!"
   ++ line_if (systematic_scaling (loaded self))
        "Scaling Systematics Applied!")%list.

Definition boxed (self : DataGenerator) (df_a df_b : frame) : frame * frame :=
  match systematic_box (loaded self) with
  | Some box => Box_apply_systematics box df_a df_b
  | None => (df_a, df_b)
  end.

(** Every point has [d] coordinates. *)
Definition shaped (d : nat) (pts : points) : Prop :=
  Forall (fun p => List.length p = d) pts.

(** Rows of points stacked with one constant label. *)
Definition labelled (pts : points) (lbl : Z) (n : nat) : frame :=
  combine pts (repeat lbl n).

(** The four draws the all-systematics edition makes, threaded through
    the random state. *)
Definition four_draws (self : DataGenerator) (sd bd : Distribution)
    (w : World) : points * points * (points * points) * RandomState :=
  let n_s := number_of_signal_events self in
  let n_b := number_of_background_events self in
  let d := problem_dimension self in
  let (signal_data, rs1) := generate_points sd n_s d (random_state w) in
  let (background_data, rs2) := generate_points bd n_b d rs1 in
  let (biased_signal_data, rs3) := generate_points sd n_s d rs2 in
  let (biased_background_data, rs4) := generate_points bd n_b d rs3 in
  (signal_data, background_data,
   (biased_signal_data, biased_background_data), rs4).

(** The two draws the mix edition makes. *)
Definition two_draws (self : DataGenerator) (sd bd : Distribution)
    (w : World) : points * points * RandomState :=
  let n_s := number_of_signal_events self in
  let n_b := number_of_background_events self in
  let d := problem_dimension self in
  let (signal_data, rs1) := generate_points sd n_s d (random_state w) in
  let (background_data, rs2) := generate_points bd n_b d rs1 in
  (signal_data, background_data, rs2).

(** "The original and the biased set come from two independent draws":
    a signal and a background draw for the original points, then a second
    signal and background draw of the same sizes for the biased points. *)
Definition independent_draws (v : Pipeline) : Prop :=
  forall self sd bd w,
    let '(s, b, (bs, bb), rs) := four_draws self sd bd w in
    draw_data v self sd bd w
    = (Return (s, b, (bs, bb)),
       logging (drawing w rs (pair_of_draws self sd bd
                              ++ pair_of_draws self sd bd))
         [(SUCCESS, "Data Generated!")]).

(** The biased points are the original draw itself. *)
Definition single_draw (v : Pipeline) : Prop :=
  forall self sd bd w,
    let '(s, b, rs) := two_draws self sd bd w in
    draw_data v self sd bd w
    = (Return (s, b, (s, b)),
       logging (drawing w rs (pair_of_draws self sd bd))
         [(SUCCESS, "Data Generated!")]).

(** Data and labels of equal length shuffled in two calls with one seed
    stay row-aligned: both outputs are the columns of one list of
    (row, label) pairs, the shuffle of the zipped input, and output
    position [j] holds the row and the label of the input position that
    the seed's index order puts there. *)
Definition aligned_shuffle {A B} (seed : Z) (data : list A)
    (labels : list B) (w : World) : Prop :=
  exists rows,
    shuffle (combine data labels) seed w = (Return rows, w) /\
    shuffle data seed w = (Return (map fst rows), w) /\
    shuffle labels seed w = (Return (map snd rows), w) /\
    Permutation rows (combine data labels) /\
    (forall j i,
        nth_error (shuffled_indices seed (List.length data)) j = Some i ->
        nth_error (map fst rows) j = nth_error data i /\
        nth_error (map snd rows) j = nth_error labels i) /\
    (forall i, (i < List.length data)%nat ->
        exists j,
          nth_error (map fst rows) j = nth_error data i /\
          nth_error (map snd rows) j = nth_error labels i).

(** The four shuffles that end [generate_data] return the columns of the
    shuffled original frame and of the shuffled biased frame. *)
Definition frames_stay_aligned (w : World) : Prop :=
  forall generated_dataframe biased_dataframe : frame,
    exists rows_g rows_b,
      shuffle generated_dataframe 33 w = (Return rows_g, w) /\
      shuffle biased_dataframe 33 w = (Return rows_b, w) /\
      separate_and_shuffle generated_dataframe biased_dataframe w
      = (Return (map fst rows_g, map snd rows_g,
                 (map fst rows_b, map snd rows_b)), w) /\
      Permutation rows_g generated_dataframe /\
      Permutation rows_b biased_dataframe.

(** A run of [generate_data] that returns, told stage by stage. *)
Inductive generate_data_run (v : Pipeline) (self : DataGenerator) (w : World)
  : DataGenerator -> World -> Prop :=
| Run (sd bd : Distribution) (dimension : nat)
      (signal_data background_drawn : points)
      (biased_signal_data biased_background_drawn : points)
      (w1 : World)
      (background_data biased_background_data : points)
      (copula_lines : list (Level * string))
      (generated_dataframe biased_dataframe : frame)
      (rows_g rows_b : frame) :
    signal_distribution self = Some sd ->
    background_distribution self = Some bd ->
    systematics_loaded self = true ->
    settings.problem_dimension (settings_ self) = Some dimension ->
    draw_data v self sd bd w
    = (Return (signal_data, background_drawn,
               (biased_signal_data, biased_background_drawn)), w1) ->
    copula_block v self background_drawn biased_background_drawn w1
    = (Return (background_data, biased_background_data),
       logging w1 copula_lines) ->
    generated_dataframe
    = (labelled signal_data SIGNAL_LABEL (List.length signal_data)
       ++ labelled background_data BACKGROUND_LABEL
            (List.length background_data))%list ->
    biased_dataframe
    = (labelled (biased_by self biased_signal_data) SIGNAL_LABEL
         (List.length signal_data)
       ++ labelled (biased_by self biased_background_data) BACKGROUND_LABEL
            (List.length background_data))%list ->
    List.length (biased_by self biased_signal_data)
    = List.length signal_data ->
    List.length (biased_by self biased_background_data)
    = List.length background_data ->
    forall w2,
    w2 = logging (logging (logging w1 copula_lines) (applied_lines self))
           (line_if (systematic_box (loaded self))
              "Box Systematics Applied!") ->
    shuffle (fst (boxed self generated_dataframe biased_dataframe)) 33 w2
    = (Return rows_g, w2) ->
    shuffle (snd (boxed self generated_dataframe biased_dataframe)) 33 w2
    = (Return rows_b, w2) ->
    generate_data_run v self w
      (with_data self (map fst rows_g) (map snd rows_g)
         (map fst rows_b) (map snd rows_b))
      w2.

(** "The copula is applied exactly when alpha and beta are set": with
    [apply_copula] on, both background point sets are remapped whenever
    the two parameters are set, and left alone with a warning whenever one
    of them is unset. *)
Definition copula_iff_set : Prop :=
  forall self background_data biased_background_data w,
    apply_copula self = true ->
    (forall a b, alpha self = Some a -> beta self = Some b ->
       copula self background_data biased_background_data w
       = (Return (copula_remap a b background_data,
                  copula_remap a b biased_background_data), w)) /\
    (alpha self = None \/ beta self = None ->
       copula self background_data biased_background_data w
       = (Return (background_data, biased_background_data),
          logging w
            [(WARNING,
              "Parameters of Gamma Distribution (alpha, beta) are not valid")])).

(** "The translation vector is exactly [z_magnitude * (cos alpha, sin
    alpha)]", alpha in degrees. *)
Definition exact_translation_vector (v : Pipeline) : Prop :=
  forall z_magnitude alpha : R,
    translation_z v z_magnitude alpha
    = [z_magnitude * cos (radians alpha); z_magnitude * sin (radians alpha)].

(** The derivation as each edition writes it. *)
Definition translation_vector_of (v : Pipeline) (z_magnitude alpha : R)
  : list R :=
  match v with
  | AllSystematics =>
      [z_magnitude * cos (radians alpha); z_magnitude * sin (radians alpha)]
  | Mix =>
      [z_magnitude * py_round (cos (radians alpha)) 2;
       z_magnitude * py_round (sin (radians alpha)) 2]
  end.

(** [self] with its translation set. *)
Definition with_translation (self : Systematics) (z : list R) : Systematics :=
  {| systematic_translation :=
       Some {| translation_name := SYSTEMATIC_TRANSLATION;
               translation_allowed_dimension := -1;
               translation_vector := z |};
     systematic_scaling := systematic_scaling self;
     systematic_box := systematic_box self;
     systematic_rotation := systematic_rotation self |}.

Definition with_scaling (self : Systematics) (scaling_factor : R)
  : Systematics :=
  {| systematic_translation := systematic_translation self;
     systematic_scaling :=
       Some {| scaling_name := SYSTEMATIC_SCALING;
               scaling_allowed_dimension := -1;
               scaling_vector := [scaling_factor; scaling_factor] |};
     systematic_box := systematic_box self;
     systematic_rotation := systematic_rotation self |}.

Definition with_box (self : Systematics) (center : list R) (box_length : R)
  : Systematics :=
  {| systematic_translation := systematic_translation self;
     systematic_scaling := systematic_scaling self;
     systematic_box :=
       Some {| box_name := SYSTEMATIC_BOX;
               box_center := center;
               box_length := box_length |};
     systematic_rotation := systematic_rotation self |}.

Definition with_rotation (self : Systematics) (rotation_degree : R)
  : Systematics :=
  {| systematic_translation := systematic_translation self;
     systematic_scaling := systematic_scaling self;
     systematic_box := systematic_box self;
     systematic_rotation :=
       Some {| rotation_name := SYSTEMATIC_BOX;
               rotation_degree := rotation_degree |} |}.

(** The calls of [generate_points] one run of [generate_data] makes. *)
Definition calls_of (v : Pipeline) (self : DataGenerator)
    (sd bd : Distribution) : list Call :=
  match v with
  | AllSystematics =>
      (pair_of_draws self sd bd ++ pair_of_draws self sd bd)%list
  | Mix => pair_of_draws self sd bd
  end.

End Model.

(** ** A deterministic stand-in for the outside world

    Used to run the model on concrete settings: the k-th call of
    [generate_points] returns [n] points whose coordinates all equal [k],
    the distribution functions are the identity on the quantile, and the
    shuffle reverses the rows.  The disk is empty at the start, a path
    exists once a call has made it, and no call fails; the CSV text is
    one line per row and the settings are dumped as an empty object. *)

Definition made (path : string) (c : OsCall) : bool :=
  match c with
  | Mkdir p | Makedirs p | WriteFile p _ => String.eqb p path
  end.

Definition replay : External := {|
  RandomState := nat;
  generate_points := fun _ n dimension k =>
    (repeat (repeat (IZR (Z.of_nat k)) dimension) (Z.to_nat n), S k);
  norm_cdf := fun x => x;
  gamma_ppf := fun q _ _ => q;
  shuffled_indices := fun _ n => rev (seq 0 n);
  shuffled_indices_perm := fun _ n =>
    Permutation_sym (Permutation_rev (seq 0 n));
  path_exists := fun calls path => existsb (made path) calls;
  os_error := fun _ _ => None;
  to_csv := fun data => String.concat "" (map (fun _ => "row;") data);
  json_dump := fun _ => ("{}", None)
|}.

Definition fresh : World (ext := replay) :=
  @Build_World replay O [] [] [].

Definition no_dist : dist.t :=
  {| dist.name := None; dist.mu := None; dist.sigma := None;
     dist.k := None; dist._theta_ := None |}.

Definition gaussian_dist (mu sigma : list R) : dist.t :=
  {| dist.name := Some DISTRIBUTION_GAUSSIAN;
     dist.mu := Some mu; dist.sigma := Some sigma;
     dist.k := None; dist._theta_ := None |}.

Definition named_dist (name : string) (mu sigma : list R) : dist.t :=
  {| dist.name := Some name;
     dist.mu := Some mu; dist.sigma := Some sigma;
     dist.k := None; dist._theta_ := None |}.

Definition translation_descriptor (z_magnitude alpha : R) : syst.t :=
  {| syst.name := Some SYSTEMATIC_TRANSLATION;
     syst.z_magnitude := Some z_magnitude;
     syst.alpha := Some alpha;
     syst.scaling_factor := None;
     syst.box_l := None;
     syst.rotation_degree := None |}.

(** Settings in the shape built by [setting.py], with the background
    and the signal given explicitly. *)
Definition example_settings (total : Z) (p_b : Q) (signal : dist.t)
    (systematics : list syst.t) : settings.t :=
  {| settings.problem_dimension := Some 2%nat;
     settings.total_number_of_events := Some total;
     settings.p_b := Some p_b;
     settings.generator := Some "normal";
     settings.background_distribution := Some (gaussian_dist [0; 0] [1; 1]);
     settings.signal_distribution := Some signal;
     settings.signal_from_background := Some false;
     settings.angle_rotation := None;
     settings.apply_copula := None;
     settings.alpha := None;
     settings.beta := None;
     settings.background_mu := Some [0; 0];
     settings.background_sigma := Some [1; 1];
     settings.background_angle_rotation := None;
     settings.signal_angle_rotation := None;
     settings.theta := Some 0;
     settings.L := Some 2;
     settings.signal_sigma_scale := Some (3 / 10);
     settings.systematics := Some systematics;
     settings.box_center := None |}.

(** [Setting.get_setting] of the starting kit ([setting.py]): the
    dictionary built from the number of events, the background fraction
    and the translation magnitude. *)
Definition get_setting (N : Z) (p_b : Q) (z : R) : settings.t :=
  {| settings.problem_dimension := Some 2%nat;
     settings.total_number_of_events := Some N;
     settings.p_b := Some p_b;
     settings.generator := Some "normal";
     settings.background_distribution := Some (gaussian_dist [0; 0] [1; 1]);
     settings.signal_distribution := None;
     settings.signal_from_background := Some true;
     settings.angle_rotation := None;
     settings.apply_copula := None;
     settings.alpha := None;
     settings.beta := None;
     settings.background_mu := None;
     settings.background_sigma := None;
     settings.background_angle_rotation := None;
     settings.signal_angle_rotation := None;
     settings.theta := Some 0;
     settings.L := Some 2;
     settings.signal_sigma_scale := Some (3 / 10);
     settings.systematics := Some [translation_descriptor z 90];
     settings.box_center := None |}.

Definition toy_signal : Distribution :=
  Gaussian {| g_mu := [2; 0]; g_sigma := [3 / 10; 3 / 10];
              g_generator := "normal"; g_angle_rotation := None |}.

Definition toy_background : Distribution :=
  Gaussian {| g_mu := [0; 0]; g_sigma := [1; 1];
              g_generator := "normal"; g_angle_rotation := None |}.

(** A loaded generator for four events in two dimensions, half of them
    background. *)
Definition toy_generator (systematics : Systematics) (apply_copula : bool)
    (alpha beta : option R) : DataGenerator :=
  {| settings_ := example_settings 4 (1 # 2) (gaussian_dist [2; 0] [1; 1]) [];
     signal_distribution := Some toy_signal;
     background_distribution := Some toy_background;
     loaded := systematics;
     systematics_loaded := true;
     generated_data := None;
     generated_labels := None;
     biased_data := None;
     biased_labels := None;
     problem_dimension := 2;
     ps := 1 # 2;
     pb := 1 # 2;
     total_number_of_events := 4;
     number_of_background_events := 2;
     number_of_signal_events := 2;
     apply_copula := apply_copula;
     alpha := alpha;
     beta := beta |}.

Definition toy_systematics : Systematics :=
  {| systematic_translation :=
       Some {| translation_name := SYSTEMATIC_TRANSLATION;
               translation_allowed_dimension := -1;
               translation_vector := [0; 1] |};
     systematic_scaling :=
       Some {| scaling_name := SYSTEMATIC_SCALING;
               scaling_allowed_dimension := -1;
               scaling_vector := [2; 2] |};
     systematic_box := None;
     systematic_rotation := None |}.

End Generator.

(** * More of [datagen_temp.py]: the check printed for every test fold *)

Module HEPMore.

Import HEP.
Open Scope Q_scope.



(** Every weight is positive. *)
Definition positive (weights : list Q) : Prop :=
  Forall (fun w => 0 < w) weights.


End HEPMore.

(** * More of the generators: [get_data], the label-writing loop, and
    vocabulary for further properties *)

Module GeneratorMore.

Import Counts Generator.
Open Scope string_scope.
Open Scope R_scope.

(** The dictionaries [{"data": ..., "labels": ...}] returned by
    [get_data]. *)
Module dataset.
Record t := {
  data : option points;
  labels : option (list Z)
}.
End dataset.

Section More.
Context {ext : External}.

(** ** [DataGenerator.get_data] (the same in both editions) *)

Definition get_data (self : DataGenerator)
  : Py (settings.t * dataset.t * dataset.t) :=
  match generated_data self with
  | None =>
      log ERROR "Data is not generated. First call `generate_data` function!" ;;;
      exit
  | Some _ => ret tt
  end ;;;
  let original_set :=
    {| dataset.data := generated_data self;
       dataset.labels := generated_labels self |} in
  let biased_set :=
    {| dataset.data := biased_data self;
       dataset.labels := biased_labels self |} in
  ret (settings_ self, original_set, biased_set).

(** ** The loop of [save_data] that writes a labels file

    [for ind, lbl in enumerate(labels)], with the index test
    [ind < len(labels) - 1] deciding whether a newline follows. *)
Fixpoint write_loop (len ind : Z) (labels : list Z) (file : string)
  : string :=
  match labels with
  | [] => file
  | lbl :: rest =>
      let str_label := str lbl in
      let file :=
        if (ind <? len - 1)%Z then file ++ (str_label ++ newline)
        else file ++ str_label in
      write_loop len (ind + 1) rest file
  end.

Definition written_labels (labels : list Z) : string :=
  write_loop (Z.of_nat (List.length labels)) 0 labels "".

(** ** Vocabulary *)

(** The names the loop over the descriptors reacts to. *)
Definition known_systematics : list string :=
  [SYSTEMATIC_TRANSLATION; SYSTEMATIC_SCALING; SYSTEMATIC_BOX;
   SYSTEMATIC_ROTATION].

(** Every operator that is loaded passed its guard, and carries what the
    loop wrote into it. *)
Definition within_thresholds (center : list R) (self : Systematics) : Prop :=
  (forall t, systematic_translation self = Some t ->
     translation_name t = SYSTEMATIC_TRANSLATION /\
     translation_allowed_dimension t = (-1)%Z /\
     List.length (translation_vector t) = 2%nat) /\
  (forall s, systematic_scaling self = Some s ->
     exists f, 1 < f /\ scaling_vector s = [f; f]) /\
  (forall b, systematic_box self = Some b ->
     1 < box_length b /\ box_center b = center) /\
  (forall r, systematic_rotation self = Some r ->
     rotation_degree r <> 0 /\ rotation_name r = SYSTEMATIC_BOX).

(** What [load_signal] returns: a Gaussian together with its mean as the
    box centre, or (all-systematics edition only) no distribution and
    the default centre. *)
Definition centred (v : Pipeline) (signal : option Distribution)
    (center : list R) : Prop :=
  match signal with
  | Some (Gaussian p) => center = g_mu p
  | Some (Gamma _) => False
  | None => center = [0; 0] /\ v = AllSystematics
  end.

(** The facts about a generator that the constructor returned. *)
Record constructed (v : Pipeline) (s : settings.t) (g : DataGenerator)
  : Prop := {
  c_dimension : settings.problem_dimension s = Some (problem_dimension g);
  c_total :
    settings.total_number_of_events s = Some (total_number_of_events g);
  c_pb : settings.p_b s = Some (pb g);
  c_signal_events :
    Counts.number_of_signal_events v (total_number_of_events g) (pb g)
    = inr (number_of_signal_events g);
  c_background_events :
    Counts.number_of_background_events (total_number_of_events g) (pb g)
    = inr (number_of_background_events g);
  c_background : background_distribution g <> None;
  c_loaded : systematics_loaded g = true;
  c_no_data : generated_data g = None /\ generated_labels g = None /\
              biased_data g = None /\ biased_labels g = None;
  c_center :
    exists center,
      centred v (signal_distribution g) center /\
      within_thresholds center (loaded g) /\
      (v = AllSystematics ->
       settings.box_center (settings_ g) = Some center);
  c_dimension_kept :
    settings.problem_dimension (settings_ g) = Some (problem_dimension g)
}.

(** [generate_points(n, dimension)] returns [n] points of [d]
    coordinates each. *)
Definition sampler_returns (d dimension : nat) : Prop :=
  forall dist n rs,
    let pts := fst (generate_points dist n dimension rs) in
    shaped d pts /\ List.length pts = Z.to_nat n.

(** The two count computations of the constructor: the first
    exception, or both counts. *)
Definition counts (v : Pipeline) (total : Z) (p_b : Q) : string + Z * Z :=
  match Counts.number_of_signal_events v total p_b with
  | inl e => inl e
  | inr n_s =>
      match Counts.number_of_background_events total p_b with
      | inl e => inl e
      | inr n_b => inr (n_s, n_b)
      end
  end.

(** [self] with other systematics loaded. *)
Definition with_systematics (self : DataGenerator) (systematics : Systematics)
  : DataGenerator :=
  {| settings_ := settings_ self;
     signal_distribution := signal_distribution self;
     background_distribution := background_distribution self;
     loaded := systematics;
     systematics_loaded := systematics_loaded self;
     generated_data := generated_data self;
     generated_labels := generated_labels self;
     biased_data := biased_data self;
     biased_labels := biased_labels self;
     problem_dimension := problem_dimension self;
     ps := ps self;
     pb := pb self;
     total_number_of_events := total_number_of_events self;
     number_of_background_events := number_of_background_events self;
     number_of_signal_events := number_of_signal_events self;
     apply_copula := apply_copula self;
     alpha := alpha self;
     beta := beta self |}.

End More.

(** A descriptor that carries only a name. *)
Definition named_descriptor (name : string) : syst.t :=
  {| syst.name := Some name;
     syst.z_magnitude := None;
     syst.alpha := None;
     syst.scaling_factor := None;
     syst.box_l := None;
     syst.rotation_degree := None |}.

Definition scaling_descriptor (scaling_factor : R) : syst.t :=
  {| syst.name := Some SYSTEMATIC_SCALING;
     syst.z_magnitude := None;
     syst.alpha := None;
     syst.scaling_factor := Some scaling_factor;
     syst.box_l := None;
     syst.rotation_degree := None |}.

Definition box_descriptor (box_l : R) : syst.t :=
  {| syst.name := Some SYSTEMATIC_BOX;
     syst.z_magnitude := None;
     syst.alpha := None;
     syst.scaling_factor := None;
     syst.box_l := Some box_l;
     syst.rotation_degree := None |}.

(** A settings dictionary with the [systematics] key deleted. *)
Definition without_systematics (s : settings.t) : settings.t :=
  {| settings.problem_dimension := settings.problem_dimension s;
     settings.total_number_of_events := settings.total_number_of_events s;
     settings.p_b := settings.p_b s;
     settings.generator := settings.generator s;
     settings.background_distribution := settings.background_distribution s;
     settings.signal_distribution := settings.signal_distribution s;
     settings.signal_from_background := settings.signal_from_background s;
     settings.angle_rotation := settings.angle_rotation s;
     settings.apply_copula := settings.apply_copula s;
     settings.alpha := settings.alpha s;
     settings.beta := settings.beta s;
     settings.background_mu := settings.background_mu s;
     settings.background_sigma := settings.background_sigma s;
     settings.background_angle_rotation :=
       settings.background_angle_rotation s;
     settings.signal_angle_rotation := settings.signal_angle_rotation s;
     settings.theta := settings.theta s;
     settings.L := settings.L s;
     settings.signal_sigma_scale := settings.signal_sigma_scale s;
     settings.systematics := None;
     settings.box_center := settings.box_center s |}.

End GeneratorMore.

(** * Rounding to an integer *)

Module PyNumFacts.
Import PyNum.
Open Scope Q_scope.

Lemma py_int_nonneg (q : Q) : 0 <= q -> py_int q = Qfloor q.
Proof.
  intros H. destruct q as [n d]. unfold py_int, Qfloor. simpl.
  apply Z.quot_div_nonneg; [| reflexivity].
  unfold Qle in H. simpl in H. lia.
Qed.

#[global] Instance round_half_even_comp : Proper (Qeq ==> eq) round_half_even.
Proof.
  intros x y E. unfold round_half_even.
  rewrite (Qfloor_comp _ _ E).
  assert (C : Qcompare (x - inject_Z (Qfloor y)) (1 # 2)
              = Qcompare (y - inject_Z (Qfloor y)) (1 # 2)).
  { apply Qcompare_comp; [rewrite E|]; reflexivity. }
  rewrite C. reflexivity.
Qed.

Lemma round_half_even_Z (k : Z) : round_half_even (inject_Z k) = k.
Proof.
  unfold round_half_even. rewrite Qfloor_Z.
  assert (L : Qcompare (inject_Z k - inject_Z k) (1 # 2) = Lt).
  { apply Qlt_alt. setoid_replace (inject_Z k - inject_Z k) with 0 by ring.
    reflexivity. }
  rewrite L. reflexivity.
Qed.

Lemma round_half_even_error (q : Q) :
  q - (1 # 2) <= inject_Z (round_half_even q) <= q + (1 # 2).
Proof.
  unfold round_half_even.
  pose proof (Qfloor_le q) as L. pose proof (Qlt_floor q) as U.
  rewrite inject_Z_plus in U. change (inject_Z 1) with 1 in U.
  destruct (Qcompare (q - inject_Z (Qfloor q)) (1 # 2)) eqn:C.
  - apply Qeq_alt in C.
    destruct (Z.even (Qfloor q));
      rewrite ?inject_Z_plus; change (inject_Z 1) with 1; lra.
  - apply Qlt_alt in C. lra.
  - apply Qgt_alt in C. rewrite inject_Z_plus. change (inject_Z 1) with 1. lra.
Qed.

Lemma round_half_even_floor (q : Q) :
  (Qfloor q <= round_half_even q <= Qfloor q + 1)%Z.
Proof.
  unfold round_half_even.
  destruct (Qcompare _ _); [destruct (Z.even _)| |]; lia.
Qed.

Lemma round_half_even_nonneg (q : Q) : 0 <= q -> (0 <= round_half_even q)%Z.
Proof.
  intros H.
  assert (F : (0 <= Qfloor q)%Z).
  { change 0%Z with (Qfloor 0). apply Qfloor_resp_le. exact H. }
  pose proof (round_half_even_floor q). lia.
Qed.

(** Rounding never crosses an integer. *)
Lemma round_half_even_ge (q : Q) (k : Z) :
  inject_Z k <= q -> (k <= round_half_even q)%Z.
Proof.
  intros H. apply Qfloor_resp_le in H. rewrite Qfloor_Z in H.
  pose proof (round_half_even_floor q). lia.
Qed.

Lemma round_half_even_le (q : Q) (k : Z) :
  q <= inject_Z k -> (round_half_even q <= k)%Z.
Proof.
  intros H. pose proof (round_half_even_floor q) as F.
  destruct (Z_lt_le_dec (Qfloor q) k) as [L|L]; [lia|].
  assert (E : q == inject_Z k).
  { apply Qle_antisym; [exact H|].
    apply Qle_trans with (inject_Z (Qfloor q)); [|apply Qfloor_le].
    rewrite <- Zle_Qle. exact L. }
  rewrite E, round_half_even_Z. lia.
Qed.



End PyNumFacts.

(** * Rounding to a double *)

Module PyFloatFacts.
Import PyNum PyFloat PyNumFacts.
Open Scope Q_scope.

(** ** Powers of two *)

Lemma pow2_pos (e : Z) : 0 < 2 ^ e.
Proof. apply Qpower_0_lt. reflexivity. Qed.

Lemma pow2_add (a b : Z) : 2 ^ (a + b) == 2 ^ a * 2 ^ b.
Proof. apply Qpower_plus. discriminate. Qed.

Lemma pow2_le (a b : Z) : (a <= b)%Z -> 2 ^ a <= 2 ^ b.
Proof. intros H. apply Qpower_le_compat_l; [exact H | discriminate]. Qed.

Lemma pow2_lt (a b : Z) : (a < b)%Z -> 2 ^ a < 2 ^ b.
Proof. intros H. apply Qpower_lt_compat_l; [exact H | reflexivity]. Qed.

Lemma pow2_lt_inv (a b : Z) : 2 ^ a < 2 ^ b -> (a < b)%Z.
Proof. intros H. apply (Qpower_lt_compat_l_inv 2); [exact H | reflexivity]. Qed.

Lemma pow2_Z (e : Z) : (0 <= e)%Z -> 2 ^ e == inject_Z (2 ^ e).
Proof. intros H. rewrite Zpower_Qpower by exact H. reflexivity. Qed.

Lemma pow2_succ (e : Z) : 2 ^ (e + 1) == 2 * 2 ^ e.
Proof. rewrite pow2_add. change (2 ^ 1) with 2. ring. Qed.

Lemma pow2_cancel (e : Z) : 2 ^ e * 2 ^ (- e) == 1.
Proof. rewrite <- pow2_add. replace (e + - e)%Z with 0%Z by lia. reflexivity. Qed.

Lemma div_pow2 (q : Q) (e : Z) : q / 2 ^ e == q * 2 ^ (- e).
Proof.
  pose proof (pow2_pos e) as P. pose proof (pow2_cancel e) as C.
  unfold Qdiv. rewrite <- (Qmult_1_r (/ 2 ^ e)), <- C.
  field. intros N. rewrite N in P. discriminate P.
Qed.

(** ** The binary exponent *)

Lemma ilog2_spec (q : Q) :
  0 < q -> 2 ^ ilog2 q <= q /\ q < 2 ^ (ilog2 q + 1).
Proof.
  intros Hq. unfold ilog2.
  destruct q as [n d]. simpl Qnum. simpl Qden.
  assert (Hn : (0 < n)%Z) by (unfold Qlt in Hq; simpl in Hq; lia).
  destruct (Z.log2_spec n Hn) as [N1 N2].
  destruct (Z.log2_spec (Zpos d) (Pos2Z.is_pos d)) as [D1 D2].
  pose proof (Z.log2_nonneg n) as Ln.
  pose proof (Z.log2_nonneg (Zpos d)) as Ld.
  set (ln := Z.log2 n) in *. set (ld := Z.log2 (Zpos d)) in *.
  rewrite Zle_Qle in N1, D1. rewrite Zlt_Qlt in N2, D2.
  unfold Z.succ in N2, D2.
  rewrite <- pow2_Z in N1, N2, D1, D2 by lia.
  assert (Dq : 0 < inject_Z (Zpos d)) by reflexivity.
  assert (E : n # d == inject_Z n / inject_Z (Zpos d)) by apply Qmake_Qdiv.
  assert (Up : n # d < 2 ^ (ln - ld + 1)).
  { rewrite E. apply Qlt_shift_div_r; [exact Dq|].
    apply Qlt_le_trans with (2 ^ (ln + 1)); [exact N2|].
    replace (ln + 1)%Z with ((ln - ld + 1) + ld)%Z by lia.
    rewrite pow2_add. apply Qmult_le_l; [apply pow2_pos | exact D1]. }
  assert (Lo : 2 ^ (ln - ld - 1) < n # d).
  { rewrite E. apply Qlt_shift_div_l; [exact Dq|].
    apply Qlt_le_trans with (2 ^ ln); [|exact N1].
    replace ln with ((ln - ld - 1) + (ld + 1))%Z at 2 by lia.
    rewrite pow2_add. apply Qmult_lt_l; [apply pow2_pos | exact D2]. }
  destruct (Qle_bool (2 ^ (ln - ld)) (n # d)) eqn:B.
  - apply Qle_bool_iff in B. split; assumption.
  - assert (B' : n # d < 2 ^ (ln - ld)).
    { apply Qnot_le_lt. intros C. apply Qle_bool_iff in C.
      rewrite C in B. discriminate B. }
    split.
    + apply Qlt_le_weak. exact Lo.
    + replace (ln - ld - 1 + 1)%Z with (ln - ld)%Z by lia. exact B'.
Qed.

Lemma ilog2_unique (q : Q) (k : Z) :
  2 ^ k <= q -> q < 2 ^ (k + 1) -> ilog2 q = k.
Proof.
  intros L U.
  assert (Hq : 0 < q) by (apply Qlt_le_trans with (2 ^ k); [apply pow2_pos | exact L]).
  destruct (ilog2_spec q Hq) as [L' U'].
  assert (A : (ilog2 q < k + 1)%Z).
  { apply pow2_lt_inv. apply Qle_lt_trans with q; assumption. }
  assert (B : (k < ilog2 q + 1)%Z).
  { apply pow2_lt_inv. apply Qle_lt_trans with q; assumption. }
  lia.
Qed.

Lemma ilog2_below (q : Q) (k : Z) : 0 < q -> q < 2 ^ k -> (ilog2 q < k)%Z.
Proof.
  intros Hq U. destruct (ilog2_spec q Hq) as [L _].
  apply pow2_lt_inv. apply Qle_lt_trans with q; assumption.
Qed.

Lemma ilog2_above (q : Q) (k : Z) : 2 ^ k <= q -> (k <= ilog2 q)%Z.
Proof.
  intros L.
  assert (Hq : 0 < q) by (apply Qlt_le_trans with (2 ^ k); [apply pow2_pos | exact L]).
  destruct (ilog2_spec q Hq) as [_ U].
  assert (k < ilog2 q + 1)%Z; [|lia].
  apply pow2_lt_inv. apply Qle_lt_trans with q; assumption.
Qed.

Lemma ilog2_eq (x y : Q) : 0 < x -> x == y -> ilog2 x = ilog2 y.
Proof.
  intros P E. destruct (ilog2_spec x P) as [L U]. symmetry.
  apply ilog2_unique; rewrite <- E; assumption.
Qed.

(** ** Rounding to the nearest double *)

(** The value on the grid of spacing [2 ^ e] nearest to [q]. *)
Definition on_grid (e : Z) (q : Q) : Q :=
  inject_Z (round_half_even (q / 2 ^ e)) * 2 ^ e.

Lemma nearest_on_grid (q : Q) : nearest q == on_grid (ulp_exponent q) q.
Proof. unfold nearest, on_grid. apply Qred_correct. Qed.

#[global] Instance on_grid_comp (e : Z) : Proper (Qeq ==> Qeq) (on_grid e).
Proof. intros x y E. unfold on_grid. rewrite E. reflexivity. Qed.

Lemma on_grid_zero (e : Z) (q : Q) : q == 0 -> on_grid e q == 0.
Proof.
  intros E. unfold on_grid.
  assert (Z0 : q / 2 ^ e == inject_Z 0) by (rewrite E; unfold Qdiv; ring).
  rewrite Z0, round_half_even_Z. ring.
Qed.

Lemma ulp_exponent_pos (q : Q) :
  0 < q -> ulp_exponent q = Z.max (ilog2 q - 52) (-1074).
Proof.
  intros P. unfold ulp_exponent.
  rewrite (ilog2_eq (Qabs q) q); [reflexivity | | apply Qabs_pos; lra].
  rewrite Qabs_pos; lra.
Qed.

Lemma Qabs_positive (x : Q) : ~ x == 0 -> 0 < Qabs x.
Proof.
  intros N. destruct (Qlt_le_dec 0 x) as [P|P].
  - rewrite Qabs_pos; lra.
  - destruct (Qlt_le_dec x 0) as [M|M].
    + rewrite Qabs_neg; lra.
    + contradiction N. apply Qle_antisym; assumption.
Qed.

Lemma nearest_eq (x y : Q) : x == y -> nearest x = nearest y.
Proof.
  intros E. unfold nearest. apply Qred_complete.
  fold (on_grid (ulp_exponent x) x). fold (on_grid (ulp_exponent y) y).
  destruct (Qeq_dec x 0) as [Z|NZ].
  - rewrite !on_grid_zero; [reflexivity | rewrite <- E; exact Z | exact Z].
  - assert (U : ulp_exponent x = ulp_exponent y).
    { unfold ulp_exponent. f_equal. f_equal.
      apply ilog2_eq; [apply Qabs_positive; exact NZ | rewrite E; reflexivity]. }
    rewrite U, E. reflexivity.
Qed.

Lemma on_grid_nonneg (e : Z) (q : Q) : 0 <= q -> 0 <= on_grid e q.
Proof.
  intros H. unfold on_grid. apply Qmult_le_0_compat.
  - change 0 with (inject_Z 0). rewrite <- Zle_Qle.
    apply round_half_even_nonneg.
    apply Qle_shift_div_l; [apply pow2_pos | lra].
  - apply Qlt_le_weak, pow2_pos.
Qed.

Lemma nearest_nonneg (q : Q) : 0 <= q -> 0 <= nearest q.
Proof. intros H. rewrite nearest_on_grid. apply on_grid_nonneg. exact H. Qed.

(** A multiple of the spacing is a point of the grid. *)
Lemma on_grid_le (e : Z) (q : Q) (k : Z) :
  q <= inject_Z k * 2 ^ e -> on_grid e q <= inject_Z k * 2 ^ e.
Proof.
  intros H. unfold on_grid.
  apply Qmult_le_compat_r; [|apply Qlt_le_weak, pow2_pos].
  rewrite <- Zle_Qle. apply round_half_even_le.
  apply Qle_shift_div_r; [apply pow2_pos | exact H].
Qed.

Lemma on_grid_ge (e : Z) (q : Q) (k : Z) :
  inject_Z k * 2 ^ e <= q -> inject_Z k * 2 ^ e <= on_grid e q.
Proof.
  intros H. unfold on_grid.
  apply Qmult_le_compat_r; [|apply Qlt_le_weak, pow2_pos].
  rewrite <- Zle_Qle. apply round_half_even_ge.
  apply Qle_shift_div_l; [apply pow2_pos | exact H].
Qed.

(** An integer is a multiple of every spacing [2 ^ e] with [e <= 0]. *)
Lemma int_on_grid (e : Z) (n : Z) :
  (e <= 0)%Z -> inject_Z n == inject_Z (n * 2 ^ (- e)) * 2 ^ e.
Proof.
  intros H. rewrite inject_Z_mult, <- (pow2_Z (- e)) by lia.
  rewrite <- Qmult_assoc, (Qmult_comm (2 ^ (- e))), pow2_cancel. ring.
Qed.

Lemma ulp_exponent_small (q : Q) :
  0 < q -> q < 2 ^ 53 -> (ulp_exponent q <= 0)%Z.
Proof.
  intros P U. rewrite ulp_exponent_pos by exact P.
  pose proof (ilog2_below q 53 P U). lia.
Qed.

(** Below [2 ^ 53] rounding never crosses an integer. *)
Lemma nearest_le_int (q : Q) (n : Z) :
  0 <= q -> q < 2 ^ 53 -> q <= inject_Z n -> nearest q <= inject_Z n.
Proof.
  intros P U H. rewrite nearest_on_grid.
  destruct (Qeq_dec q 0) as [Z|NZ].
  - rewrite on_grid_zero by exact Z. lra.
  - assert (P' : 0 < q) by lra.
    pose proof (ulp_exponent_small q P' U) as E.
    rewrite (int_on_grid _ n E) in H |- *. apply on_grid_le. exact H.
Qed.

Lemma nearest_ge_int (q : Q) (n : Z) :
  0 <= q -> q < 2 ^ 53 -> inject_Z n <= q -> inject_Z n <= nearest q.
Proof.
  intros P U H. rewrite nearest_on_grid.
  destruct (Qeq_dec q 0) as [Z|NZ].
  - rewrite on_grid_zero by exact Z. lra.
  - assert (P' : 0 < q) by lra.
    pose proof (ulp_exponent_small q P' U) as E.
    rewrite (int_on_grid _ n E) in H |- *. apply on_grid_ge. exact H.
Qed.

(** Integers below [2 ^ 53] are doubles. *)
Lemma nearest_int (n : Z) :
  (0 <= n < 2 ^ 53)%Z -> nearest (inject_Z n) == inject_Z n.
Proof.
  intros [L U].
  assert (P : 0 <= inject_Z n)
    by (change 0 with (inject_Z 0); rewrite <- Zle_Qle; exact L).
  assert (B : inject_Z n < 2 ^ 53).
  { rewrite pow2_Z by lia. rewrite <- Zlt_Qlt. exact U. }
  apply Qle_antisym.
  - apply nearest_le_int; [exact P | exact B | apply Qle_refl].
  - apply nearest_ge_int; [exact P | exact B | apply Qle_refl].
Qed.

(** The rounding error is at most half the spacing. *)
Lemma on_grid_error (e : Z) (q : Q) :
  q - 2 ^ (e - 1) <= on_grid e q /\ on_grid e q <= q + 2 ^ (e - 1).
Proof.
  unfold on_grid. pose proof (round_half_even_error (q / 2 ^ e)) as [L U].
  pose proof (pow2_pos (e - 1)) as P.
  assert (E2 : 2 ^ e == 2 * 2 ^ (e - 1)).
  { rewrite <- pow2_succ. replace (e - 1 + 1)%Z with e by lia. reflexivity. }
  set (p := 2 ^ (e - 1)) in *. set (d := 2 ^ e) in *. clearbody p d.
  set (r := inject_Z (round_half_even (q / d))) in *. clearbody r.
  assert (Eq : q == q / d * d).
  { field. intros N. rewrite N in E2. lra. }
  set (x := q / d) in *. clearbody x.
  rewrite Eq. split; nra.
Qed.





(** The relative error of a rounding is at most [2 ^ -53], up to
    half the spacing of the subnormal numbers. *)
Lemma nearest_error (q : Q) :
  0 <= q ->
  q - (q * 2 ^ (-53) + 2 ^ (-1075)) <= nearest q /\
  nearest q <= q + (q * 2 ^ (-53) + 2 ^ (-1075)).
Proof.
  intros P. rewrite nearest_on_grid.
  pose proof (pow2_pos (-1075)) as S.
  destruct (Qeq_dec q 0) as [Z|NZ].
  - rewrite on_grid_zero by exact Z. rewrite Z. lra.
  - assert (P' : 0 < q) by lra.
    destruct (on_grid_error (ulp_exponent q) q) as [L U].
    assert (B : 2 ^ (ulp_exponent q - 1) <= q * 2 ^ (-53) + 2 ^ (-1075)).
    { rewrite ulp_exponent_pos by exact P'.
      destruct (ilog2_spec q P') as [K _].
      destruct (Z.max_spec (ilog2 q - 52) (-1074)) as [[_ ->]|[_ ->]].
      - change (-1074 - 1)%Z with (-1075)%Z.
        assert (0 <= q * 2 ^ (-53))
          by (apply Qmult_le_0_compat; [exact P | apply Qlt_le_weak, pow2_pos]).
        lra.
      - replace (ilog2 q - 52 - 1)%Z with (ilog2 q + -53)%Z by lia.
        rewrite pow2_add.
        assert (2 ^ ilog2 q * 2 ^ (-53) <= q * 2 ^ (-53))
          by (apply Qmult_le_compat_r; [exact K | apply Qlt_le_weak, pow2_pos]).
        lra. }
    split; lra.
Qed.

(** ** Finite results *)

Lemma to_double_small (q : Q) :
  0 <= q -> q < 2 ^ 53 -> to_double q = Some (nearest q).
Proof.
  intros P U. unfold to_double.
  destruct (Qle_bool (2 ^ 1024) (Qabs (nearest q))) eqn:B; [|reflexivity].
  exfalso. apply Qle_bool_iff in B.
  rewrite Qabs_pos in B by (apply nearest_nonneg; exact P).
  assert (N : nearest q <= inject_Z (2 ^ 53)).
  { apply nearest_le_int; [exact P | exact U|].
    rewrite <- pow2_Z by lia. apply Qlt_le_weak. exact U. }
  rewrite <- pow2_Z in N by lia.
  assert (H : 2 ^ 53 < 2 ^ 1024) by (apply pow2_lt; lia).
  lra.
Qed.

End PyFloatFacts.

(** * The event counts *)

Module CountsFacts.
Import PyNum PyFloat Counts PyNumFacts PyFloatFacts.
Open Scope Q_scope.

Lemma to_double_eq (x y : Q) : x == y -> to_double x = to_double y.
Proof. intros E. unfold to_double. rewrite (nearest_eq x y E). reflexivity. Qed.


(** For a total below [2 ^ 53] and a fraction in [[0, 1]] the count is
    defined: it is the integer part of the rounded product, which lies
    between 0 and the total. *)
Lemma int_of_product_count (total : Z) (p : Q) :
  (0 <= total < 2 ^ 53)%Z -> 0 <= p -> p <= 1 ->
  int_of_product total p = inr (Qfloor (nearest (inject_Z total * p))) /\
  0 <= nearest (inject_Z total * p) /\
  nearest (inject_Z total * p) <= inject_Z total.
Proof.
  intros [T0 T1] P0 P1.
  assert (Tq0 : 0 <= inject_Z total)
    by (change 0 with (inject_Z 0); rewrite <- Zle_Qle; exact T0).
  assert (Tq1 : inject_Z total < 2 ^ 53).
  { rewrite pow2_Z by lia. rewrite <- Zlt_Qlt. exact T1. }
  assert (A0 : 0 <= inject_Z total * p) by (apply Qmult_le_0_compat; assumption).
  assert (A1 : inject_Z total * p <= inject_Z total).
  { set (t := inject_Z total) in *. clearbody t. nra. }
  assert (N0 : 0 <= nearest (inject_Z total * p)) by (apply nearest_nonneg; exact A0).
  assert (N1 : nearest (inject_Z total * p) <= inject_Z total).
  { apply nearest_le_int; [exact A0 | lra | exact A1]. }
  split; [|split; assumption].
  unfold int_of_product.
  rewrite (to_double_small (inject_Z total)) by assumption.
  rewrite (to_double_eq (nearest (inject_Z total) * p) (inject_Z total * p))
    by (rewrite nearest_int by lia; reflexivity).
  rewrite (to_double_small (inject_Z total * p)) by lra.
  rewrite py_int_nonneg by exact N0. reflexivity.
Qed.

Lemma unit_interval_rounding (x : Q) :
  0 <= x -> x <= 1 ->
  0 <= nearest x /\ nearest x <= 1 /\
  x - 2 ^ (-54) <= nearest x /\ nearest x <= x + 2 ^ (-54).
Proof.
  intros X0 X1.
  assert (B : x < 2 ^ 53).
  { apply Qle_lt_trans with 1; [exact X1|].
    change 1 with (2 ^ 0). apply pow2_lt. lia. }
  pose proof (pow2_pos (-54)) as S.
  split; [apply nearest_nonneg; exact X0|].
  split; [apply (nearest_le_int x 1); assumption|].
  destruct (Qeq_dec x 0) as [Z|NZ].
  { rewrite (nearest_eq x (inject_Z 0)) by exact Z.
    rewrite nearest_int by lia. rewrite Z. change (inject_Z 0) with 0. lra. }
  destruct (Qeq_dec x 1) as [O|NO].
  { rewrite (nearest_eq x (inject_Z 1)) by exact O.
    rewrite nearest_int by lia. rewrite O. change (inject_Z 1) with 1. lra. }
  assert (X0' : 0 < x) by lra.
  assert (X1' : x < 2 ^ 0).
  { change (2 ^ 0) with 1. apply Qle_lteq in X1. destruct X1 as [X1|X1];
      [exact X1 | contradiction]. }
  rewrite nearest_on_grid.
  destruct (on_grid_error (ulp_exponent x) x) as [L U].
  assert (E : 2 ^ (ulp_exponent x - 1) <= 2 ^ (-54)).
  { apply pow2_le. rewrite ulp_exponent_pos by exact X0'.
    pose proof (ilog2_below x 0 X0' X1'). lia. }
  lra.
Qed.

Lemma ps_mix_bounds (pb : Q) :
  0 <= pb -> pb <= 1 ->
  0 <= ps Mix pb /\ ps Mix pb <= 1 /\
  1 - pb - 2 ^ (-54) <= ps Mix pb /\ ps Mix pb <= 1 - pb + 2 ^ (-54).
Proof.
  intros P0 P1. unfold ps. apply unit_interval_rounding; lra.
Qed.

Lemma ps_bounds (v : Pipeline) (pb : Q) :
  0 <= pb -> pb <= 1 -> 0 <= ps v pb /\ ps v pb <= 1.
Proof.
  intros P0 P1. destruct v.
  - destruct (ps_mix_bounds pb P0 P1) as (X0 & X1 & _).
    unfold ps in *. unfold PyFloat.py_round, PyNum.py_round.
    change (inject_Z (10 ^ Z.of_nat 5)) with 100000.
    set (x := nearest (1 - pb)) in *.
    assert (R0 : (0 <= round_half_even (x * 100000))%Z).
    { apply round_half_even_nonneg. lra. }
    assert (R1 : (round_half_even (x * 100000) <= 100000)%Z).
    { apply round_half_even_le. change (inject_Z 100000) with 100000. lra. }
    rewrite Zle_Qle in R0, R1.
    change (inject_Z 0) with 0 in R0. change (inject_Z 100000) with 100000 in R1.
    set (r := inject_Z (round_half_even (x * 100000))) in *. clearbody r.
    assert (D0 : 0 <= r / 100000) by (apply Qle_shift_div_l; [reflexivity | lra]).
    assert (D1 : r / 100000 <= 1) by (apply Qle_shift_div_r; [reflexivity | lra]).
    destruct (unit_interval_rounding (r / 100000) D0 D1) as (A & B & _).
    split; assumption.
  - destruct (ps_mix_bounds pb P0 P1) as (X0 & X1 & _). split; assumption.
Qed.

Lemma Qfloor_ge (q : Q) (k : Z) : inject_Z k <= q -> (k <= Qfloor q)%Z.
Proof. intros H. rewrite <- (Qfloor_Z k). apply Qfloor_resp_le. exact H. Qed.



Lemma ps_all_error (pb : Q) :
  0 <= pb -> pb <= 1 ->
  1 - pb - ((1 # 200000) + 2 ^ (-53)) <= ps AllSystematics pb /\
  ps AllSystematics pb <= 1 - pb + ((1 # 200000) + 2 ^ (-53)).
Proof.
  intros P0 P1.
  destruct (ps_mix_bounds pb P0 P1) as (X0 & X1 & XL & XU).
  unfold ps in *. unfold PyFloat.py_round, PyNum.py_round.
  change (inject_Z (10 ^ Z.of_nat 5)) with 100000.
  set (x := nearest (1 - pb)) in *.
  destruct (round_half_even_error (x * 100000)) as [EL EU].
  assert (R0 : (0 <= round_half_even (x * 100000))%Z).
  { apply round_half_even_nonneg. lra. }
  assert (R1 : (round_half_even (x * 100000) <= 100000)%Z).
  { apply round_half_even_le. change (inject_Z 100000) with 100000. lra. }
  rewrite Zle_Qle in R0, R1.
  change (inject_Z 0) with 0 in R0. change (inject_Z 100000) with 100000 in R1.
  set (r := inject_Z (round_half_even (x * 100000))) in *. clearbody r.
  assert (D0 : 0 <= r / 100000) by (apply Qle_shift_div_l; [reflexivity | lra]).
  assert (D1 : r / 100000 <= 1) by (apply Qle_shift_div_r; [reflexivity | lra]).
  assert (DL : x - (1 # 200000) <= r / 100000)
    by (apply Qle_shift_div_l; [reflexivity | lra]).
  assert (DU : r / 100000 <= x + (1 # 200000))
    by (apply Qle_shift_div_r; [reflexivity | lra]).
  destruct (unit_interval_rounding (r / 100000) D0 D1) as (_ & _ & NL & NU).
  assert (U53 : 2 ^ (-53) == 2 ^ (-54) + 2 ^ (-54)) by reflexivity.
  set (d := r / 100000) in *. clearbody d x. lra.
Qed.

(** What holds for every background fraction in the all-systematics
    generator: the rounding of [ps] to five places can move the sum of
    the counts by [total / 200000] in either direction. *)
Lemma all_systematics_counts (total : Z) (pb : Q) :
  (0 <= total <= 2 ^ 51)%Z -> 0 <= pb -> pb <= 1 ->
  exists n_s n_b,
    number_of_signal_events AllSystematics total pb = inr n_s /\
    number_of_background_events total pb = inr n_b /\
    inject_Z total - inject_Z total / 200000 - 3 < inject_Z (n_s + n_b) /\
    inject_Z (n_s + n_b) < inject_Z total + inject_Z total / 200000 + 1.
Proof.
  intros [T0 T1] P0 P1.
  destruct (ps_bounds AllSystematics pb P0 P1) as (S0 & S1).
  destruct (ps_all_error pb P0 P1) as (SL & SU).
  assert (TB : (0 <= total < 2 ^ 53)%Z) by lia.
  destruct (int_of_product_count total (ps AllSystematics pb) TB S0 S1)
    as (Es & X0 & X1).
  destruct (int_of_product_count total pb TB P0 P1) as (Eb & Y0 & Y1).
  unfold number_of_signal_events, number_of_background_events.
  rewrite Es, Eb. eexists. eexists. split; [reflexivity|]. split; [reflexivity|].
  set (p := ps AllSystematics pb) in *. clearbody p.
  set (T := inject_Z total) in *.
  assert (Tq0 : 0 <= T)
    by (unfold T; change 0 with (inject_Z 0); rewrite <- Zle_Qle; exact T0).
  assert (Tq1 : T <= 2251799813685248).
  { unfold T. change 2251799813685248 with (inject_Z (2 ^ 51)).
    rewrite <- Zle_Qle. exact T1. }
  assert (U53 : 2 ^ (-53) == 1 # 9007199254740992) by reflexivity.
  assert (U1075 : 2 ^ (-1075) <= 1 # 9007199254740992).
  { rewrite <- U53. apply pow2_le. lia. }
  rewrite U53 in SL, SU.
  set (a := T * p) in *. set (c := T * pb) in *.
  assert (A0 : 0 <= a) by (apply Qmult_le_0_compat; assumption).
  assert (C0 : 0 <= c) by (apply Qmult_le_0_compat; assumption).
  assert (A1 : a <= T) by (unfold a; clearbody T; nra).
  assert (C1 : c <= T) by (unfold c; clearbody T; nra).
  assert (SumL : T - T * ((1 # 200000) + (1 # 9007199254740992)) <= a + c)
    by (unfold a, c; clearbody T; nra).
  assert (SumU : a + c <= T + T * ((1 # 200000) + (1 # 9007199254740992)))
    by (unfold a, c; clearbody T; nra).
  destruct (nearest_error a A0) as [_ XU].
  destruct (nearest_error c C0) as [_ YU].
  rewrite U53 in XU, YU.
  assert (Big : T < 2 ^ 53).
  { apply Qle_lt_trans with 2251799813685248; [exact Tq1 | reflexivity]. }
  assert (XL : inject_Z (Qfloor a) <= nearest a).
  { apply nearest_ge_int; [exact A0 | lra | apply Qfloor_le]. }
  assert (YL : inject_Z (Qfloor c) <= nearest c).
  { apply nearest_ge_int; [exact C0 | lra | apply Qfloor_le]. }
  pose proof (Qfloor_le (nearest a)) as FX.
  pose proof (Qfloor_le (nearest c)) as FY.
  pose proof (Qlt_floor a) as FA. pose proof (Qlt_floor c) as FC.
  rewrite inject_Z_plus in FA, FC. change (inject_Z 1) with 1 in FA, FC.
  assert (SA : (Qfloor a <= Qfloor (nearest a))%Z) by (apply Qfloor_ge; exact XL).
  assert (SC : (Qfloor c <= Qfloor (nearest c))%Z) by (apply Qfloor_ge; exact YL).
  rewrite Zle_Qle in SA, SC.
  rewrite inject_Z_plus.
  set (x := nearest a) in *. set (y := nearest c) in *.
  set (fx := inject_Z (Qfloor x)) in *. set (fy := inject_Z (Qfloor y)) in *.
  set (fa := inject_Z (Qfloor a)) in *. set (fc := inject_Z (Qfloor c)) in *.
  assert (D : T / 200000 == T * (1 # 200000)) by (unfold Qdiv; reflexivity).
  rewrite D.
  clearbody fx fy fa fc x y a c T. split; lra.
Qed.




(** ** The float arithmetic at work *)

Example counts_half :
  number_of_signal_events AllSystematics 1000 (1 # 2) = inr 500%Z /\
  number_of_background_events 1000 (1 # 2) = inr 500%Z.
Proof. split; vm_compute; reflexivity. Qed.

(** [100 * 0.29] is [28.999999999999996] in floats. *)
Example counts_100_029 :
  number_of_signal_events Mix 100 (literal (29 # 100)) = inr 71%Z /\
  number_of_background_events 100 (literal (29 # 100)) = inr 28%Z.
Proof. split; vm_compute; reflexivity. Qed.

(** [1 - 0.999995] lies above the tie [0.000005]. *)
Example ps_above_the_tie :
  ps AllSystematics (literal (999995 # 1000000)) = literal (1 # 100000).
Proof. vm_compute. reflexivity. Qed.

(** Beyond [2 ^ 53] the total itself is rounded: [2 ^ 53 + 3] events,
    half of them background, give one event more than the total. *)
Example counts_beyond_2_53 :
  number_of_signal_events Mix (2 ^ 53 + 3) (1 # 2) = inr (2 ^ 52 + 2)%Z /\
  number_of_background_events (2 ^ 53 + 3) (1 # 2) = inr (2 ^ 52 + 2)%Z.
Proof. split; vm_compute; reflexivity. Qed.

Example counts_lose_eight :
  number_of_signal_events Mix (10 ^ 17) (literal (3 # 10))
  = inr 69999999999999992%Z /\
  number_of_background_events (10 ^ 17) (literal (3 # 10))
  = inr 30000000000000000%Z.
Proof. split; vm_compute; reflexivity. Qed.

Example counts_5000000 :
  number_of_signal_events AllSystematics 5000000 (literal (161455 # 1000000))
  = inr 4192699%Z /\
  number_of_background_events 5000000 (literal (161455 # 1000000))
  = inr 807274%Z.
Proof. split; vm_compute; reflexivity. Qed.

Example counts_overflow :
  number_of_signal_events AllSystematics (10 ^ 400) (1 # 2)
  = inl "OverflowError: int too large to convert to float"%string.
Proof. vm_compute. reflexivity. Qed.

Example py_int_negative : py_int (- 7 # 2) = (-3)%Z.
Proof. reflexivity. Qed.

End CountsFacts.

Module HEPFacts.
Import HEP.
Open Scope Q_scope.

Example tenths_23 :
  option_map (map (@length nat)) (tenths (seq 0 23))
  = Some [2; 2; 2; 2; 2; 2; 2; 2; 2; 2; 2; 1]%nat.
Proof. reflexivity. Qed.

Example reweight_small :
  map Qred (reweight 6 10 [1; 0; 1; 0]%Z [1; 2; 2; 3]) = [2; 4; 4; 6].
Proof. vm_compute. reflexivity. Qed.

Lemma sum_scale_same (v : Z) (c : Q) (label : list Z) (weights : list Q) :
  np_sum (select v label (scale_where v c label weights))
  == np_sum (select v label weights) * c.
Proof.
  revert weights. induction label as [|l ls IH]; intros [|w ws]; simpl;
    try (unfold np_sum; simpl; ring).
  destruct (Z.eqb l v).
  - unfold np_sum in *. simpl. rewrite IH. ring.
  - apply IH.
Qed.

Lemma select_scale_other (v v' : Z) (c : Q) (label : list Z)
    (weights : list Q) :
  v <> v' ->
  select v' label (scale_where v c label weights) = select v' label weights.
Proof.
  intros N. revert weights.
  induction label as [|l ls IH]; intros [|w ws]; simpl; try reflexivity.
  destruct (Z.eqb_spec l v) as [->|D].
  - destruct (Z.eqb_spec v v'); [contradiction | apply IH].
  - rewrite IH. reflexivity.
Qed.

Lemma reweight_totals (S B : Q) (label : list Z) (weights : list Q) :
  nonzero_sums label weights ->
  totals label (reweight S B label weights) S B.
Proof.
  intros [Hs Hb]. unfold totals, reweight. split.
  - rewrite select_scale_other by discriminate.
    rewrite sum_scale_same. field. exact Hs.
  - rewrite sum_scale_same.
    rewrite select_scale_other by discriminate.
    field. exact Hb.
Qed.

Lemma test_loop_nth (S B : Q) (mu : nat -> Q) (ws : list (list Q))
    (ls : list (list Z)) (i0 i : nat) (l : list Z) (w : list Q) :
  nth_error ls i = Some l -> nth_error ws i = Some w ->
  nth_error (test_loop S B mu i0 ws ls) i
  = Some (test_fold S B (mu (i0 + i)%nat) l w).
Proof.
  revert ls i0 i. induction ws as [|w0 ws IH]; intros [|l0 ls] i0 [|i] Hl Hw;
    simpl in *; try discriminate.
  - injection Hl as ->. injection Hw as ->. rewrite Nat.add_0_r. reflexivity.
  - rewrite (IH ls (Datatypes.S i0) i Hl Hw).
    replace (Datatypes.S i0 + i)%nat with (i0 + Datatypes.S i)%nat by lia.
    reflexivity.
Qed.

(** C4.  In a run of the HEP [DataGenerator], with [S] and [B] the signal
    and background weight totals of the full reference dataset: the train
    split, the mu-calculation fold and every test fold whose own signal
    and background sums are nonzero come out of the reweighting block
    with signal total exactly [S] and background total exactly [B]
    (exact arithmetic).  A test fold is then written with its signal
    weights further multiplied by its ground-truth [mu]. *)
Theorem reweighting_matches_reference
    (label : list Z) (weights : list Q) (sp : Split) (mu : nat -> Q)
    (out : Output)
    (Hrun : DataGenerator label weights sp mu = Some out) :
  let S := np_sum (select 1 label weights) in
  let B := np_sum (select 0 label weights) in
  (nonzero_sums (train_label sp) (train_weights sp) ->
   totals (train_label sp) (out_train_weights out) S B) /\
  exists mu_calc_label test_label_ mu_calc_weights test_weights_,
    tenths (test_label sp) = Some (mu_calc_label :: test_label_) /\
    tenths (test_weights sp) = Some (mu_calc_weights :: test_weights_) /\
    (nonzero_sums mu_calc_label mu_calc_weights ->
     totals mu_calc_label (out_mu_calc_weights out) S B) /\
    forall i l w,
      nth_error test_label_ i = Some l ->
      nth_error test_weights_ i = Some w ->
      nonzero_sums l w ->
      totals l (reweight S B l w) S B /\
      nth_error (out_test_weights out) i
      = Some (scale_where 1 (mu i) l (reweight S B l w)).
Proof.
  intros S B. unfold DataGenerator in Hrun. fold S B in Hrun.
  destruct (tenths (test_weights sp)) as [[|mw tws]|] eqn:Ew; try discriminate.
  destruct (tenths (test_label sp)) as [[|ml tls]|] eqn:El; try discriminate.
  injection Hrun as <-. simpl. split.
  - apply reweight_totals.
  - exists ml, tls, mw, tws.
    split; [reflexivity|]. split; [reflexivity|]. split.
    + apply reweight_totals.
    + intros i l w Hl Hw Hnz. split.
      * apply reweight_totals. exact Hnz.
      * apply (test_loop_nth S B mu tws tls 0 i l w Hl Hw).
Qed.

Lemma reweighting_matches_reference_witness :
  exists out,
    DataGenerator toy_label toy_weights toy_split (fun _ => 2) = Some out /\
    (nonzero_sums (train_label toy_split) (train_weights toy_split) ->
     totals (train_label toy_split) (out_train_weights out)
       (np_sum (select 1 toy_label toy_weights))
       (np_sum (select 0 toy_label toy_weights))).
Proof.
  eexists. split; [reflexivity|].
  apply (reweighting_matches_reference toy_label toy_weights toy_split
           (fun _ => 2) _ eq_refl).
Defined.

End HEPFacts.

Module GeneratorFacts.
Import Counts Generator.
Open Scope string_scope.
Open Scope R_scope.

Section Facts.
Context {ext : External}.

(** ** Running the effect monad *)

Lemma bind_Return {A B} (m : Py A) (f : A -> Py B) (w w' : World) (b : B) :
  bind m f w = (Return b, w') ->
  exists a w1, m w = (Return a, w1) /\ f a w1 = (Return b, w').
Proof.
  unfold bind. destruct (m w) as [[a| |e] w1]; intros H; try discriminate.
  exists a, w1. split; [reflexivity | exact H].
Qed.

Lemma bind_run {A B} (m : Py A) (f : A -> Py B) (w w1 : World) (a : A) :
  m w = (Return a, w1) -> bind m f w = f a w1.
Proof. intros H. unfold bind. rewrite H. reflexivity. Qed.

Lemma ret_Return {A} (a b : A) (w w' : World) :
  ret a w = (Return b, w') -> a = b /\ w = w'.
Proof. unfold ret. intros H. injection H as -> ->. split; reflexivity. Qed.

Lemma log_run (l : Level) (msg : string) (w : World) :
  log l msg w = (Return tt, logging w [(l, msg)]).
Proof. reflexivity. Qed.

Lemma logging_nil (w : World) : logging w [] = w.
Proof. destruct w. unfold logging. simpl. rewrite app_nil_r. reflexivity. Qed.

Lemma logging_app (w : World) (l1 l2 : list (Level * string)) :
  logging (logging w l1) l2 = logging w (l1 ++ l2)%list.
Proof. unfold logging. simpl. rewrite app_assoc. reflexivity. Qed.

(** ** Indexing by a list of positions *)

Lemma safe_indexing_map {A B} (f : A -> B) (a : list A) (indices : list nat) :
  safe_indexing (map f a) indices = option_map (map f) (safe_indexing a indices).
Proof.
  induction indices as [|i rest IH]; simpl; [reflexivity|].
  rewrite nth_error_map, IH.
  destruct (nth_error a i); simpl; [|reflexivity].
  destruct (safe_indexing a rest); reflexivity.
Qed.

Lemma safe_indexing_total {A} (a : list A) (indices : list nat) :
  Forall (fun i => (i < List.length a)%nat) indices ->
  exists r, safe_indexing a indices = Some r.
Proof.
  induction 1 as [|i rest Hi _ [r IH]]; simpl.
  - exists []. reflexivity.
  - destruct (nth_error a i) as [x|] eqn:E.
    + rewrite IH. exists (x :: r). reflexivity.
    + apply nth_error_None in E. lia.
Qed.

Lemma safe_indexing_nth {A} (a : list A) (indices : list nat) (r : list A) :
  safe_indexing a indices = Some r ->
  forall j i, nth_error indices j = Some i -> nth_error r j = nth_error a i.
Proof.
  revert r. induction indices as [|i0 rest IH]; intros r H j i Hj.
  - destruct j; discriminate.
  - simpl in H. destruct (nth_error a i0) as [x|] eqn:E; [|discriminate].
    destruct (safe_indexing a rest) as [xs|]; [|discriminate].
    injection H as <-. destruct j as [|j]; simpl in *.
    + injection Hj as <-. symmetry. exact E.
    + apply (IH xs eq_refl j i Hj).
Qed.

Lemma safe_indexing_perm {A} (a : list A) (indices indices' : list nat) :
  Permutation indices indices' ->
  forall r, safe_indexing a indices = Some r ->
  exists r', safe_indexing a indices' = Some r' /\ Permutation r r'.
Proof.
  induction 1 as [|i l l' _ IH|i i' l|l l' l'' _ IH1 _ IH2]; intros r H.
  - exists r. split; [exact H | apply Permutation_refl].
  - simpl in *. destruct (nth_error a i) as [x|]; [|discriminate].
    destruct (safe_indexing a l) as [xs|]; [|discriminate].
    injection H as <-. destruct (IH xs eq_refl) as [xs' [E P]].
    rewrite E. exists (x :: xs'). split; [reflexivity|].
    apply perm_skip. exact P.
  - simpl in *. destruct (nth_error a i') as [x'|]; [|discriminate].
    destruct (nth_error a i) as [x|]; [|discriminate].
    destruct (safe_indexing a l) as [xs|]; [|discriminate].
    injection H as <-. exists (x :: x' :: xs). split; [reflexivity|].
    apply perm_swap.
  - destruct (IH1 r H) as [r1 [E1 P1]]. destruct (IH2 r1 E1) as [r2 [E2 P2]].
    exists r2. split; [exact E2|]. apply (Permutation_trans P1 P2).
Qed.

Lemma safe_indexing_seq {A} (pre a : list A) :
  safe_indexing (pre ++ a) (seq (List.length pre) (List.length a)) = Some a.
Proof.
  revert pre. induction a as [|x a IH]; intros pre; simpl; [reflexivity|].
  rewrite nth_error_app2 by lia. rewrite Nat.sub_diag. simpl.
  specialize (IH (pre ++ [x])%list).
  rewrite length_app, <- app_assoc in IH. simpl in IH.
  rewrite Nat.add_1_r in IH. rewrite IH. reflexivity.
Qed.

Lemma shuffled_indices_in_range (seed : Z) (n : nat) :
  Forall (fun i => (i < n)%nat) (shuffled_indices seed n).
Proof.
  apply Forall_forall. intros i Hi.
  apply (Permutation_in _ (shuffled_indices_perm seed n)) in Hi.
  apply in_seq in Hi. lia.
Qed.

(** The seeded shuffle always returns, leaves the world alone, and
    returns the rows of its argument in the index order fixed by the seed
    and the length. *)
Lemma shuffle_spec {A} (a : list A) (seed : Z) (w : World) :
  exists r,
    safe_indexing a (shuffled_indices seed (List.length a)) = Some r /\
    shuffle a seed w = (Return r, w) /\
    Permutation r a.
Proof.
  destruct (safe_indexing_total a _ (shuffled_indices_in_range seed _))
    as [r E].
  exists r. split; [exact E|]. split.
  - unfold shuffle. rewrite E. reflexivity.
  - pose proof (safe_indexing_seq [] a) as S0. simpl in S0.
    destruct (safe_indexing_perm a _ _
                (Permutation_sym (shuffled_indices_perm seed _)) a S0)
      as [r' [E' P]].
    rewrite E in E'. injection E' as <-. apply Permutation_sym. exact P.
Qed.

Lemma map_fst_combine_eq {A B} (a : list A) (b : list B) :
  List.length a = List.length b -> map fst (combine a b) = a.
Proof.
  revert b. induction a as [|x a IH]; intros [|y b] H; simpl in *;
    try discriminate; [reflexivity|].
  rewrite IH by lia. reflexivity.
Qed.

Lemma map_snd_combine_eq {A B} (a : list A) (b : list B) :
  List.length a = List.length b -> map snd (combine a b) = b.
Proof.
  revert b. induction a as [|x a IH]; intros [|y b] H; simpl in *;
    try discriminate; [reflexivity|].
  rewrite IH by lia. reflexivity.
Qed.

Lemma combine_fst_snd {A B} (l : list (A * B)) :
  combine (map fst l) (map snd l) = l.
Proof.
  induction l as [|[x y] l IH]; simpl; [reflexivity|].
  rewrite IH. reflexivity.
Qed.

(** Shuffling the columns of a frame separately gives the columns of the
    shuffled frame. *)
Lemma separate_and_shuffle_spec (generated_dataframe biased_dataframe : frame)
    (w : World) :
  exists rows_g rows_b,
    shuffle generated_dataframe 33 w = (Return rows_g, w) /\
    shuffle biased_dataframe 33 w = (Return rows_b, w) /\
    separate_and_shuffle generated_dataframe biased_dataframe w
    = (Return (map fst rows_g, map snd rows_g,
               (map fst rows_b, map snd rows_b)), w) /\
    Permutation rows_g generated_dataframe /\
    Permutation rows_b biased_dataframe.
Proof.
  destruct (shuffle_spec generated_dataframe 33 w) as [rg [Eg [Sg Pg]]].
  destruct (shuffle_spec biased_dataframe 33 w) as [rb [Eb [Sb Pb]]].
  exists rg, rb. repeat split; try assumption.
  unfold separate_and_shuffle, shuffle, bind.
  rewrite !safe_indexing_map, !length_map, Eg, Eb. reflexivity.
Qed.

Lemma shuffled_indices_onto (seed : Z) (n i : nat) :
  (i < n)%nat -> exists j, nth_error (shuffled_indices seed n) j = Some i.
Proof.
  intros Hi. apply In_nth_error.
  apply (Permutation_in _ (Permutation_sym (shuffled_indices_perm seed n))).
  apply in_seq. lia.
Qed.

(** C3.  For data and labels of equal length, shuffling them in two
    separate calls with the same seed applies the same index order to
    both: the label originally at position [i] ends up beside the data
    row originally at position [i].  Hence the four shuffle calls that
    end [generate_data] keep the rows and labels of the original and of
    the biased frame together. *)
Theorem shuffle_keeps_alignment {A B} (seed : Z) (data : list A)
    (labels : list B) (w : World)
    (Hlen : List.length data = List.length labels) :
  aligned_shuffle seed data labels w /\ frames_stay_aligned w.
Proof.
  split; [|intros g b; apply separate_and_shuffle_spec].
  destruct (shuffle_spec (combine data labels) seed w) as [rows [E [S P]]].
  assert (Ln : List.length (combine data labels) = List.length data).
  { rewrite length_combine. lia. }
  assert (Ed : safe_indexing data (shuffled_indices seed (List.length data))
               = Some (map fst rows)).
  { rewrite <- (map_fst_combine_eq data labels Hlen) at 1.
    rewrite safe_indexing_map, <- Ln, E. reflexivity. }
  assert (El : safe_indexing labels (shuffled_indices seed (List.length data))
               = Some (map snd rows)).
  { rewrite <- (map_snd_combine_eq data labels Hlen) at 1.
    rewrite safe_indexing_map, <- Ln, E. reflexivity. }
  exists rows. split; [exact S|]. split; [|split; [|split; [exact P|split]]].
  - unfold shuffle. rewrite Ed. reflexivity.
  - unfold shuffle. rewrite <- Hlen, El. reflexivity.
  - intros j i Hj. split.
    + apply (safe_indexing_nth _ _ _ Ed j i Hj).
    + apply (safe_indexing_nth _ _ _ El j i Hj).
  - intros i Hi. destruct (shuffled_indices_onto seed _ i Hi) as [j Hj].
    exists j. split.
    + apply (safe_indexing_nth _ _ _ Ed j i Hj).
    + apply (safe_indexing_nth _ _ _ El j i Hj).
Qed.

(** ** The draws *)

Lemma all_systematics_draws_twice : independent_draws AllSystematics.
Proof.
  intros self sd bd w. unfold four_draws, draw_data, bind, draw, log, ret.
  destruct (generate_points sd _ _ (random_state w)) as [s rs1]. simpl.
  destruct (generate_points bd _ _ rs1) as [b rs2]. simpl.
  destruct (generate_points sd _ _ rs2) as [bs rs3]. simpl.
  destruct (generate_points bd _ _ rs3) as [bb rs4]. simpl.
  unfold logging, drawing, pair_of_draws. simpl.
  rewrite <- !app_assoc. reflexivity.
Qed.

Lemma mix_draws_once : single_draw Mix.
Proof.
  intros self sd bd w. unfold two_draws, draw_data, bind, draw, log, ret.
  destruct (generate_points sd _ _ (random_state w)) as [s rs1]. simpl.
  destruct (generate_points bd _ _ rs1) as [b rs2]. simpl.
  unfold logging, drawing, pair_of_draws. simpl.
  rewrite <- !app_assoc. reflexivity.
Qed.


(** ** The stages of [generate_data] *)

Lemma copula_spec (self : DataGenerator) (b bb : points) (w : World) :
  exists r lines, copula self b bb w = (Return r, logging w lines).
Proof.
  unfold copula. destruct (apply_copula self).
  - destruct (if_truthy (alpha self)) as [a|];
      [destruct (if_truthy (beta self)) as [c|]|].
    + exists (copula_remap a c b, copula_remap a c bb), [].
      rewrite logging_nil. reflexivity.
    + eexists. eexists. reflexivity.
    + eexists. eexists. reflexivity.
  - exists (b, bb), []. rewrite logging_nil. reflexivity.
Qed.

Lemma copula_block_spec (v : Pipeline) (self : DataGenerator)
    (b bb : points) (w : World) :
  exists r lines, copula_block v self b bb w = (Return r, logging w lines).
Proof.
  destruct v; simpl; [apply copula_spec|].
  exists (b, bb), []. rewrite logging_nil. reflexivity.
Qed.

Lemma apply_point_systematics_spec (self : DataGenerator) (bs bb : points)
    (w : World) :
  apply_point_systematics self bs bb w
  = (Return (biased_by self bs, biased_by self bb),
     logging w (applied_lines self)).
Proof.
  unfold apply_point_systematics, biased_by, scaled, translated, rotated,
    applied_lines.
  destruct (systematic_rotation (loaded self)) as [r|];
    destruct (systematic_translation (loaded self)) as [t|];
    destruct (systematic_scaling (loaded self)) as [c|];
    unfold bind, ret; rewrite ?log_run; simpl;
    rewrite ?logging_app, ?logging_nil; reflexivity.
Qed.

Lemma apply_box_spec (self : DataGenerator) (df_a df_b : frame) (w : World) :
  apply_box self df_a df_b w
  = (Return (boxed self df_a df_b),
     logging w (line_if (systematic_box (loaded self))
                  "Box Systematics Applied!")).
Proof.
  unfold apply_box, boxed. destruct (systematic_box (loaded self)) as [b|].
  - reflexivity.
  - simpl. rewrite logging_nil. reflexivity.
Qed.

Lemma stack_frames_inv (dimension : nat) (s b bs bb : points)
    (w w' : World) (r : frame * frame) :
  stack_frames dimension s b bs bb w = (Return r, w') ->
  w' = w /\
  List.length bs = List.length s /\
  List.length bb = List.length b /\
  r = ((labelled s SIGNAL_LABEL (List.length s)
        ++ labelled b BACKGROUND_LABEL (List.length b))%list,
       (labelled bs SIGNAL_LABEL (List.length s)
        ++ labelled bb BACKGROUND_LABEL (List.length b))%list).
Proof.
  unfold stack_frames, hstack, DataFrame, bind, ret, raise, labelled.
  rewrite !repeat_length, !Nat.eqb_refl.
  destruct (Nat.eqb_spec (List.length bs) (List.length s)) as [E1|];
    [|discriminate].
  destruct (Nat.eqb_spec (List.length bb) (List.length b)) as [E2|];
    [|discriminate].
  repeat match goal with
         | |- context [forallb ?f ?l] => destruct (forallb f l)
         end; try discriminate.
  intros H. injection H as <- <-. repeat split; assumption.
Qed.

Lemma generate_data_inv (v : Pipeline) (self g' : DataGenerator)
    (w w' : World) :
  generate_data v self w = (Return g', w') ->
  generate_data_run v self w g' w'.
Proof.
  unfold generate_data. intros H.
  destruct (signal_distribution self) as [sd|] eqn:Es;
    [|apply bind_Return in H; destruct H as (? & ? & H & _); discriminate].
  destruct (background_distribution self) as [bd|] eqn:Eb;
    [|apply bind_Return in H; destruct H as (? & ? & _ & H);
      apply bind_Return in H; destruct H as (? & ? & H & _); discriminate].
  destruct (systematics_loaded self) eqn:El;
    [|apply bind_Return in H; destruct H as (? & ? & _ & H);
      apply bind_Return in H; destruct H as (? & ? & _ & H);
      apply bind_Return in H; destruct H as (? & ? & H & _); discriminate].
  apply bind_Return in H. destruct H as (? & ? & H0 & H).
  apply ret_Return in H0. destruct H0 as [<- <-].
  apply bind_Return in H. destruct H as (? & ? & H0 & H).
  apply ret_Return in H0. destruct H0 as [<- <-].
  apply bind_Return in H. destruct H as (? & ? & H0 & H).
  apply ret_Return in H0. destruct H0 as [_ <-].
  apply bind_Return in H. destruct H as (dimension & ? & Hd & H).
  destruct (settings.problem_dimension (settings_ self)) as [d|] eqn:Ed;
    [|discriminate].
  apply ret_Return in Hd. destruct Hd as [-> <-].
  apply bind_Return in H.
  destruct H as ([[s b0] [bs bb0]] & w1 & Hdraw & H).
  destruct (copula_block_spec v self b0 bb0 w1) as ([b bb] & lines & Hc).
  rewrite (bind_run _ _ _ _ _ Hc) in H.
  rewrite (bind_run _ _ _ _ _ (apply_point_systematics_spec self bs bb _)) in H.
  apply bind_Return in H. destruct H as (dfs & w3 & Hst & H).
  apply stack_frames_inv in Hst. destruct Hst as (-> & L1 & L2 & ->).
  rewrite (bind_run _ _ _ _ _ (apply_box_spec self _ _ _)) in H.
  simpl fst in H. simpl snd in H.
  match type of H with
  | bind (separate_and_shuffle ?a ?b) _ ?w0 = _ =>
      destruct (separate_and_shuffle_spec a b w0)
        as (rg & rb & Sg & Sb & Hs & _ & _)
  end.
  rewrite (bind_run _ _ _ _ _ Hs) in H.
  apply ret_Return in H. destruct H as [<- <-].
  eapply Run; try eassumption; try reflexivity.
Qed.

Lemma draw_data_calls (v : Pipeline) (self : DataGenerator)
    (sd bd : Distribution) (w w1 : World)
    (r : points * points * (points * points)) :
  draw_data v self sd bd w = (Return r, w1) ->
  draws w1 = (draws w ++ calls_of v self sd bd)%list.
Proof.
  intros H. destruct v.
  - pose proof (all_systematics_draws_twice self sd bd w) as D.
    destruct (four_draws self sd bd w) as [[[s b] [bs bb]] rs].
    rewrite D in H. injection H as _ <-. reflexivity.
  - pose proof (mix_draws_once self sd bd w) as D.
    destruct (two_draws self sd bd w) as [[s b] rs].
    rewrite D in H. injection H as _ <-. reflexivity.
Qed.

(** C1, as amended.  The all-systematics [generate_data] makes two
    independent pairs of [generate_points] calls of the same sizes, one
    for the original and one for the biased points.  The mix
    [generate_data] makes a single pair of calls, and its biased points
    start out as the original arrays themselves.  A run that returns has
    made exactly these calls: four in the all-systematics edition, two in
    the mix edition. *)
Theorem draws_per_edition :
  independent_draws AllSystematics /\
  single_draw Mix /\
  forall v self w g' w',
    generate_data v self w = (Return g', w') ->
    exists sd bd,
      signal_distribution self = Some sd /\
      background_distribution self = Some bd /\
      draws w' = (draws w ++ calls_of v self sd bd)%list.
Proof.
  split; [exact all_systematics_draws_twice|].
  split; [exact mix_draws_once|].
  intros v self w g' w' H. apply generate_data_inv in H.
  destruct H as [sd bd dimension s b0 bs bb0 w1 b bb lines gdf bdf rg rb
                   Es Eb _ _ Hd _ _ _ _ _ w2 -> _ _].
  exists sd, bd. split; [exact Es|]. split; [exact Eb|].
  simpl. apply (draw_data_calls _ _ _ _ _ _ _ Hd).
Qed.

(** C5.  In a run of [generate_data] that returns, the enabled point
    systematics act on the biased signal and on the biased background
    separately, composed in the order Rotation, Translation, Scaling
    ([biased_by]), their success lines are logged in that order, and Box
    acts afterwards on the concatenated signal+background original and
    biased frames together; a systematic that was not constructed leaves
    the data as it was. *)
Theorem systematics_applied_in_order (v : Pipeline) (self g' : DataGenerator)
    (w w' : World) (Hrun : generate_data v self w = (Return g', w')) :
  generate_data_run v self w g' w' /\
  (forall bs bb w0,
      apply_point_systematics self bs bb w0
      = (Return (scaled self (translated self (rotated self bs)),
                 scaled self (translated self (rotated self bb))),
         logging w0 (applied_lines self))) /\
  (forall df_a df_b w0,
      apply_box self df_a df_b w0
      = (Return (boxed self df_a df_b),
         logging w0 (line_if (systematic_box (loaded self))
                       "Box Systematics Applied!"))) /\
  (systematic_rotation (loaded self) = None ->
   forall pts, rotated self pts = pts) /\
  (systematic_translation (loaded self) = None ->
   forall pts, translated self pts = pts) /\
  (systematic_scaling (loaded self) = None ->
   forall pts, scaled self pts = pts) /\
  (systematic_box (loaded self) = None ->
   forall df_a df_b, boxed self df_a df_b = (df_a, df_b)).
Proof.
  split; [apply generate_data_inv; exact Hrun|].
  split; [intros; apply apply_point_systematics_spec|].
  split; [intros; apply apply_box_spec|].
  unfold rotated, translated, scaled, boxed.
  repeat split; intros E; rewrite E; reflexivity.
Qed.

(** ** Runs that return *)

Lemma add_vector_length (v : list R) (p : point) :
  List.length (add_vector v p) = List.length p.
Proof.
  revert p. induction v as [|a v IH]; intros [|x p]; simpl; try reflexivity.
  rewrite IH. reflexivity.
Qed.

Lemma scale_vector_length (v : list R) (p : point) :
  List.length (scale_vector v p) = List.length p.
Proof.
  revert p. induction v as [|a v IH]; intros [|x p]; simpl; try reflexivity.
  rewrite IH. reflexivity.
Qed.

Lemma rotate_length (deg : R) (p : point) :
  List.length (rotate deg p) = List.length p.
Proof. destruct p as [|x [|y rest]]; reflexivity. Qed.

Lemma shaped_map (d : nat) (f : point -> point) (pts : points) :
  (forall p, List.length (f p) = List.length p) ->
  shaped d pts -> shaped d (map f pts).
Proof.
  intros Hf H. unfold shaped in *. rewrite Forall_map.
  apply (Forall_impl _ (fun p (E : List.length p = d) =>
                          eq_trans (Hf p) E) H).
Qed.

Lemma biased_by_shaped (self : DataGenerator) (d : nat) (pts : points) :
  shaped d pts -> shaped d (biased_by self pts).
Proof.
  intros H. unfold biased_by, scaled, translated, rotated.
  destruct (systematic_rotation (loaded self)) as [r|];
    destruct (systematic_translation (loaded self)) as [t|];
    destruct (systematic_scaling (loaded self)) as [c|];
    unfold Rotation_apply_systematics, Translation_apply_systematics,
      Scaling_apply_systematics;
    repeat (apply shaped_map;
            [intros; first [apply scale_vector_length
                           | apply add_vector_length
                           | apply rotate_length]|]);
    exact H.
Qed.

Lemma biased_by_length (self : DataGenerator) (pts : points) :
  List.length (biased_by self pts) = List.length pts.
Proof.
  unfold biased_by, scaled, translated, rotated.
  destruct (systematic_rotation (loaded self)) as [r|];
    destruct (systematic_translation (loaded self)) as [t|];
    destruct (systematic_scaling (loaded self)) as [c|];
    unfold Rotation_apply_systematics, Translation_apply_systematics,
      Scaling_apply_systematics;
    rewrite ?length_map; reflexivity.
Qed.

Lemma copula_block_shaped (v : Pipeline) (self : DataGenerator) (d : nat)
    (b bb : points) (w : World) :
  shaped d b -> shaped d bb ->
  exists b' bb' lines,
    copula_block v self b bb w = (Return (b', bb'), logging w lines) /\
    (shaped d b' /\ shaped d bb') /\
    List.length b' = List.length b /\ List.length bb' = List.length bb.
Proof.
  intros Hb Hbb.
  assert (Same : exists b' bb' lines,
             (Return (b, bb), w)
             = (Return (b', bb'), logging w lines) /\
             (shaped d b' /\ shaped d bb') /\
             List.length b' = List.length b /\
             List.length bb' = List.length bb).
  { exists b, bb, []. rewrite logging_nil. repeat split; assumption. }
  destruct v; simpl; [|exact Same].
  unfold copula. destruct (apply_copula self); [|exact Same].
  destruct (if_truthy (alpha self)) as [a|];
    [destruct (if_truthy (beta self)) as [c|]|].
  - exists (copula_remap a c b), (copula_remap a c bb), [].
    rewrite logging_nil. split; [reflexivity|]. split.
    + split; apply shaped_map; try assumption; intros; apply length_map.
    + unfold copula_remap. rewrite !length_map. split; reflexivity.
  - eexists b, bb, _. split; [reflexivity|]. repeat split; assumption.
  - eexists b, bb, _. split; [reflexivity|]. repeat split; assumption.
Qed.

Lemma DataFrame_returns (d : nat) (pts : points) (labels : list Z)
    (w : World) :
  shaped d pts ->
  DataFrame d (combine pts labels) w = (Return (combine pts labels), w).
Proof.
  intros H. unfold DataFrame.
  match goal with
  | |- context [forallb ?f ?l] => assert (E : forallb f l = true)
  end.
  { revert labels. induction H as [|p pts Hp _ IH]; intros [|l labels];
      simpl; try reflexivity.
    rewrite Hp, Nat.eqb_refl. apply IH. }
  rewrite E. reflexivity.
Qed.

Lemma stack_frames_returns (d : nat) (s b bs bb : points) (w : World) :
  List.length bs = List.length s -> List.length bb = List.length b ->
  shaped d s -> shaped d b -> shaped d bs -> shaped d bb ->
  exists dfs, stack_frames d s b bs bb w = (Return dfs, w).
Proof.
  intros L1 L2 Hs Hb Hbs Hbb. unfold stack_frames, hstack, bind.
  rewrite !repeat_length, L1, L2, !Nat.eqb_refl.
  unfold ret at 1 2 3 4.
  rewrite !DataFrame_returns by assumption.
  eexists. reflexivity.
Qed.

(** With both distributions and the systematics loaded, and a sampler
    that returns as many points as asked for, each of the configured
    dimension, [generate_data] returns. *)
Lemma generate_data_returns (v : Pipeline) (self : DataGenerator)
    (sd bd : Distribution) (d : nat) (w : World) :
  signal_distribution self = Some sd ->
  background_distribution self = Some bd ->
  systematics_loaded self = true ->
  settings.problem_dimension (settings_ self) = Some d ->
  (forall dist n rs,
      let pts := fst (generate_points dist n (problem_dimension self) rs) in
      shaped d pts /\ List.length pts = Z.to_nat n) ->
  exists g' w', generate_data v self w = (Return g', w').
Proof.
  intros Es Eb El Ed Hg. unfold generate_data.
  rewrite Es, Eb, El, Ed.
  assert (Hd : exists s b0 bs bb0 w1,
             draw_data v self sd bd w = (Return (s, b0, (bs, bb0)), w1) /\
             (shaped d s /\ shaped d b0 /\ shaped d bs /\ shaped d bb0) /\
             List.length bs = List.length s /\
             List.length bb0 = List.length b0).
  { destruct v.
    - pose proof (all_systematics_draws_twice self sd bd w) as D.
      unfold four_draws in D.
      destruct (Hg sd (number_of_signal_events self) (random_state w))
        as [G1 N1].
      destruct (generate_points sd _ _ (random_state w)) as [s rs1].
      destruct (Hg bd (number_of_background_events self) rs1) as [G2 N2].
      destruct (generate_points bd _ _ rs1) as [b rs2].
      destruct (Hg sd (number_of_signal_events self) rs2) as [G3 N3].
      destruct (generate_points sd _ _ rs2) as [bs rs3].
      destruct (Hg bd (number_of_background_events self) rs3) as [G4 N4].
      destruct (generate_points bd _ _ rs3) as [bb rs4].
      simpl in *. exists s, b, bs, bb. eexists. split; [exact D|].
      split; [repeat split; assumption|]. split; congruence.
    - pose proof (mix_draws_once self sd bd w) as D.
      unfold two_draws in D.
      destruct (Hg sd (number_of_signal_events self) (random_state w))
        as [G1 _].
      destruct (generate_points sd _ _ (random_state w)) as [s rs1].
      destruct (Hg bd (number_of_background_events self) rs1) as [G2 _].
      destruct (generate_points bd _ _ rs1) as [b rs2].
      simpl in *. exists s, b, s, b. eexists. split; [exact D|].
      split; [repeat split; assumption|]. split; reflexivity. }
  destruct Hd as (s & b0 & bs & bb0 & w1 & Hd & (Ss & Sb0 & Sbs & Sbb0) & L1 & L2).
  destruct (copula_block_shaped v self d b0 bb0 w1 Sb0 Sbb0)
    as (b & bb & lines & Hc & (Sb & Sbb) & Lb & Lbb).
  assert (Lc : List.length bb = List.length b) by congruence.
  destruct (stack_frames_returns d s b (biased_by self bs) (biased_by self bb)
              (logging (logging w1 lines) (applied_lines self)))
    as [dfs Hst];
    try (apply biased_by_shaped); try assumption;
    rewrite ?biased_by_length; try assumption.
  match goal with
  | |- context [separate_and_shuffle] =>
      destruct (separate_and_shuffle_spec
                  (fst (boxed self (fst dfs) (snd dfs)))
                  (snd (boxed self (fst dfs) (snd dfs)))
                  (logging (logging (logging w1 lines) (applied_lines self))
                     (line_if (systematic_box (loaded self))
                        "Box Systematics Applied!")))
        as (rg & rb & _ & _ & Hs & _ & _)
  end.
  eexists. eexists.
  unfold bind at 1. unfold ret at 1. unfold bind at 1. unfold ret at 1.
  unfold bind at 1. unfold ret at 1. unfold bind at 1. unfold item, ret at 1.
  rewrite (bind_run _ _ _ _ _ Hd).
  rewrite (bind_run _ _ _ _ _ Hc).
  rewrite (bind_run _ _ _ _ _ (apply_point_systematics_spec self bs bb _)).
  rewrite (bind_run _ _ _ _ _ Hst).
  rewrite (bind_run _ _ _ _ _ (apply_box_spec self _ _ _)).
  simpl fst. simpl snd.
  rewrite (bind_run _ _ _ _ _ Hs).
  reflexivity.
Qed.


(** ** Labels *)

Lemma Box_keeps_labels_equal (box : Box) (df_a df_b : frame) :
  map snd df_a = map snd df_b ->
  map snd (fst (Box_apply_systematics box df_a df_b))
  = map snd (snd (Box_apply_systematics box df_a df_b)).
Proof.
  revert df_b. induction df_a as [|ra df_a IH]; intros [|rb df_b] H;
    simpl in *; try reflexivity; try discriminate.
  injection H as H1 H2. specialize (IH df_b H2).
  destruct (Box_apply_systematics box df_a df_b) as [a' b'].
  destruct (in_box box (fst ra) && in_box box (fst rb)); simpl in *.
  - rewrite H1, IH. reflexivity.
  - exact IH.
Qed.

(** The Box filter keeps the same number of rows in both frames, and
    every row it keeps lies in the box in both frames. *)
Lemma Box_rows_inside (box : Box) (df_a df_b : frame) :
  let (a', b') := Box_apply_systematics box df_a df_b in
  List.length a' = List.length b' /\
  Forall (fun r => in_box box (fst r) = true) a' /\
  Forall (fun r => in_box box (fst r) = true) b'.
Proof.
  revert df_b. induction df_a as [|ra df_a IH]; intros [|rb df_b]; simpl;
    try (repeat split; constructor).
  specialize (IH df_b).
  destruct (Box_apply_systematics box df_a df_b) as [a' b'].
  destruct IH as (L & Fa & Fb).
  destruct (in_box box (fst ra)) eqn:Ia; destruct (in_box box (fst rb)) eqn:Ib;
    simpl; repeat split; try assumption; try (constructor; assumption).
  rewrite L. reflexivity.
Qed.

Lemma boxed_keeps_labels_equal (self : DataGenerator) (df_a df_b : frame) :
  map snd df_a = map snd df_b ->
  map snd (fst (boxed self df_a df_b)) = map snd (snd (boxed self df_a df_b)).
Proof.
  unfold boxed. destruct (systematic_box (loaded self)).
  - apply Box_keeps_labels_equal.
  - intros H. exact H.
Qed.

Lemma labelled_labels (pts : points) (lbl : Z) (n : nat) :
  List.length pts = n -> map snd (labelled pts lbl n) = repeat lbl n.
Proof.
  intros H. unfold labelled. apply map_snd_combine_eq.
  rewrite repeat_length. exact H.
Qed.

Lemma shuffle_inv {A} (a r : list A) (seed : Z) (w w' : World) :
  shuffle a seed w = (Return r, w') ->
  safe_indexing a (shuffled_indices seed (List.length a)) = Some r.
Proof.
  unfold shuffle, or_raise.
  destruct (safe_indexing a _); [|discriminate].
  intros H. apply ret_Return in H. destruct H as [-> _]. reflexivity.
Qed.

Lemma shuffle_labels_equal (a b ra rb : frame) (seed : Z)
    (w1 w1' w2 w2' : World) :
  map snd a = map snd b ->
  shuffle a seed w1 = (Return ra, w1') ->
  shuffle b seed w2 = (Return rb, w2') ->
  map snd ra = map snd rb.
Proof.
  intros E Ha Hb. apply shuffle_inv in Ha, Hb.
  assert (L : List.length a = List.length b).
  { rewrite <- (length_map snd a), E. apply length_map. }
  pose proof (safe_indexing_map snd a (shuffled_indices seed (List.length a)))
    as Ma.
  pose proof (safe_indexing_map snd b (shuffled_indices seed (List.length b)))
    as Mb.
  rewrite Ha in Ma. rewrite Hb in Mb. rewrite E, L, Mb in Ma. simpl in Ma.
  injection Ma as Ma. symmetry. exact Ma.
Qed.

Example write_labels_three :
  write_labels [1; 0; 1]%Z = "1" ++ newline ++ "0" ++ newline ++ "1".
Proof. reflexivity. Qed.

(** ** [save_data] and the file system *)

Lemma log_calls (l : Level) (msg : string) (w w' : World) (a : unit) :
  log l msg w = (Return a, w') -> os_calls w' = os_calls w.
Proof. rewrite log_run. intros H. injection H as _ <-. reflexivity. Qed.

Lemma os_call_Return (c : OsCall) (w w' : World) (a : unit) :
  os_call c w = (Return a, w') -> os_calls w' = (os_calls w ++ [c])%list.
Proof.
  unfold os_call. destruct (os_error (os_calls w) c); [discriminate|].
  intros H. injection H as _ <-. reflexivity.
Qed.

Lemma os_call_run (c : OsCall) (w : World) :
  os_error (os_calls w) c = None -> os_call c w = (Return tt, calling w [c]).
Proof. intros H. unfold os_call. rewrite H. reflexivity. Qed.

Lemma makedirs_if_missing_calls (path : string) (w w' : World) (a : unit) :
  makedirs_if_missing path w = (Return a, w') ->
  exists calls, os_calls w' = (os_calls w ++ calls)%list.
Proof.
  unfold makedirs_if_missing, bind, os_path_exists.
  destruct (path_exists (os_calls w) path).
  - intros H. apply ret_Return in H. destruct H as [_ <-].
    exists []. rewrite app_nil_r. reflexivity.
  - intros H. apply os_call_Return in H. exists [Makedirs path]. exact H.
Qed.

Lemma write_csv_calls (path : string) (data : option points) (w w' : World)
    (a : unit) :
  write_csv path data w = (Return a, w') ->
  exists calls, os_calls w' = (os_calls w ++ calls)%list.
Proof.
  unfold write_csv. intros H. apply bind_Return in H.
  destruct H as (d & w1 & H1 & H2).
  destruct data as [d'|]; [|discriminate H1].
  apply ret_Return in H1. destruct H1 as [_ <-].
  apply os_call_Return in H2. eexists. exact H2.
Qed.

Lemma write_labels_file_Return (path : string) (labels : option (list Z))
    (w w' : World) (a : unit) :
  write_labels_file path labels w = (Return a, w') ->
  exists l,
    labels = Some l /\
    os_calls w' = (os_calls w ++ [WriteFile path (write_labels l)])%list.
Proof.
  unfold write_labels_file. destruct labels as [l|].
  - intros H. apply os_call_Return in H. exists l. split; [reflexivity | exact H].
  - intros H. apply bind_Return in H. destruct H as (? & w1 & _ & H).
    discriminate H.
Qed.

(** A run of [save_data] that returns wrote the two label files one
    after the other, each with the text of its label array. *)
Lemma save_data_inv (self : DataGenerator) (directory : string)
    (file_index : option Z) (w w' : World) (a : unit) :
  save_data self directory file_index w = (Return a, w') ->
  exists generated biased before after,
    generated_labels self = Some generated /\
    biased_labels self = Some biased /\
    os_calls w'
    = (os_calls w ++ before
       ++ [WriteFile (labels_file "train" directory file_index)
             (write_labels generated);
           WriteFile (labels_file "test" directory file_index)
             (write_labels biased)]
       ++ after)%list.
Proof.
  unfold save_data. intros H.
  apply bind_Return in H. destruct H as (? & w1 & H1 & H).
  assert (E1 : os_calls w1 = os_calls w).
  { destruct (generated_data self).
    - apply ret_Return in H1. destruct H1 as [_ <-]. reflexivity.
    - apply bind_Return in H1. destruct H1 as (? & ? & _ & H1). discriminate H1. }
  apply bind_Return in H. destruct H as (present & w1' & Hp & H).
  unfold os_path_exists in Hp. injection Hp as _ <-.
  apply bind_Return in H. destruct H as (? & w2 & H2 & H).
  assert (E2 : exists calls, os_calls w2 = (os_calls w1 ++ calls)%list).
  { destruct present.
    - apply ret_Return in H2. destruct H2 as [_ <-].
      exists []. rewrite app_nil_r. reflexivity.
    - apply bind_Return in H2. destruct H2 as (? & w2' & Hl & H2).
      apply log_calls in Hl. apply os_call_Return in H2.
      rewrite Hl in H2. eexists. exact H2. }
  apply bind_Return in H. destruct H as (? & w3 & H3 & H).
  apply makedirs_if_missing_calls in H3.
  apply bind_Return in H. destruct H as (? & w4 & H4 & H).
  apply makedirs_if_missing_calls in H4.
  apply bind_Return in H. destruct H as (? & w5 & H5 & H).
  apply makedirs_if_missing_calls in H5.
  apply bind_Return in H. destruct H as (? & w6 & H6 & H).
  apply makedirs_if_missing_calls in H6.
  apply bind_Return in H. destruct H as (? & w7 & H7 & H).
  apply makedirs_if_missing_calls in H7.
  apply bind_Return in H. destruct H as (? & w8 & H8 & H).
  apply write_csv_calls in H8.
  apply bind_Return in H. destruct H as (? & w9 & H9 & H).
  apply write_csv_calls in H9.
  apply bind_Return in H. destruct H as (? & w10 & H10 & H).
  apply write_labels_file_Return in H10. destruct H10 as (gl & Eg & C10).
  apply bind_Return in H. destruct H as (? & w11 & H11 & H).
  apply write_labels_file_Return in H11. destruct H11 as (bl & Eb & C11).
  apply bind_Return in H. destruct H as (? & w12 & H12 & H).
  apply os_call_Return in H12.
  apply bind_Return in H. destruct H as (? & w13 & H13 & H).
  assert (E13 : os_calls w13 = os_calls w12).
  { destruct (snd (json_dump (settings_ self))); [discriminate H13|].
    apply ret_Return in H13. destruct H13 as [_ <-]. reflexivity. }
  apply log_calls in H.
  destruct E2 as (c2 & E2). destruct H3 as (c3 & E3). destruct H4 as (c4 & E4).
  destruct H5 as (c5 & E5). destruct H6 as (c6 & E6). destruct H7 as (c7 & E7).
  destruct H8 as (c8 & E8). destruct H9 as (c9 & E9).
  exists gl, bl, (c2 ++ c3 ++ c4 ++ c5 ++ c6 ++ c7 ++ c8 ++ c9)%list.
  eexists. split; [exact Eg|]. split; [exact Eb|].
  rewrite H, E13, H12, C11, C10, E9, E8, E7, E6, E5, E4, E3, E2, E1.
  rewrite <- !app_assoc. reflexivity.
Qed.

(** A method that returns from every world. *)
Definition returns {A} (m : Py A) : Prop :=
  forall w, exists a w', m w = (Return a, w').

Lemma returns_bind {A B} (m : Py A) (f : A -> Py B) :
  returns m -> (forall a, returns (f a)) -> returns (bind m f).
Proof.
  intros Hm Hf w. destruct (Hm w) as (a & w1 & E).
  destruct (Hf a w1) as (b & w2 & E2). exists b, w2.
  rewrite (bind_run _ _ _ _ _ E). exact E2.
Qed.

Lemma returns_ret {A} (a : A) : returns (ret a).
Proof. intros w. exists a, w. reflexivity. Qed.

Lemma returns_log (l : Level) (msg : string) : returns (log l msg).
Proof. intros w. eexists. eexists. apply log_run. Qed.

Lemma returns_os_path_exists (path : string) : returns (os_path_exists path).
Proof. intros w. eexists. eexists. reflexivity. Qed.

Section Obliging.
Hypothesis no_error : forall calls c, os_error calls c = None.

Lemma returns_os_call (c : OsCall) : returns (os_call c).
Proof. intros w. eexists. eexists. apply os_call_run. apply no_error. Qed.

Lemma returns_makedirs_if_missing (path : string) :
  returns (makedirs_if_missing path).
Proof.
  apply returns_bind.
  - apply returns_os_path_exists.
  - intros [|]; [apply returns_ret | apply returns_os_call].
Qed.

(** With a file system that carries out every call and settings that
    can be dumped, [save_data] returns on a generator that holds its
    four arrays. *)
Lemma save_data_returns (self : DataGenerator) (directory : string)
    (file_index : option Z) :
  generated_data self <> None -> biased_data self <> None ->
  generated_labels self <> None -> biased_labels self <> None ->
  snd (json_dump (settings_ self)) = None ->
  returns (save_data self directory file_index).
Proof.
  intros G B GL BL J. unfold save_data.
  destruct (generated_data self) as [gd|]; [|contradiction G; reflexivity].
  destruct (biased_data self) as [bd|]; [|contradiction B; reflexivity].
  destruct (generated_labels self) as [gl|]; [|contradiction GL; reflexivity].
  destruct (biased_labels self) as [bl|]; [|contradiction BL; reflexivity].
  rewrite J.
  repeat first
    [ apply returns_ret
    | apply returns_log
    | apply returns_os_call
    | apply returns_os_path_exists
    | apply returns_makedirs_if_missing
    | match goal with |- returns (if ?b then _ else _) => destruct b end
    | apply returns_bind; [|intros ?] ].
Qed.

End Obliging.

(** C9.  After every run of [generate_data] that returns, the original
    and the biased label arrays are one and the same list.  Every run
    of [save_data] that returns has then written the train and the test
    labels file with one and the same content, the text of that list;
    and [save_data] does return when the file system carries out every
    call and the settings can be dumped.  (The Box systematic is the
    one modelled from the spec: it removes the same rows from both
    frames.) *)
Theorem labels_identical (v : Pipeline) (self g' : DataGenerator)
    (w w' : World) (Hrun : generate_data v self w = (Return g', w')) :
  exists labels,
    generated_labels g' = Some labels /\
    biased_labels g' = Some labels /\
    forall directory file_index w0,
      (forall w1,
         save_data g' directory file_index w0 = (Return tt, w1) ->
         exists before after,
           os_calls w1
           = (os_calls w0 ++ before
              ++ [WriteFile (labels_file "train" directory file_index)
                    (write_labels labels);
                  WriteFile (labels_file "test" directory file_index)
                    (write_labels labels)]
              ++ after)%list) /\
      ((forall calls c, os_error calls c = None) ->
       snd (json_dump (settings_ g')) = None ->
       exists w1, save_data g' directory file_index w0 = (Return tt, w1)).
Proof.
  apply generate_data_inv in Hrun.
  destruct Hrun as [sd bd dimension s b0 bs bb0 w1 b bb lines gdf bdf rg rb
                      _ _ _ _ _ _ Eg Ebf L1 L2 w2 _ Sg Sb].
  assert (E : map snd gdf = map snd bdf).
  { rewrite Eg, Ebf, !map_app, !labelled_labels by (assumption || reflexivity).
    reflexivity. }
  pose proof (shuffle_labels_equal _ _ _ _ _ _ _ _ _
                (boxed_keeps_labels_equal self gdf bdf E) Sg Sb) as El.
  exists (map snd rg). split; [reflexivity|]. split.
  - simpl. rewrite El. reflexivity.
  - intros directory file_index w0. split.
    + intros w3 Hs. apply save_data_inv in Hs.
      destruct Hs as (gl & bl & before & after & Hg & Hb & Hc).
      simpl in Hg, Hb. injection Hg as <-. injection Hb as <-.
      exists before, after. rewrite Hc, El. reflexivity.
    + intros Hos Hj.
      destruct (save_data_returns Hos
                  (with_data self (map fst rg) (map snd rg) (map fst rb)
                     (map snd rb))
                  directory file_index) with (w := w0) as ([] & w3 & Hs);
        try discriminate; [exact Hj|].
      exists w3. exact Hs.
Qed.

(** ** The copula guard *)

Lemma if_truthy_nonzero (a : R) : a <> 0 -> if_truthy (Some a) = Some a.
Proof.
  intros H. unfold if_truthy, truthy.
  destruct (Req_dec_T a 0); [contradiction | reflexivity].
Qed.

Lemma if_truthy_zero : if_truthy (Some 0) = None.
Proof.
  unfold if_truthy, truthy.
  destruct (Req_dec_T 0 0) as [_|N]; [reflexivity | contradiction N; reflexivity].
Qed.

(** C6, as amended.  With [apply_copula] on, both background point sets
    are remapped coordinate by coordinate through the normal CDF and the
    Gamma inverse CDF exactly when [alpha] and [beta] are both set and
    nonzero; when either is unset or zero, a warning is logged, both sets
    are left unchanged and generation proceeds. *)
Theorem copula_guard (self : DataGenerator)
    (background_data biased_background_data : points) (w : World)
    (Hc : apply_copula self = true) :
  (forall a b, alpha self = Some a -> beta self = Some b ->
     a <> 0 -> b <> 0 ->
     copula self background_data biased_background_data w
     = (Return (copula_remap a b background_data,
                copula_remap a b biased_background_data), w)) /\
  (alpha self = None \/ alpha self = Some 0 \/
   beta self = None \/ beta self = Some 0 ->
     copula self background_data biased_background_data w
     = (Return (background_data, biased_background_data),
        logging w
          [(WARNING,
            "Parameters of Gamma Distribution (alpha, beta) are not valid")])).
Proof.
  unfold copula. rewrite Hc. split.
  - intros a b Ea Eb Na Nb.
    rewrite Ea, Eb, (if_truthy_nonzero a Na), (if_truthy_nonzero b Nb).
    reflexivity.
  - intros [E|[E|[E|E]]]; rewrite E; rewrite ?if_truthy_zero;
      try reflexivity;
      destruct (if_truthy (alpha self)); reflexivity.
Qed.

(** ** Loading one systematic descriptor *)

Lemma load_translation (v : Pipeline) (c : list R) (self : Systematics)
    (d : syst.t) (z a : R) (w : World) :
  syst.name d = Some SYSTEMATIC_TRANSLATION ->
  syst.z_magnitude d = Some z -> syst.alpha d = Some a ->
  load_systematic v c self d w
  = (Return (with_translation self (translation_z v z a)), w).
Proof.
  intros Hn Hz Ha. unfold load_systematic. rewrite Hn, Hz, Ha. reflexivity.
Qed.

Lemma load_scaling (v : Pipeline) (c : list R) (self : Systematics)
    (d : syst.t) (f : R) (w : World) :
  syst.name d = Some SYSTEMATIC_SCALING -> syst.scaling_factor d = Some f ->
  load_systematic v c self d w
  = (Return (if Rlt_dec 1 f then with_scaling self f else self), w).
Proof.
  intros Hn Hf. unfold load_systematic. rewrite Hn, Hf.
  unfold bind, item, ret. simpl.
  destruct (Rlt_dec 1 f); reflexivity.
Qed.

Lemma load_box (v : Pipeline) (c : list R) (self : Systematics)
    (d : syst.t) (l : R) (w : World) :
  syst.name d = Some SYSTEMATIC_BOX -> syst.box_l d = Some l ->
  load_systematic v c self d w
  = (Return (if Rlt_dec 1 l then with_box self c l else self), w).
Proof.
  intros Hn Hl. unfold load_systematic. rewrite Hn, Hl.
  unfold bind, item, ret. simpl.
  destruct (Rlt_dec 1 l); reflexivity.
Qed.

Lemma load_rotation (v : Pipeline) (c : list R) (self : Systematics)
    (d : syst.t) (deg : R) (w : World) :
  syst.name d = Some SYSTEMATIC_ROTATION -> syst.rotation_degree d = Some deg ->
  load_systematic v c self d w
  = (Return (if Req_dec_T deg 0 then self else with_rotation self deg), w).
Proof.
  intros Hn Hl. unfold load_systematic. rewrite Hn, Hl.
  unfold bind, item, ret. simpl.
  destruct (Req_dec_T deg 0); reflexivity.
Qed.

Lemma translation_z_eq (v : Pipeline) (z a : R) :
  translation_z v z a = translation_vector_of v z a.
Proof.
  destruct v; unfold translation_z, translation_vector_of, np_multiply; simpl;
    rewrite !(Rmult_comm _ z); reflexivity.
Qed.

Lemma add_vector_zero (p : point) : add_vector [0; 0] p = p.
Proof.
  destruct p as [|x [|y rest]]; simpl; rewrite ?Rplus_0_r; reflexivity.
Qed.

Lemma translate_by_zero (t : Translation) (dimension : nat) (pts : points) :
  translation_vector t = [0; 0] ->
  Translation_apply_systematics t dimension pts = pts.
Proof.
  intros E. unfold Translation_apply_systematics. rewrite E.
  induction pts as [|p pts IH]; cbn [map]; [reflexivity|].
  rewrite add_vector_zero, IH. reflexivity.
Qed.

(** ** Rounding to two places *)

Lemma round_half_even_close (x : R) :
  x - 1 / 2 <= IZR (round_half_even x) <= x + 1 / 2.
Proof.
  unfold round_half_even.
  destruct (base_Int_part x) as [L U].
  destruct (Rcompare_spec (x - IZR (Int_part x)) (1 / 2)) as [E|E|E].
  - destruct (Z.even (Int_part x)); rewrite ?plus_IZR; lra.
  - lra.
  - rewrite plus_IZR. lra.
Qed.

Lemma py_round_2_close (x : R) : Rabs (py_round x 2 - x) <= 1 / 200.
Proof.
  unfold py_round. simpl pow.
  pose proof (round_half_even_close (x * (10 * (10 * 1)))) as H.
  apply Rabs_le. lra.
Qed.

(** ** The loop over the descriptors *)

Ltac decide_guards H :=
  repeat match type of H with
         | context [String.eqb ?n ?c] => destruct (String.eqb n c)
         | context [Rlt_dec ?x ?y] => destruct (Rlt_dec x y)
         | context [Req_dec_T ?x ?y] => destruct (Req_dec_T x y)
         end.

Lemma load_systematic_translation (v : Pipeline) (c : list R)
    (self self' : Systematics) (d : syst.t) (w w' : World) :
  load_systematic v c self d w = (Return self', w') ->
  (systematic_translation self <> None \/
   syst.name d = Some SYSTEMATIC_TRANSLATION) ->
  systematic_translation self' <> None.
Proof.
  intros H N. unfold load_systematic, bind, item, ret, raise in H.
  destruct d as [[name|] z a f l r]; simpl in *; [|discriminate H].
  destruct (String.eqb_spec name SYSTEMATIC_TRANSLATION) as [->|Dn].
  - destruct z, a; simpl in H; try discriminate H.
    injection H as <- _. simpl. discriminate.
  - destruct N as [N|N]; [|injection N as N; contradiction].
    destruct f, l, r; decide_guards H; simpl in H; try discriminate H;
      injection H as <- _; simpl; exact N.
Qed.

Lemma for_each_translation (v : Pipeline) (c : list R) (ds : list syst.t) :
  forall (self self' : Systematics) (w w' : World),
    for_each (load_systematic v c) self ds w = (Return self', w') ->
    (systematic_translation self <> None \/
     exists d, In d ds /\ syst.name d = Some SYSTEMATIC_TRANSLATION) ->
    systematic_translation self' <> None.
Proof.
  induction ds as [|d0 ds IH]; intros self self' w w' H N.
  - simpl in H. apply ret_Return in H. destruct H as [<- _].
    destruct N as [N|[d [[] _]]]. exact N.
  - simpl in H. apply bind_Return in H. destruct H as (s1 & w1 & H1 & H2).
    apply (IH _ _ _ _ H2).
    destruct N as [N|[d [[<-|I] Hd]]].
    + left. apply (load_systematic_translation _ _ _ _ _ _ _ H1). left. exact N.
    + left. apply (load_systematic_translation _ _ _ _ _ _ _ H1). right. exact Hd.
    + right. exists d. split; assumption.
Qed.

(** C8, as amended.  A Translation descriptor [(z_magnitude, alpha)],
    alpha in degrees, is loaded with the two-component vector
    [z_magnitude * (cos alpha, sin alpha)] in the all-systematics edition
    and with [z_magnitude * (round(cos alpha, 2), round(sin alpha, 2))] in
    the mix edition, each rounded factor within 0.005 of the exact one;
    applying the translation adds the vector to every point, on the first
    two axes only.  (The operator's [apply_systematics] is the one
    modelled from the spec.) *)
Theorem translation_vector_derivation (v : Pipeline) (c : list R)
    (self : Systematics) (d : syst.t) (z a : R) (w : World)
    (Hn : syst.name d = Some SYSTEMATIC_TRANSLATION)
    (Hz : syst.z_magnitude d = Some z) (Ha : syst.alpha d = Some a) :
  load_systematic v c self d w
  = (Return (with_translation self (translation_vector_of v z a)), w) /\
  Rabs (py_round (cos (radians a)) 2 - cos (radians a)) <= 1 / 200 /\
  Rabs (py_round (sin (radians a)) 2 - sin (radians a)) <= 1 / 200 /\
  (forall t dimension pts,
      Translation_apply_systematics t dimension pts
      = map (add_vector (translation_vector t)) pts) /\
  (forall vx vy x y rest,
      add_vector [vx; vy] (x :: y :: rest) = (x + vx) :: (y + vy) :: rest).
Proof.
  split; [rewrite <- translation_z_eq; apply load_translation; assumption|].
  split; [apply py_round_2_close|].
  split; [apply py_round_2_close|].
  split; reflexivity.
Qed.

(** C10.  A Translation descriptor constructs the translation operator
    for every [z_magnitude], zero and negative values included: loading
    it has no threshold, whereas Scaling is constructed only when
    [scaling_factor > 1], Box only when [box_l > 1] and Rotation only
    when [rotation_degree != 0]; after the loop over a descriptor list
    that contains a Translation descriptor the operator is set; and a
    [z_magnitude] of 0 gives the zero vector, whose translation leaves
    every point unchanged. *)
Theorem translation_has_no_threshold (v : Pipeline) (c : list R)
    (self : Systematics) (d : syst.t) (z a : R) (w : World)
    (Hn : syst.name d = Some SYSTEMATIC_TRANSLATION)
    (Hz : syst.z_magnitude d = Some z) (Ha : syst.alpha d = Some a) :
  load_systematic v c self d w
  = (Return (with_translation self (translation_z v z a)), w) /\
  (forall ds self0 self' w0 w',
      In d ds ->
      for_each (load_systematic v c) self0 ds w0 = (Return self', w') ->
      systematic_translation self' <> None) /\
  (z = 0 ->
   translation_z v z a = [0; 0] /\
   forall t dimension pts,
     translation_vector t = translation_z v z a ->
     Translation_apply_systematics t dimension pts = pts) /\
  (forall d' f,
      syst.name d' = Some SYSTEMATIC_SCALING ->
      syst.scaling_factor d' = Some f ->
      load_systematic v c self d' w
      = (Return (if Rlt_dec 1 f then with_scaling self f else self), w)) /\
  (forall d' l,
      syst.name d' = Some SYSTEMATIC_BOX ->
      syst.box_l d' = Some l ->
      load_systematic v c self d' w
      = (Return (if Rlt_dec 1 l then with_box self c l else self), w)) /\
  (forall d' deg,
      syst.name d' = Some SYSTEMATIC_ROTATION ->
      syst.rotation_degree d' = Some deg ->
      load_systematic v c self d' w
      = (Return (if Req_dec_T deg 0 then self else with_rotation self deg),
         w)).
Proof.
  split; [apply load_translation; assumption|].
  split.
  { intros ds self0 self' w0 w' I H.
    apply (for_each_translation _ _ _ _ _ _ _ H).
    right. exists d. split; assumption. }
  split.
  { intros ->.
    assert (E : translation_z v 0 a = [0; 0]).
    { rewrite translation_z_eq. destruct v; simpl; rewrite !Rmult_0_l;
        reflexivity. }
    split; [exact E|].
    intros t dimension pts Et. apply translate_by_zero.
    rewrite Et. exact E. }
  split; [intros; apply load_scaling; assumption|].
  split; [intros; apply load_box; assumption|].
  intros; apply load_rotation; assumption.
Qed.

(** ** Fatal and non-fatal configuration errors in [__init__] *)

(** A background name that is neither Gaussian nor Gamma: the
    constructor logs the error and exits. *)
Lemma init_background_unrecognised_exits (s : settings.t) (bdist : dist.t)
    (name : string) (dimension : nat) (total : Z) (p_b : Q) (n_s n_b : Z)
    (w : World) :
  settings.problem_dimension s = Some dimension ->
  settings.total_number_of_events s = Some total ->
  settings.p_b s = Some p_b ->
  Counts.number_of_signal_events AllSystematics total p_b = inr n_s ->
  Counts.number_of_background_events total p_b = inr n_b ->
  settings.background_distribution s = Some bdist ->
  dist.name bdist = Some name ->
  name <> DISTRIBUTION_GAUSSIAN -> name <> DISTRIBUTION_GAMMA ->
  __init__ AllSystematics s w
  = (SysExit,
     logging w
       [(SUCCESS, "Settings Loaded!");
        (ERROR, "Background distribution should be Gaussian or Gamma!")]).
Proof.
  intros Hd Ht Hp Hs Hbg Hb Hn N1 N2.
  apply String.eqb_neq in N1, N2.
  unfold __init__, load_background, bind, item, ret, exit, log, logging,
    or_error.
  cbn -[Counts.number_of_signal_events Counts.number_of_background_events].
  rewrite Hd, Ht, Hp, Hs, Hbg, Hb, Hn.
  cbn -[Counts.number_of_signal_events Counts.number_of_background_events].
  rewrite N1, N2.
  cbn -[Counts.number_of_signal_events Counts.number_of_background_events].
  rewrite <- app_assoc. reflexivity.
Qed.

(** C7, the signal side on the code.  With a signal distribution whose
    name is not Gaussian, the constructor logs the error and returns a
    generator whose signal distribution is not loaded; the abort comes
    only later, in [generate_data]. *)
Theorem init_returns_without_signal (w : World) :
  let s := example_settings 1000 (1 # 2)
             (named_dist DISTRIBUTION_GAMMA [2; 0] [1; 1]) [] in
  exists g w',
    __init__ AllSystematics s w = (Return g, w') /\
    signal_distribution g = None /\
    systematics_loaded g = true /\
    w' = logging w
           [(SUCCESS, "Settings Loaded!");
            (SUCCESS, "Background Distributions Loaded!");
            (ERROR, "Signal Distributions should be Gaussian only!");
            (SUCCESS, "Systematics Loaded!")] /\
    generate_data AllSystematics g w'
    = (SysExit, logging w' [(ERROR, "Signal distribution is not loaded!")]).
Proof.
  intros s. eexists. eexists. split.
  - unfold s, logging. cbv -[IZR Rdiv Ropp app]. rewrite <- !app_assoc.
    reflexivity.
  - repeat split.
Qed.

End Facts.

(** ** Concrete runs *)

Ltac run :=
  cbv -[IZR cos sin PI Rplus Rmult Rminus Ropp Rdiv Rinv Rabs radians
        Rlt_dec Rle_dec Req_dec_T py_round].

(** The mix edition draws one pair of point sets, not two: its world after
    the draw stage records two calls where independence needs four. *)
Lemma mix_biased_points_are_not_drawn :
  ~ independent_draws (ext := replay) Mix.
Proof.
  intros H.
  specialize (H (toy_generator no_systematics false None None)
                toy_signal toy_background fresh).
  cbv -[IZR Rdiv] in H. discriminate H.
Qed.

(** With [alpha] set to 0, [apply_copula] on and [beta] set, the copula is
    skipped with the warning although both parameters are set. *)
Lemma copula_skipped_on_zero_alpha : ~ copula_iff_set (ext := replay).
Proof.
  intros H.
  destruct (H (toy_generator no_systematics true (Some 0) (Some 1))
              [[1; 2]] [[3; 4]] fresh eq_refl) as [H1 _].
  specialize (H1 0 1 eq_refl eq_refl).
  unfold copula in H1. simpl in H1. rewrite if_truthy_zero in H1.
  cbv -[IZR] in H1. discriminate H1.
Qed.

Example copula_zero_alpha_run :
  copula (ext := replay)
    (toy_generator no_systematics true (Some 0) (Some 1)) [[1; 2]] [[3; 4]]
    fresh
  = (Return ([[1; 2]], [[3; 4]]),
     logging fresh
       [(WARNING,
         "Parameters of Gamma Distribution (alpha, beta) are not valid")]).
Proof. unfold copula. simpl. rewrite if_truthy_zero. reflexivity. Qed.

(** In the mix edition the vector of [(z_magnitude, alpha) = (1, 45)] is
    [(0.71, 0.71)], not [(cos 45, sin 45)]. *)
Lemma mix_vector_is_rounded : ~ exact_translation_vector Mix.
Proof.
  intros H. specialize (H 1 45).
  unfold translation_z, np_multiply in H. simpl in H.
  injection H as H _.
  replace (radians 45) with (PI / 4) in H by (unfold radians; field).
  rewrite cos_PI4 in H. unfold py_round in H.
  set (k := round_half_even (1 / sqrt 2 * 10 ^ 2)) in H. clearbody k.
  simpl pow in H.
  assert (S2 : sqrt 2 * sqrt 2 = 2) by (apply sqrt_sqrt; lra).
  assert (P : 0 < sqrt 2) by (apply sqrt_lt_R0; lra).
  assert (E : IZR k * sqrt 2 = 100).
  { apply (Rmult_eq_compat_r (100 * sqrt 2)) in H. field_simplify in H;
      lra. }
  assert (E2 : IZR (k * k * 2) = IZR 10000).
  { rewrite !mult_IZR.
    replace (IZR k * IZR k * 2) with ((IZR k * sqrt 2) * (IZR k * sqrt 2))
      by (rewrite <- S2 at 3; ring).
    rewrite E. lra. }
  apply eq_IZR in E2.
  destruct (Z_lt_le_dec k 71); destruct (Z_lt_le_dec (-71) k); nia.
Qed.

(** The scenario of the starting kit: 1000 events, half background,
    translation of magnitude 1 at 90 degrees. *)
Example starting_kit_scenario :
  exists g w',
    __init__ (ext := replay) AllSystematics (get_setting 1000 (1 # 2) 1) fresh
    = (Return g, w') /\
    number_of_signal_events g = 500%Z /\
    number_of_background_events g = 500%Z /\
    signal_distribution g
    = Some (Gaussian
              {| g_mu := [0 + 2 * cos (radians 0); 0 + 2 * sin (radians 0)];
                 g_sigma := [1 * (3 / 10); 1 * (3 / 10)];
                 g_generator := "normal";
                 g_angle_rotation := Some (- 0) |}) /\
    option_map translation_vector (systematic_translation (loaded g))
    = Some [cos (radians 90) * 1; sin (radians 90) * 1] /\
    logged w'
    = [(SUCCESS, "Settings Loaded!");
       (SUCCESS, "Background Distributions Loaded!");
       (SUCCESS, "Signal Distributions Loaded!");
       (SUCCESS, "Systematics Loaded!")].
Proof. eexists. eexists. split; [run; reflexivity|]. repeat split. Qed.

Example starting_kit_vectors :
  [0 + 2 * cos (radians 0); 0 + 2 * sin (radians 0)] = [2; 0] /\
  [cos (radians 90) * 1; sin (radians 90) * 1] = [0; 1].
Proof.
  replace (radians 0) with 0 by (unfold radians; field).
  replace (radians 90) with (PI / 2) by (unfold radians; field).
  rewrite cos_0, sin_0, cos_PI2, sin_PI2.
  split; f_equal; try lra; f_equal; lra.
Qed.

(** The same settings lack the keys of the mix edition. *)
Example starting_kit_settings_in_mix :
  __init__ (ext := replay) Mix (get_setting 1000 (1 # 2) 1) fresh
  = (Raise "KeyError: background_mu",
     logging fresh [(SUCCESS, "Settings Loaded!")]).
Proof. reflexivity. Qed.

Lemma shuffle_keeps_alignment_witness :
  List.length [10; 20; 30]%Z = List.length ["a"; "b"; "c"] /\
  aligned_shuffle (ext := replay) 33 [10; 20; 30]%Z ["a"; "b"; "c"] fresh /\
  frames_stay_aligned (ext := replay) fresh.
Proof.
  split; [reflexivity|].
  apply (shuffle_keeps_alignment (ext := replay) 33 [10; 20; 30]%Z
           ["a"; "b"; "c"] fresh).
  reflexivity.
Defined.

Example shuffle_replay :
  shuffle (ext := replay) [10; 20; 30]%Z 33 fresh = (Return [30; 20; 10]%Z, fresh).
Proof. reflexivity. Qed.

(** A run of the all-systematics edition with translation by [(0, 1)]
    and scaling by 2 loaded. *)
Lemma toy_run_returns :
  exists g' w',
    generate_data (ext := replay) AllSystematics
      (toy_generator toy_systematics false None None) fresh
    = (Return g', w').
Proof. eexists. eexists. run. reflexivity. Defined.

Example toy_run_biased_data :
  exists g' w',
    generate_data (ext := replay) AllSystematics
      (toy_generator toy_systematics false None None) fresh
    = (Return g', w') /\
    generated_data g' = Some [[1; 1]; [1; 1]; [0; 0]; [0; 0]] /\
    biased_data g'
    = Some [[(3 + 0) * 2; (3 + 1) * 2]; [(3 + 0) * 2; (3 + 1) * 2];
            [(2 + 0) * 2; (2 + 1) * 2]; [(2 + 0) * 2; (2 + 1) * 2]] /\
    generated_labels g' = Some [0; 0; 1; 1]%Z.
Proof. eexists. eexists. split; [run; reflexivity|]. repeat split. Qed.

Lemma draws_per_edition_witness :
  exists g' w',
    generate_data (ext := replay) AllSystematics
      (toy_generator toy_systematics false None None) fresh
    = (Return g', w') /\
    exists sd bd,
      signal_distribution (toy_generator toy_systematics false None None)
      = Some sd /\
      background_distribution (toy_generator toy_systematics false None None)
      = Some bd /\
      draws w'
      = (draws fresh
         ++ calls_of AllSystematics
              (toy_generator toy_systematics false None None) sd bd)%list.
Proof.
  destruct toy_run_returns as (g' & w' & H). exists g', w'.
  split; [exact H|].
  apply (proj2 (proj2 (draws_per_edition (ext := replay))) _ _ _ _ _ H).
Defined.

Lemma systematics_applied_in_order_witness :
  exists g' w',
    generate_data (ext := replay) AllSystematics
      (toy_generator toy_systematics false None None) fresh
    = (Return g', w') /\
    generate_data_run (ext := replay) AllSystematics
      (toy_generator toy_systematics false None None) fresh g' w'.
Proof.
  destruct toy_run_returns as (g' & w' & H). exists g', w'.
  split; [exact H|].
  apply (systematics_applied_in_order (ext := replay) AllSystematics _ g'
           fresh w' H).
Defined.

Lemma labels_identical_witness :
  exists g' w',
    generate_data (ext := replay) AllSystematics
      (toy_generator toy_systematics false None None) fresh
    = (Return g', w') /\
    exists labels,
      generated_labels g' = Some labels /\ biased_labels g' = Some labels /\
      exists w1 before after,
        save_data (ext := replay) g' "out" (Some 3%Z) w' = (Return tt, w1) /\
        os_calls w1
        = (os_calls w' ++ before
           ++ [WriteFile "out/train/labels/train_3.labels"
                 (write_labels labels);
               WriteFile "out/test/labels/test_3.labels"
                 (write_labels labels)]
           ++ after)%list.
Proof.
  destruct toy_run_returns as (g' & w' & H). exists g', w'.
  split; [exact H|].
  destruct (labels_identical (ext := replay) AllSystematics _ g' fresh w' H)
    as (labels & E1 & E2 & Save).
  exists labels. split; [exact E1|]. split; [exact E2|].
  destruct (Save "out" (Some 3%Z) w') as [Written Returns].
  destruct (Returns (fun _ _ => eq_refl) eq_refl) as (w1 & Hs).
  destruct (Written w1 Hs) as (before & after & Hc).
  exists w1, before, after. split; [exact Hs | exact Hc].
Defined.

(** [os.path.join] on the directories a caller may pass. *)
Example labels_file_paths :
  labels_file "train" "" None = "train/labels/train.labels" /\
  labels_file "train" "out/" (Some 3%Z) = "out/train/labels/train_3.labels" /\
  labels_file "test" "/abs/dir" (Some 3%Z)
  = "/abs/dir/test/labels/test_3.labels" /\
  settings_file "a/b" None = "a/b/settings/settings.json".
Proof. repeat split. Qed.

Lemma copula_guard_witness :
  apply_copula (toy_generator no_systematics true (Some 2) (Some 1)) = true /\
  copula (ext := replay)
    (toy_generator no_systematics true (Some 2) (Some 1)) [[1; 2]] [[3; 4]]
    fresh
  = (Return (copula_remap (ext := replay) 2 1 [[1; 2]],
             copula_remap (ext := replay) 2 1 [[3; 4]]), fresh).
Proof.
  split; [reflexivity|].
  apply (copula_guard (ext := replay)
           (toy_generator no_systematics true (Some 2) (Some 1))
           [[1; 2]] [[3; 4]] fresh eq_refl);
    try reflexivity; lra.
Defined.

Lemma translation_vector_derivation_witness :
  (syst.name (translation_descriptor 1 90) = Some SYSTEMATIC_TRANSLATION /\
   syst.z_magnitude (translation_descriptor 1 90) = Some 1 /\
   syst.alpha (translation_descriptor 1 90) = Some 90) /\
  load_systematic (ext := replay) Mix [2; 0] no_systematics
    (translation_descriptor 1 90) fresh
  = (Return (with_translation no_systematics
               (translation_vector_of Mix 1 90)), fresh).
Proof.
  split; [repeat split|].
  apply (translation_vector_derivation (ext := replay) Mix [2; 0]
           no_systematics (translation_descriptor 1 90) 1 90 fresh
           eq_refl eq_refl eq_refl).
Defined.

Lemma translation_has_no_threshold_witness :
  (syst.name (translation_descriptor 0 90) = Some SYSTEMATIC_TRANSLATION /\
   syst.z_magnitude (translation_descriptor 0 90) = Some 0 /\
   syst.alpha (translation_descriptor 0 90) = Some 90) /\
  load_systematic (ext := replay) AllSystematics [2; 0] no_systematics
    (translation_descriptor 0 90) fresh
  = (Return (with_translation no_systematics
               (translation_z AllSystematics 0 90)), fresh).
Proof.
  split; [repeat split|].
  apply (translation_has_no_threshold (ext := replay) AllSystematics [2; 0]
           no_systematics (translation_descriptor 0 90) 0 90 fresh
           eq_refl eq_refl eq_refl).
Defined.

End GeneratorFacts.

(** * Further properties of the event counts *)

Module CountsExtra.
Import PyNum PyFloat Counts PyNumFacts PyFloatFacts CountsFacts.
Open Scope Q_scope.

(** X7.  In both editions each of the two event counts is defined and
    lies between 0 and [total_number_of_events], for a total between 0
    and [2 ^ 53 - 1] and a background fraction in [[0, 1]]:
    [generate_points] is never asked for a negative number of points
    nor for more than the total. *)
Theorem counts_in_range (v : Pipeline) (total : Z) (pb : Q)
    (Htotal : (0 <= total < 2 ^ 53)%Z) (H0 : 0 <= pb) (H1 : pb <= 1) :
  exists n_s n_b,
    number_of_signal_events v total pb = inr n_s /\
    number_of_background_events total pb = inr n_b /\
    (0 <= n_s <= total)%Z /\ (0 <= n_b <= total)%Z.
Proof.
  destruct (ps_bounds v pb H0 H1) as [S0 S1].
  destruct (int_of_product_count total (ps v pb) Htotal S0 S1)
    as (Es & X0 & X1).
  destruct (int_of_product_count total pb Htotal H0 H1) as (Eb & Y0 & Y1).
  unfold number_of_signal_events, number_of_background_events.
  rewrite Es, Eb. eexists. eexists. split; [reflexivity|].
  split; [reflexivity|].
  split; (split; [apply Qfloor_ge; assumption|]).
  - rewrite <- (Qfloor_Z total) at 2. apply Qfloor_resp_le. exact X1.
  - rewrite <- (Qfloor_Z total) at 2. apply Qfloor_resp_le. exact Y1.
Qed.

Lemma counts_in_range_witness :
  ((0 <= 1000 < 2 ^ 53)%Z /\
   0 <= literal (3 # 10) /\ literal (3 # 10) <= 1) /\
  exists n_s n_b,
    number_of_signal_events AllSystematics 1000 (literal (3 # 10)) = inr n_s /\
    number_of_background_events 1000 (literal (3 # 10)) = inr n_b /\
    (0 <= n_s <= 1000)%Z /\ (0 <= n_b <= 1000)%Z.
Proof.
  assert (H1 : (0 <= 1000 < 2 ^ 53)%Z) by (split; [discriminate | reflexivity]).
  assert (H2 : 0 <= literal (3 # 10)) by (vm_compute; discriminate).
  assert (H3 : literal (3 # 10) <= 1) by (vm_compute; discriminate).
  split; [split; [exact H1 | split; [exact H2 | exact H3]]|].
  apply (counts_in_range AllSystematics 1000 (literal (3 # 10)) H1 H2 H3).
Defined.

(** X8.  In the all-systematics edition, for every background fraction
    in [[0, 1]] and every total up to [2 ^ 51], the sum of the two
    counts lies strictly between [total - total / 200000 - 3] and
    [total + total / 200000 + 1]: the rounding of [p_s] to five places
    moves it by at most [total / 200000] either way, on top of the
    truncations and of the float roundings. *)
Theorem counts_sum_near_total (total : Z) (pb : Q)
    (Htotal : (0 <= total <= 2 ^ 51)%Z) (H0 : 0 <= pb) (H1 : pb <= 1) :
  exists n_s n_b,
    number_of_signal_events AllSystematics total pb = inr n_s /\
    number_of_background_events total pb = inr n_b /\
    inject_Z total - inject_Z total / 200000 - 3 < inject_Z (n_s + n_b) /\
    inject_Z (n_s + n_b) < inject_Z total + inject_Z total / 200000 + 1.
Proof. apply all_systematics_counts; assumption. Qed.

Lemma counts_sum_near_total_witness :
  ((0 <= 5000000 <= 2 ^ 51)%Z /\
   0 <= literal (161455 # 1000000) /\ literal (161455 # 1000000) <= 1) /\
  exists n_s n_b,
    number_of_signal_events AllSystematics 5000000
      (literal (161455 # 1000000)) = inr n_s /\
    number_of_background_events 5000000 (literal (161455 # 1000000))
    = inr n_b /\
    inject_Z 5000000 - inject_Z 5000000 / 200000 - 3 < inject_Z (n_s + n_b) /\
    inject_Z (n_s + n_b) < inject_Z 5000000 + inject_Z 5000000 / 200000 + 1.
Proof.
  assert (H1 : (0 <= 5000000 <= 2 ^ 51)%Z) by (split; [discriminate | vm_compute; discriminate]).
  assert (H2 : 0 <= literal (161455 # 1000000)) by (vm_compute; discriminate).
  assert (H3 : literal (161455 # 1000000) <= 1) by (vm_compute; discriminate).
  split; [split; [exact H1 | split; [exact H2 | exact H3]]|].
  apply (counts_sum_near_total 5000000 (literal (161455 # 1000000))
           H1 H2 H3).
Defined.

End CountsExtra.

(** * Further properties of the HEP weight bookkeeping *)

Module HEPExtra.
Import HEP HEPMore HEPFacts.
Open Scope Q_scope.

(** ** Slicing the test set *)

Lemma firstn_add_skipn {A} (a b : nat) (xs : list A) :
  firstn (a + b) xs = (firstn a xs ++ firstn b (skipn a xs))%list.
Proof.
  revert xs. induction a as [|a IH]; intros xs; simpl; [reflexivity|].
  destruct xs as [|x xs]; simpl.
  - rewrite firstn_nil. reflexivity.
  - rewrite IH. reflexivity.
Qed.

Lemma slices_concat {A} (k m : nat) (xs : list A) :
  concat (map (fun i => firstn k (skipn i xs))
              (map (fun j => (j * k)%nat) (seq 0 m)))
  = firstn (m * k) xs.
Proof.
  induction m as [|m IH]; [reflexivity|].
  rewrite seq_S, !map_app, concat_app, IH. simpl.
  rewrite app_nil_r, (Nat.add_comm k (m * k)).
  symmetry. apply firstn_add_skipn.
Qed.

Lemma ceil_covers (n k : nat) : (0 < k -> n <= (n + k - 1) / k * k)%nat.
Proof.
  intros Hk.
  pose proof (Nat.div_mod_eq (n + k - 1) k) as E.
  pose proof (Nat.mod_upper_bound (n + k - 1) k) as U.
  nia.
Qed.

Lemma tenths_some {A} (xs : list A) :
  (10 <= List.length xs)%nat ->
  tenths xs
  = Some (map (fun i => firstn (List.length xs / 10) (skipn i xs))
              (py_range_step (List.length xs) (List.length xs / 10))) /\
  (0 < List.length xs / 10)%nat.
Proof.
  intros H.
  assert (K : (0 < List.length xs / 10)%nat).
  { apply Nat.div_str_pos. lia. }
  split; [|exact K]. unfold tenths.
  destruct (List.length xs / 10)%nat; [lia | reflexivity].
Qed.

(** X1.  A test set of at least ten rows is cut into consecutive slices
    that lose and duplicate nothing: concatenated in order they give the
    set back, and no slice is empty or longer than a tenth of the set. *)
Theorem tenths_partition {A} (xs : list A)
    (Hlen : (10 <= List.length xs)%nat) :
  exists slices,
    tenths xs = Some slices /\
    concat slices = xs /\
    Forall (fun s => (0 < List.length s <= List.length xs / 10)%nat) slices.
Proof.
  destruct (tenths_some xs Hlen) as [E K]. eexists. split; [exact E|].
  set (k := (List.length xs / 10)%nat) in *. split.
  - unfold py_range_step. rewrite slices_concat.
    apply firstn_all2. apply ceil_covers. exact K.
  - apply Forall_forall. intros s Hs.
    apply in_map_iff in Hs. destruct Hs as (i & <- & Hi).
    unfold py_range_step in Hi. apply in_map_iff in Hi.
    destruct Hi as (j & <- & Hj). apply in_seq in Hj.
    rewrite length_firstn, length_skipn.
    assert (J : (j * k < List.length xs)%nat).
    { destruct Hj as [_ Hj]. simpl in Hj.
      pose proof (Nat.div_mod_eq (List.length xs + k - 1) k) as E2.
      pose proof (Nat.mod_upper_bound (List.length xs + k - 1) k) as U.
      nia. }
    lia.
Qed.

Lemma tenths_partition_witness :
  (10 <= List.length (seq 0 23))%nat /\
  exists slices,
    tenths (seq 0 23) = Some slices /\ concat slices = seq 0 23.
Proof.
  assert (H : (10 <= List.length (seq 0 23))%nat) by (simpl; lia).
  split; [exact H|].
  destruct (tenths_partition (seq 0 23) H) as (slices & E & C & _).
  exists slices. split; assumption.
Defined.

(** X2.  The comment promises ten equal parts; the slices are ten, each a
    tenth of the set, exactly when the number of rows is a multiple of
    ten.  Otherwise there are more than ten slices. *)
Theorem tenths_ten_iff_multiple {A} (xs : list A)
    (Hlen : (10 <= List.length xs)%nat) :
  exists slices,
    tenths xs = Some slices /\
    (10 <= List.length slices)%nat /\
    (List.length slices = 10%nat <-> (List.length xs mod 10 = 0)%nat) /\
    ((List.length xs mod 10 = 0)%nat ->
     Forall (fun s => List.length s = (List.length xs / 10)%nat) slices).
Proof.
  destruct (tenths_some xs Hlen) as [E K]. eexists. split; [exact E|].
  set (n := List.length xs) in *. set (k := (n / 10)%nat) in *.
  unfold py_range_step. rewrite !length_map, length_seq.
  pose proof (Nat.div_mod_eq n 10) as En. fold k in En.
  assert (Un : (n mod 10 < 10)%nat) by (apply Nat.mod_upper_bound; lia).
  pose proof (Nat.div_mod_eq (n + k - 1) k) as Ek.
  assert (Uk : ((n + k - 1) mod k < k)%nat)
    by (apply Nat.mod_upper_bound; lia).
  set (m := ((n + k - 1) / k)%nat) in *.
  set (r := (n mod 10)%nat) in *. set (t := ((n + k - 1) mod k)%nat) in *.
  clearbody m r t.
  assert (M10 : (10 <= m)%nat) by nia.
  split; [exact M10|]. split.
  - split; intros H.
    + subst m. lia.
    + assert (m < 11)%nat by nia. lia.
  - intros Hm. apply Forall_forall. intros s Hs.
    apply in_map_iff in Hs. destruct Hs as (i & <- & Hi).
    apply in_map_iff in Hi. destruct Hi as (j & <- & Hj). apply in_seq in Hj.
    rewrite length_firstn, length_skipn. fold n.
    assert (m < 11)%nat by nia. nia.
Qed.

Lemma tenths_ten_iff_multiple_witness :
  (10 <= List.length (seq 0 30))%nat /\
  exists slices,
    tenths (seq 0 30) = Some slices /\
    (List.length slices = 10%nat <-> (List.length (seq 0 30) mod 10 = 0)%nat).
Proof.
  assert (H : (10 <= List.length (seq 0 30))%nat) by (simpl; lia).
  split; [exact H|].
  destruct (tenths_ten_iff_multiple (seq 0 30) H) as (slices & E & _ & I & _).
  exists slices. split; assumption.
Defined.

Example tenths_25_gives_13 :
  option_map (@List.length (list nat)) (tenths (seq 0 25)) = Some 13%nat.
Proof. reflexivity. Qed.

(** X3.  The generator gets through the split of the test set exactly
    when the test weights and the test labels have at least ten rows
    each; with fewer, the slice step is zero and [range] raises. *)
Theorem datagen_needs_ten_test_rows (label : list Z) (weights : list Q)
    (sp : Split) (mu : nat -> Q) :
  DataGenerator label weights sp mu <> None <->
  (10 <= List.length (test_weights sp))%nat /\
  (10 <= List.length (test_label sp))%nat.
Proof.
  assert (Small : forall A (xs : list A),
             (List.length xs < 10)%nat -> tenths xs = None).
  { intros A xs H. unfold tenths. rewrite Nat.div_small by exact H.
    reflexivity. }
  assert (Big : forall A (xs : list A),
             (10 <= List.length xs)%nat ->
             exists s ss, tenths xs = Some (s :: ss)).
  { intros A xs H. destruct (tenths_some xs H) as [E K]. rewrite E.
    unfold py_range_step.
    assert (P : (0 < (List.length xs + List.length xs / 10 - 1)
                     / (List.length xs / 10))%nat).
    { apply Nat.div_str_pos. lia. }
    destruct ((List.length xs + List.length xs / 10 - 1)
              / (List.length xs / 10))%nat; [lia|].
    simpl. eexists. eexists. reflexivity. }
  unfold DataGenerator. split.
  - intros H.
    destruct (Nat.lt_ge_cases (List.length (test_weights sp)) 10) as [L|L].
    { rewrite (Small _ _ L) in H. contradiction H. reflexivity. }
    destruct (Nat.lt_ge_cases (List.length (test_label sp)) 10) as [L'|L'].
    { rewrite (Small _ _ L') in H.
      destruct (tenths (test_weights sp)) as [[|? ?]|];
        contradiction H; reflexivity. }
    split; assumption.
  - intros [L L'].
    destruct (Big _ _ L) as (s & ss & ->).
    destruct (Big _ _ L') as (s' & ss' & ->). discriminate.
Qed.

(** ** Sums of weights *)






(** ** Reweighting twice, and positive weights *)






Lemma select_positive_sum (v : Z) (label : list Z) (ws : list Q) :
  positive ws -> select v label ws <> [] ->
  0 < np_sum (select v label ws).
Proof.
  intros H. revert label.
  induction H as [|w ws Hw Hws IH]; intros [|l ls] N; simpl in *;
    try (contradiction N; reflexivity).
  destruct (Z.eqb l v).
  - unfold np_sum. simpl.
    destruct (select v ls ws) eqn:E.
    + simpl. lra.
    + assert (P : 0 < np_sum (select v ls ws))
        by (apply IH; rewrite E; discriminate).
      rewrite E in P. unfold np_sum in P. simpl in *. lra.
  - apply IH. exact N.
Qed.

Lemma scale_where_positive (v : Z) (c : Q) (label : list Z) (ws : list Q) :
  positive ws -> (select v label ws <> [] -> 0 < c) ->
  positive (scale_where v c label ws).
Proof.
  intros H. revert label.
  induction H as [|w ws Hw Hws IH]; intros [|l ls] Hc; simpl in *;
    try (constructor; assumption); try constructor.
  - destruct (Z.eqb l v).
    + apply Qmult_lt_0_compat; [exact Hw | apply Hc; discriminate].
    + exact Hw.
  - apply IH. intros N. apply Hc.
    destruct (Z.eqb l v); [discriminate | exact N].
Qed.

(** X6.  Reweighting keeps weights positive: when every weight of the
    subset is positive and the targets [S] and [B] are positive, every
    reweighted weight is positive (a class without rows is simply not
    rescaled). *)
Theorem reweight_keeps_positive (S B : Q) (label : list Z)
    (weights : list Q)
    (Hpos : positive weights) (HS : 0 < S) (HB : 0 < B) :
  positive (reweight S B label weights).
Proof.
  unfold reweight. apply scale_where_positive.
  - apply scale_where_positive; [exact Hpos|].
    intros N. apply Qlt_shift_div_l.
    + apply select_positive_sum; assumption.
    + lra.
  - rewrite select_scale_other by discriminate.
    intros N. apply Qlt_shift_div_l.
    + apply select_positive_sum; assumption.
    + lra.
Qed.

Lemma reweight_keeps_positive_witness :
  (positive [1; 2; 3] /\ 0 < 6 /\ 0 < 10) /\
  positive (reweight 6 10 [1; 1; 1]%Z [1; 2; 3]).
Proof.
  assert (H : positive [1; 2; 3]).
  { unfold positive. repeat apply Forall_cons; try apply Forall_nil;
      reflexivity. }
  split; [split; [exact H | split; reflexivity]|].
  apply (reweight_keeps_positive 6 10 [1; 1; 1]%Z [1; 2; 3] H);
    reflexivity.
Defined.

End HEPExtra.
(** * Further properties of the generators *)

Module GeneratorExtra.
Import Counts Generator GeneratorMore GeneratorFacts.
Open Scope string_scope.
Open Scope R_scope.

Section Extra.
Context {ext : External}.

(** ** One step of the loop over the descriptors, inverted *)

Lemma load_systematic_inv (v : Pipeline) (c : list R)
    (self r : Systematics) (d : syst.t) (w w' : World) :
  load_systematic v c self d w = (Return r, w') ->
  w' = w /\
  exists name,
    syst.name d = Some name /\
    ((name = SYSTEMATIC_TRANSLATION /\
      exists z a, syst.z_magnitude d = Some z /\ syst.alpha d = Some a /\
                  r = with_translation self (translation_z v z a)) \/
     (name = SYSTEMATIC_SCALING /\
      exists f, syst.scaling_factor d = Some f /\
                r = if Rlt_dec 1 f then with_scaling self f else self) \/
     (name = SYSTEMATIC_BOX /\
      exists l, syst.box_l d = Some l /\
                r = if Rlt_dec 1 l then with_box self c l else self) \/
     (name = SYSTEMATIC_ROTATION /\
      exists deg, syst.rotation_degree d = Some deg /\
                  r = if Req_dec_T deg 0 then self
                      else with_rotation self deg) \/
     (~ In name known_systematics /\ r = self)).
Proof.
  intros H.
  destruct (syst.name d) as [name|] eqn:En;
    [|unfold load_systematic in H; rewrite En in H; discriminate H].
  destruct (String.eqb_spec name SYSTEMATIC_TRANSLATION) as [->|N1].
  { destruct (syst.z_magnitude d) as [z|] eqn:Ez;
      [|unfold load_systematic in H; rewrite En, Ez in H; discriminate H].
    destruct (syst.alpha d) as [a|] eqn:Ea;
      [|unfold load_systematic in H; rewrite En, Ez, Ea in H;
        discriminate H].
    rewrite (load_translation v c self d z a w En Ez Ea) in H.
    injection H as <- <-. split; [reflexivity|]. eexists. split; [reflexivity|].
    left. split; [reflexivity|]. exists z, a. repeat split. }
  destruct (String.eqb_spec name SYSTEMATIC_SCALING) as [->|N2].
  { destruct (syst.scaling_factor d) as [f|] eqn:Ef;
      [|unfold load_systematic in H; rewrite En, Ef in H; discriminate H].
    rewrite (load_scaling v c self d f w En Ef) in H.
    injection H as <- <-. split; [reflexivity|]. eexists. split; [reflexivity|].
    right. left. split; [reflexivity|]. exists f. split; reflexivity. }
  destruct (String.eqb_spec name SYSTEMATIC_BOX) as [->|N3].
  { destruct (syst.box_l d) as [l|] eqn:El;
      [|unfold load_systematic in H; rewrite En, El in H; discriminate H].
    rewrite (load_box v c self d l w En El) in H.
    injection H as <- <-. split; [reflexivity|]. eexists. split; [reflexivity|].
    right. right. left. split; [reflexivity|]. exists l. split; reflexivity. }
  destruct (String.eqb_spec name SYSTEMATIC_ROTATION) as [->|N4].
  { destruct (syst.rotation_degree d) as [deg|] eqn:Ed;
      [|unfold load_systematic in H; rewrite En, Ed in H; discriminate H].
    rewrite (load_rotation v c self d deg w En Ed) in H.
    injection H as <- <-. split; [reflexivity|]. eexists. split; [reflexivity|].
    right. right. right. left. split; [reflexivity|].
    exists deg. split; reflexivity. }
  apply String.eqb_neq in N1, N2, N3, N4.
  unfold load_systematic, bind, item, ret in H.
  rewrite En, N1, N2, N3, N4 in H.
  injection H as <- <-. split; [reflexivity|]. exists name.
  split; [reflexivity|]. right. right. right. right.
  split; [|reflexivity].
  apply String.eqb_neq in N1, N2, N3, N4.
  unfold known_systematics. simpl. intros [E|[E|[E|[E|[]]]]];
    symmetry in E; contradiction.
Qed.

(** ** The loop over the descriptors *)

Lemma for_each_app {A S} (body : S -> A -> Py S) (xs ys : list A) :
  forall (acc r : S) (w w' : World),
    for_each body acc (xs ++ ys)%list w = (Return r, w') ->
    exists mid w1,
      for_each body acc xs w = (Return mid, w1) /\
      for_each body mid ys w1 = (Return r, w').
Proof.
  induction xs as [|x xs IH]; intros acc r w w' H; simpl in *.
  - exists acc, w. split; [reflexivity | exact H].
  - apply bind_Return in H. destruct H as (a1 & w1 & H1 & H2).
    destruct (IH _ _ _ _ H2) as (mid & w2 & H3 & H4).
    exists mid, w2. split; [|exact H4].
    rewrite (bind_run _ _ _ _ _ H1). exact H3.
Qed.

Lemma step_within_thresholds (v : Pipeline) (c : list R)
    (self r : Systematics) (d : syst.t) (w w' : World) :
  load_systematic v c self d w = (Return r, w') ->
  within_thresholds c self -> within_thresholds c r.
Proof.
  intros H (It & Is & Ib & Ir).
  destruct (load_systematic_inv _ _ _ _ _ _ _ H) as (_ & name & _ & Cases).
  destruct Cases as [(_ & z & a & _ & _ & ->)|[(_ & f & _ & ->)|
                     [(_ & l & _ & ->)|[(_ & deg & _ & ->)|(_ & ->)]]]].
  - split; [|split; [exact Is | split; [exact Ib | exact Ir]]].
    intros t Ht. simpl in Ht. injection Ht as <-. simpl.
    repeat split. destruct v; reflexivity.
  - destruct (Rlt_dec 1 f) as [Lf|_];
      [|split; [exact It | split; [exact Is | split; [exact Ib | exact Ir]]]].
    split; [exact It | split; [|split; [exact Ib | exact Ir]]].
    intros s Hs. simpl in Hs. injection Hs as <-. exists f.
    split; [exact Lf | reflexivity].
  - destruct (Rlt_dec 1 l) as [Ll|_];
      [|split; [exact It | split; [exact Is | split; [exact Ib | exact Ir]]]].
    split; [exact It | split; [exact Is | split; [|exact Ir]]].
    intros b Hb. simpl in Hb. injection Hb as <-.
    split; [exact Ll | reflexivity].
  - destruct (Req_dec_T deg 0) as [_|Nd];
      [split; [exact It | split; [exact Is | split; [exact Ib | exact Ir]]]|].
    split; [exact It | split; [exact Is | split; [exact Ib|]]].
    intros r Hr. simpl in Hr. injection Hr as <-.
    split; [exact Nd | reflexivity].
  - split; [exact It | split; [exact Is | split; [exact Ib | exact Ir]]].
Qed.

Lemma no_systematics_within (c : list R) : within_thresholds c no_systematics.
Proof.
  unfold within_thresholds.
  split; [|split; [|split]]; intros x Hx; discriminate Hx.
Qed.

Lemma for_each_within_thresholds (v : Pipeline) (c : list R)
    (ds : list syst.t) :
  forall (self r : Systematics) (w w' : World),
    for_each (load_systematic v c) self ds w = (Return r, w') ->
    within_thresholds c self -> within_thresholds c r /\ w' = w.
Proof.
  induction ds as [|d ds IH]; intros self r w w' H I; simpl in H.
  - apply ret_Return in H. destruct H as [<- <-]. split; [exact I | reflexivity].
  - apply bind_Return in H. destruct H as (s1 & w1 & H1 & H2).
    pose proof (step_within_thresholds _ _ _ _ _ _ _ H1 I) as I1.
    destruct (load_systematic_inv _ _ _ _ _ _ _ H1) as (-> & _).
    apply (IH _ _ _ _ H2 I1).
Qed.

(** X9.  Whatever the descriptor list, the operators the loop leaves
    loaded all passed their guards: a loaded Scaling has the vector
    [(f, f)] with [f > 1], a loaded Box has a length above 1 and the
    centre it was given, a loaded Rotation has a nonzero degree (and
    carries the name constant of Box), a loaded Translation has a vector
    of two components; and the loop logs nothing. *)
Theorem loaded_within_thresholds (v : Pipeline) (c : list R)
    (ds : list syst.t) (self : Systematics) (w w' : World)
    (Hrun : for_each (load_systematic v c) no_systematics ds w
            = (Return self, w')) :
  within_thresholds c self /\ w' = w.
Proof.
  apply (for_each_within_thresholds v c ds _ _ _ _ Hrun).
  apply no_systematics_within.
Qed.

(** X10.  Descriptors whose name is none of Translation, Scaling, Box,
    Rotation are skipped without an error, without a log line and
    without reading any other key: the loop over such a list returns
    the operators it started with. *)
Theorem unknown_systematics_ignored (v : Pipeline) (c : list R)
    (ds : list syst.t) (self : Systematics) (w : World)
    (Hunknown : Forall (fun d => exists name,
                          syst.name d = Some name /\
                          ~ In name known_systematics) ds) :
  for_each (load_systematic v c) self ds w = (Return self, w).
Proof.
  induction Hunknown as [|d ds (name & En & Hn) _ IH]; simpl;
    [reflexivity|].
  assert (E : load_systematic v c self d w = (Return self, w)).
  { unfold known_systematics in Hn. simpl in Hn.
    assert (N1 : String.eqb name SYSTEMATIC_TRANSLATION = false)
      by (apply String.eqb_neq; intros ->; apply Hn; auto).
    assert (N2 : String.eqb name SYSTEMATIC_SCALING = false)
      by (apply String.eqb_neq; intros ->; apply Hn; auto).
    assert (N3 : String.eqb name SYSTEMATIC_BOX = false)
      by (apply String.eqb_neq; intros ->; apply Hn; auto).
    assert (N4 : String.eqb name SYSTEMATIC_ROTATION = false)
      by (apply String.eqb_neq; intros ->; apply Hn; auto 6).
    unfold load_systematic, bind, item, ret.
    rewrite En, N1, N2, N3, N4. reflexivity. }
  rewrite (bind_run _ _ _ _ _ E). exact IH.
Qed.

Lemma step_keeps_translation (v : Pipeline) (c : list R)
    (self r : Systematics) (d : syst.t) (w w' : World) :
  load_systematic v c self d w = (Return r, w') ->
  syst.name d <> Some SYSTEMATIC_TRANSLATION ->
  systematic_translation r = systematic_translation self.
Proof.
  intros H N.
  destruct (load_systematic_inv _ _ _ _ _ _ _ H) as (_ & name & En & Cases).
  destruct Cases as [(-> & _)|[(_ & f & _ & ->)|
                     [(_ & l & _ & ->)|[(_ & deg & _ & ->)|(_ & ->)]]]].
  - contradiction.
  - destruct (Rlt_dec 1 f); reflexivity.
  - destruct (Rlt_dec 1 l); reflexivity.
  - destruct (Req_dec_T deg 0); reflexivity.
  - reflexivity.
Qed.

Lemma for_each_keeps_translation (v : Pipeline) (c : list R)
    (ds : list syst.t) :
  forall (self r : Systematics) (w w' : World),
    for_each (load_systematic v c) self ds w = (Return r, w') ->
    Forall (fun d => syst.name d <> Some SYSTEMATIC_TRANSLATION) ds ->
    systematic_translation r = systematic_translation self.
Proof.
  induction ds as [|d ds IH]; intros self r w w' H F; simpl in H.
  - apply ret_Return in H. destruct H as [<- _]. reflexivity.
  - apply bind_Return in H. destruct H as (s1 & w1 & H1 & H2).
    inversion F as [|? ? Fd Fds]; subst.
    rewrite (IH _ _ _ _ H2 Fds).
    apply (step_keeps_translation _ _ _ _ _ _ _ H1 Fd).
Qed.

(** X11.  When several Translation descriptors are listed, the last one
    decides: after a loop that returns, the loaded translation vector is
    the one derived from the last Translation descriptor of the list,
    whatever came before it. *)
Theorem last_translation_wins (v : Pipeline) (c : list R)
    (before after : list syst.t) (d : syst.t) (z a : R)
    (start self : Systematics) (w w' : World)
    (Hn : syst.name d = Some SYSTEMATIC_TRANSLATION)
    (Hz : syst.z_magnitude d = Some z) (Ha : syst.alpha d = Some a)
    (Hlast : Forall (fun d' => syst.name d' <> Some SYSTEMATIC_TRANSLATION)
               after)
    (Hrun : for_each (load_systematic v c) start
              (before ++ d :: after)%list w = (Return self, w')) :
  option_map translation_vector (systematic_translation self)
  = Some (translation_z v z a).
Proof.
  apply for_each_app in Hrun. destruct Hrun as (mid & w1 & _ & H).
  simpl in H. apply bind_Return in H. destruct H as (s1 & w2 & H1 & H2).
  rewrite (load_translation v c mid d z a w1 Hn Hz Ha) in H1.
  injection H1 as <- <-.
  rewrite (for_each_keeps_translation _ _ _ _ _ _ _ H2 Hlast).
  reflexivity.
Qed.

(** ** The constructor, inverted *)

Lemma item_Return {A} (key : string) (o : option A) (a : A) (w w' : World) :
  item key o w = (Return a, w') -> o = Some a /\ w' = w.
Proof.
  destruct o as [x|]; simpl; intros H; [|discriminate H].
  apply ret_Return in H. destruct H as [-> ->]. split; reflexivity.
Qed.

Lemma or_error_Return {A} (r : string + A) (a : A) (w w' : World) :
  or_error r w = (Return a, w') -> r = inr a /\ w = w'.
Proof.
  destruct r as [e|b]; intros H; [discriminate H|].
  apply ret_Return in H. destruct H as [-> ->]. split; reflexivity.
Qed.

Lemma load_background_loaded (v : Pipeline) (s : settings.t)
    (d : option Distribution) (w w' : World) :
  load_background v s w = (Return d, w') -> d <> None.
Proof.
  intros H. destruct v; unfold load_background in H.
  - apply bind_Return in H. destruct H as (bdist & w1 & _ & H).
    apply bind_Return in H. destruct H as (name & w2 & _ & H).
    apply bind_Return in H. destruct H as (d1 & w3 & _ & H).
    apply bind_Return in H. destruct H as (d2 & w4 & _ & H).
    destruct d2 as [x|].
    + apply bind_Return in H. destruct H as (? & ? & _ & H).
      apply ret_Return in H. destruct H as [<- _]. discriminate.
    + apply bind_Return in H. destruct H as (? & ? & _ & H). discriminate H.
  - apply bind_Return in H. destruct H as (mu & w1 & _ & H).
    apply bind_Return in H. destruct H as (sigma & w2 & _ & H).
    apply bind_Return in H. destruct H as (gen & w3 & _ & H).
    apply bind_Return in H. destruct H as (? & ? & _ & H).
    apply ret_Return in H. destruct H as [<- _]. discriminate.
Qed.

Lemma load_signal_centred (v : Pipeline) (s : settings.t)
    (d : option Distribution) (c : list R) (w w' : World) :
  load_signal v s w = (Return (d, c), w') -> centred v d c.
Proof.
  intros H. destruct v; unfold load_signal in H.
  - apply bind_Return in H. destruct H as (sfb & w1 & _ & H).
    apply bind_Return in H. destruct H as (bdist & w2 & _ & H).
    apply bind_Return in H. destruct H as (derived & w3 & _ & H).
    apply bind_Return in H. destruct H as (r & w4 & Hr & H).
    apply bind_Return in H. destruct H as (? & ? & _ & H).
    apply ret_Return in H. destruct H as [-> _].
    destruct derived.
    + apply bind_Return in Hr. destruct Hr as (ms & ? & _ & Hr).
      apply bind_Return in Hr. destruct Hr as (gen & ? & _ & Hr).
      apply ret_Return in Hr. destruct Hr as [Hr _].
      injection Hr as <- <-. reflexivity.
    + apply bind_Return in Hr. destruct Hr as (sdist & ? & _ & Hr).
      apply bind_Return in Hr. destruct Hr as (name & ? & _ & Hr).
      destruct (String.eqb name DISTRIBUTION_GAUSSIAN).
      * apply bind_Return in Hr. destruct Hr as (mu & ? & _ & Hr).
        apply bind_Return in Hr. destruct Hr as (sigma & ? & _ & Hr).
        apply bind_Return in Hr. destruct Hr as (gen & ? & _ & Hr).
        apply ret_Return in Hr. destruct Hr as [Hr _].
        injection Hr as <- <-. reflexivity.
      * apply ret_Return in Hr. destruct Hr as [Hr _].
        injection Hr as <- <-. split; reflexivity.
  - apply bind_Return in H. destruct H as (mu & w1 & _ & H).
    apply bind_Return in H. destruct H as (sigma & w2 & _ & H).
    apply bind_Return in H. destruct H as (ms & w3 & _ & H).
    apply bind_Return in H. destruct H as (gen & w4 & _ & H).
    apply bind_Return in H. destruct H as (? & ? & _ & H).
    apply ret_Return in H. destruct H as [H _].
    injection H as <- <-. reflexivity.
Qed.

Lemma load_systematics_inv (v : Pipeline) (c : list R) (s : settings.t)
    (r : Systematics) (w w' : World) :
  load_systematics v c s w = (Return r, w') ->
  exists ds,
    settings.systematics s = Some ds /\
    for_each (load_systematic v c) no_systematics ds w = (Return r, w) /\
    w' = logging w [(SUCCESS, "Systematics Loaded!")].
Proof.
  intros H. unfold load_systematics in H.
  destruct (settings.systematics s) as [ds|] eqn:E.
  - apply bind_Return in H. destruct H as (? & w1 & H0 & H).
    apply ret_Return in H0. destruct H0 as [_ <-].
    apply bind_Return in H. destruct H as (ds' & w2 & H0 & H).
    apply ret_Return in H0. destruct H0 as [<- <-].
    apply bind_Return in H. destruct H as (self & w3 & Hf & H).
    apply bind_Return in H. destruct H as (? & w4 & Hl & H).
    destruct (for_each_within_thresholds v c ds _ _ _ _ Hf
                (no_systematics_within c)) as [_ ->].
    rewrite log_run in Hl. injection Hl as _ <-.
    apply ret_Return in H. destruct H as [<- <-].
    exists ds. split; [reflexivity|]. split; [exact Hf | reflexivity].
  - apply bind_Return in H. destruct H as (? & w1 & _ & H).
    apply bind_Return in H. destruct H as (? & ? & H & _). discriminate H.
Qed.

Lemma init_constructed (v : Pipeline) (s : settings.t) (g : DataGenerator)
    (w w' : World) :
  __init__ v s w = (Return g, w') -> constructed v s g.
Proof.
  intros H. unfold __init__ in H.
  apply bind_Return in H. destruct H as (? & w0 & _ & H).
  apply bind_Return in H. destruct H as (dimension & w1 & Hd & H).
  apply item_Return in Hd. destruct Hd as [Hd _].
  apply bind_Return in H. destruct H as (total & w2 & Ht & H).
  apply item_Return in Ht. destruct Ht as [Ht _].
  apply bind_Return in H. destruct H as (p_b & w3 & Hp & H).
  apply item_Return in Hp. destruct Hp as [Hp _].
  apply bind_Return in H. destruct H as (n_s & w3' & Hns & H).
  apply or_error_Return in Hns. destruct Hns as [Hns _].
  apply bind_Return in H. destruct H as (n_b & w3'' & Hnb & H).
  apply or_error_Return in Hnb. destruct Hnb as [Hnb _].
  apply bind_Return in H. destruct H as (background & w4 & Hb & H).
  apply bind_Return in H. destruct H as ([signal c] & w5 & Hs & H).
  apply bind_Return in H. destruct H as (systematics & w6 & Hl & H).
  apply ret_Return in H. destruct H as [<- _].
  apply load_background_loaded in Hb. apply load_signal_centred in Hs.
  apply load_systematics_inv in Hl. destruct Hl as (ds & _ & Hf & _).
  destruct (for_each_within_thresholds v c ds _ _ _ _ Hf
              (no_systematics_within c)) as [I _].
  constructor;
    cbn -[Counts.number_of_signal_events Counts.number_of_background_events];
    try assumption; try reflexivity.
  - repeat split.
  - exists c. split; [exact Hs|]. split; [exact I|].
    intros ->. reflexivity.
  - destruct v; simpl; exact Hd.
Qed.

(** X12.  A generator that the constructor returned has its background
    distribution loaded and its systematics flag set, holds the counts
    derived from the settings' total and background fraction, and holds
    no data yet; in the mix edition its signal distribution is loaded
    too.  So after a returned constructor the background and systematics
    checks of [generate_data] cannot fail. *)
Theorem constructed_generator_is_loaded (v : Pipeline) (s : settings.t)
    (g : DataGenerator) (w w' : World)
    (Hinit : __init__ v s w = (Return g, w')) :
  background_distribution g <> None /\
  systematics_loaded g = true /\
  (v = Mix -> signal_distribution g <> None) /\
  settings.total_number_of_events s = Some (total_number_of_events g) /\
  settings.p_b s = Some (pb g) /\
  Counts.number_of_signal_events v (total_number_of_events g) (pb g)
  = inr (number_of_signal_events g) /\
  Counts.number_of_background_events (total_number_of_events g) (pb g)
  = inr (number_of_background_events g) /\
  generated_data g = None /\ biased_data g = None.
Proof.
  destruct (init_constructed v s g w w' Hinit)
    as [_ Ht Hp Hs Hb Hbg Hl (Hd & _ & Hbd & _) (c & Hc & _ & _) _].
  repeat split; try assumption.
  intros -> N. rewrite N in Hc. destruct Hc as [_ Hc]. discriminate Hc.
Qed.

(** X13.  A Box that the constructor loads is always centred on the mean
    of the loaded Gaussian signal, in both editions; when no signal was
    loaded (all-systematics edition only) it is centred on the origin.
    In the all-systematics edition the same centre is written back to
    the settings under [box_center]. *)
Theorem box_is_centred_on_signal (v : Pipeline) (s : settings.t)
    (g : DataGenerator) (w w' : World) (box : Box)
    (Hinit : __init__ v s w = (Return g, w'))
    (Hbox : systematic_box (loaded g) = Some box) :
  1 < box_length box /\
  match signal_distribution g with
  | Some (Gaussian p) => box_center box = g_mu p
  | Some (Gamma _) => False
  | None => box_center box = [0; 0]
  end /\
  (v = AllSystematics ->
   settings.box_center (settings_ g) = Some (box_center box)).
Proof.
  destruct (init_constructed v s g w w' Hinit)
    as [_ _ _ _ _ _ _ _ (c & Hc & (_ & _ & Ib & _) & He) _].
  destruct (Ib box Hbox) as [Hl ->].
  split; [exact Hl|]. split; [|exact He].
  unfold centred in Hc.
  destruct (signal_distribution g) as [[p|p]|]; try exact Hc.
  destruct Hc as [Hc _]. exact Hc.
Qed.

(** X14.  Sequencing: on a generator fresh from the constructor, both
    [get_data] and [save_data] log the error that the data is not
    generated and exit, whatever the directory and the file index. *)
Theorem no_access_before_generation (v : Pipeline) (s : settings.t)
    (g : DataGenerator) (w w' : World)
    (Hinit : __init__ v s w = (Return g, w')) :
  forall (directory : string) (file_index : option Z) (w2 : World),
    get_data g w2
    = (SysExit,
       logging w2
         [(ERROR,
           "Data is not generated. First call `generate_data` function!")]) /\
    save_data g directory file_index w2
    = (SysExit,
       logging w2
         [(ERROR,
           "Data is not generated. First call `generate_data` function!")]).
Proof.
  destruct (init_constructed v s g w w' Hinit)
    as [_ _ _ _ _ _ _ (Hd & _) _ _].
  intros directory file_index w2.
  unfold get_data, save_data. rewrite Hd. split; reflexivity.
Qed.

(** X15.  Without a [systematics] key the constructor cannot return a
    generator: whatever else the settings hold, the outcome is an exit
    or an exception. *)
Theorem systematics_key_is_required (v : Pipeline) (s : settings.t)
    (w : World) (Hmissing : settings.systematics s = None) :
  forall g w', __init__ v s w <> (Return g, w').
Proof.
  intros g w' H. unfold __init__ in H.
  apply bind_Return in H. destruct H as (? & w0 & _ & H).
  apply bind_Return in H. destruct H as (dimension & w1 & _ & H).
  apply bind_Return in H. destruct H as (total & w2 & _ & H).
  apply bind_Return in H. destruct H as (p_b & w3 & _ & H).
  apply bind_Return in H. destruct H as (n_s & w3' & _ & H).
  apply bind_Return in H. destruct H as (n_b & w3'' & _ & H).
  apply bind_Return in H. destruct H as (background & w4 & _ & H).
  apply bind_Return in H. destruct H as ([signal c] & w5 & _ & H).
  apply bind_Return in H. destruct H as (systematics & w6 & Hl & _).
  apply load_systematics_inv in Hl. destruct Hl as (ds & E & _).
  destruct v; simpl in E; rewrite Hmissing in E; discriminate E.
Qed.

(** ** Shapes of a run's outputs *)

Lemma draw_data_rows (v : Pipeline) (self : DataGenerator)
    (sd bd : Distribution) (d : nat) (w w1 : World)
    (s b bs bb : points) :
  sampler_returns d (problem_dimension self) ->
  draw_data v self sd bd w = (Return (s, b, (bs, bb)), w1) ->
  List.length s = Z.to_nat (number_of_signal_events self) /\
  List.length b = Z.to_nat (number_of_background_events self) /\
  List.length bs = Z.to_nat (number_of_signal_events self) /\
  List.length bb = Z.to_nat (number_of_background_events self).
Proof.
  intros Hg H. destruct v.
  - pose proof (all_systematics_draws_twice self sd bd w) as D.
    unfold four_draws in D.
    destruct (Hg sd (number_of_signal_events self) (random_state w))
      as [_ N1].
    destruct (generate_points sd _ _ (random_state w)) as [s' rs1].
    destruct (Hg bd (number_of_background_events self) rs1) as [_ N2].
    destruct (generate_points bd _ _ rs1) as [b' rs2].
    destruct (Hg sd (number_of_signal_events self) rs2) as [_ N3].
    destruct (generate_points sd _ _ rs2) as [bs' rs3].
    destruct (Hg bd (number_of_background_events self) rs3) as [_ N4].
    destruct (generate_points bd _ _ rs3) as [bb' rs4].
    rewrite D in H. injection H as <- <- <- <- _. simpl in *.
    repeat split; assumption.
  - pose proof (mix_draws_once self sd bd w) as D.
    unfold two_draws in D.
    destruct (Hg sd (number_of_signal_events self) (random_state w))
      as [_ N1].
    destruct (generate_points sd _ _ (random_state w)) as [s' rs1].
    destruct (Hg bd (number_of_background_events self) rs1) as [_ N2].
    destruct (generate_points bd _ _ rs1) as [b' rs2].
    rewrite D in H. injection H as <- <- <- <- _. simpl in *.
    repeat split; assumption.
Qed.

Lemma copula_block_rows (v : Pipeline) (self : DataGenerator)
    (b bb b' bb' : points) (w w' : World) :
  copula_block v self b bb w = (Return (b', bb'), w') ->
  List.length b' = List.length b /\ List.length bb' = List.length bb.
Proof.
  assert (Same : forall w0, ret (b, bb) w0 = (Return (b', bb'), w') ->
            List.length b' = List.length b /\
            List.length bb' = List.length bb).
  { intros w0 H. apply ret_Return in H. destruct H as [H _].
    injection H as <- <-. split; reflexivity. }
  destruct v; simpl; [|apply Same].
  unfold copula. destruct (apply_copula self); [|apply Same].
  destruct (if_truthy (alpha self)) as [a|];
    [destruct (if_truthy (beta self)) as [c|]|].
  - intros H. apply ret_Return in H. destruct H as [H _].
    injection H as <- <-. unfold copula_remap. rewrite !length_map.
    split; reflexivity.
  - intros H. apply bind_Return in H. destruct H as (? & ? & _ & H).
    apply (Same _ H).
  - intros H. apply bind_Return in H. destruct H as (? & ? & _ & H).
    apply (Same _ H).
Qed.

Lemma labelled_length (pts : points) (lbl : Z) :
  List.length (labelled pts lbl (List.length pts)) = List.length pts.
Proof.
  unfold labelled. rewrite length_combine, repeat_length. lia.
Qed.

Lemma shuffle_Return_perm {A} (a r : list A) (seed : Z) (w w' : World) :
  shuffle a seed w = (Return r, w') -> Permutation r a.
Proof.
  intros H. destruct (shuffle_spec a seed w) as (r0 & _ & E & P).
  rewrite E in H. injection H as <- _. exact P.
Qed.

(** X16.  With both distributions and the systematics loaded, and a
    sampler that returns as many points as asked for, each of the
    configured dimension, [generate_data] returns.  If no Box is loaded,
    the original and the biased set then hold one row per drawn point,
    [n_signal + n_background] in all, and each label array is a
    rearrangement of [n_signal] ones and [n_background] zeros. *)
Theorem generation_succeeds (v : Pipeline) (self : DataGenerator)
    (sd bd : Distribution) (d : nat) (w : World)
    (Hsig : signal_distribution self = Some sd)
    (Hbkg : background_distribution self = Some bd)
    (Hloaded : systematics_loaded self = true)
    (Hdim : settings.problem_dimension (settings_ self) = Some d)
    (Hsampler : sampler_returns d (problem_dimension self)) :
  exists g' w',
    generate_data v self w = (Return g', w') /\
    (systematic_box (loaded self) = None ->
     let n_s := Z.to_nat (number_of_signal_events self) in
     let n_b := Z.to_nat (number_of_background_events self) in
     exists gd gl bd' bl,
       generated_data g' = Some gd /\ generated_labels g' = Some gl /\
       biased_data g' = Some bd' /\ biased_labels g' = Some bl /\
       List.length gd = (n_s + n_b)%nat /\
       List.length bd' = (n_s + n_b)%nat /\
       Permutation gl
         (repeat SIGNAL_LABEL n_s ++ repeat BACKGROUND_LABEL n_b)%list /\
       Permutation bl
         (repeat SIGNAL_LABEL n_s ++ repeat BACKGROUND_LABEL n_b)%list).
Proof.
  destruct (generate_data_returns v self sd bd d w Hsig Hbkg Hloaded Hdim
              Hsampler) as (g' & w' & Hrun).
  exists g', w'. split; [exact Hrun|]. intros Hbox n_s n_b.
  apply generate_data_inv in Hrun.
  destruct Hrun as [sd' bd'' dimension s b0 bs bb0 w1 b bb lines gdf bdf rg rb
                      Es Eb _ _ Hd Hc Eg Ebf L1 L2 w2 _ Sg Sb].
  rewrite Hsig in Es. injection Es as <-.
  rewrite Hbkg in Eb. injection Eb as <-.
  destruct (draw_data_rows _ _ _ _ _ _ _ _ _ _ _ Hsampler Hd)
    as (Ns & Nb0 & _ & _).
  destruct (copula_block_rows _ _ _ _ _ _ _ _ Hc) as [Nb _].
  unfold boxed in Sg, Sb. rewrite Hbox in Sg, Sb. simpl in Sg, Sb.
  apply shuffle_Return_perm in Sg, Sb.
  assert (Lg : map snd gdf
               = (repeat SIGNAL_LABEL n_s ++ repeat BACKGROUND_LABEL n_b)%list).
  { rewrite Eg, map_app, !labelled_labels by reflexivity.
    rewrite Ns, Nb, Nb0. reflexivity. }
  assert (Lb : map snd bdf
               = (repeat SIGNAL_LABEL n_s ++ repeat BACKGROUND_LABEL n_b)%list).
  { rewrite Ebf, map_app, !labelled_labels by assumption.
    rewrite Ns, Nb, Nb0. reflexivity. }
  exists (map fst rg), (map snd rg), (map fst rb), (map snd rb).
  repeat split.
  - rewrite length_map, (Permutation_length Sg), <- (length_map snd), Lg,
      length_app, !repeat_length. reflexivity.
  - rewrite length_map, (Permutation_length Sb), <- (length_map snd), Lb,
      length_app, !repeat_length. reflexivity.
  - rewrite <- Lg. apply Permutation_map. exact Sg.
  - rewrite <- Lb. apply Permutation_map. exact Sb.
Qed.

Lemma Box_rows_kept (P : point * Z -> Prop) (box : Box) (df_a df_b : frame) :
  Forall P df_a -> Forall P df_b ->
  Forall P (fst (Box_apply_systematics box df_a df_b)) /\
  Forall P (snd (Box_apply_systematics box df_a df_b)).
Proof.
  intros Ha. revert df_b.
  induction Ha as [|ra df_a Hra _ IH]; intros [|rb df_b] Hb; simpl;
    try (split; constructor).
  inversion Hb as [|? ? Hrb Hb']; subst. specialize (IH df_b Hb').
  destruct (Box_apply_systematics box df_a df_b) as [a' b'].
  destruct (in_box box (fst ra) && in_box box (fst rb)); simpl in *;
    [|exact IH].
  destruct IH as [I1 I2]. split; constructor; assumption.
Qed.

Lemma labelled_binary (pts : points) (n : nat) (lbl : Z) :
  lbl = 0%Z \/ lbl = 1%Z ->
  Forall (fun r : point * Z => snd r = 0%Z \/ snd r = 1%Z)
    (labelled pts lbl n).
Proof.
  intros H. unfold labelled. revert n.
  induction pts as [|p pts IH]; intros [|n]; simpl; constructor.
  - exact H.
  - apply IH.
Qed.

(** X17.  After a run of [generate_data] that returns, [get_data]
    returns (it does not exit), and in each of the two sets it hands out
    the data and the label arrays have the same number of rows and every
    label is 0 or 1. *)
Theorem get_data_after_generation (v : Pipeline) (self g' : DataGenerator)
    (w w' : World) (Hrun : generate_data v self w = (Return g', w')) :
  forall w2,
  exists st gd gl bd bl,
    get_data g' w2
    = (Return (st,
               {| dataset.data := Some gd; dataset.labels := Some gl |},
               {| dataset.data := Some bd; dataset.labels := Some bl |}),
       w2) /\
    List.length gd = List.length gl /\
    List.length bd = List.length bl /\
    Forall (fun l => l = 0%Z \/ l = 1%Z) gl /\
    Forall (fun l => l = 0%Z \/ l = 1%Z) bl.
Proof.
  intros w2. apply generate_data_inv in Hrun.
  destruct Hrun as [sd bd0 dimension s b0 bs bb0 w1 b bb lines gdf bdf rg rb
                      _ _ _ _ _ _ Eg Ebf _ _ w3 _ Sg Sb].
  apply shuffle_Return_perm in Sg, Sb.
  assert (Bg : Forall (fun r : point * Z => snd r = 0%Z \/ snd r = 1%Z) gdf).
  { rewrite Eg. apply Forall_app.
    split; apply labelled_binary; [right | left]; reflexivity. }
  assert (Bb : Forall (fun r : point * Z => snd r = 0%Z \/ snd r = 1%Z) bdf).
  { rewrite Ebf. apply Forall_app.
    split; apply labelled_binary; [right | left]; reflexivity. }
  assert (Bx : Forall (fun r : point * Z => snd r = 0%Z \/ snd r = 1%Z)
                 (fst (boxed self gdf bdf)) /\
               Forall (fun r : point * Z => snd r = 0%Z \/ snd r = 1%Z)
                 (snd (boxed self gdf bdf))).
  { unfold boxed. destruct (systematic_box (loaded self)) as [box|].
    - apply Box_rows_kept; assumption.
    - split; assumption. }
  destruct Bx as [Bx1 Bx2].
  eexists. exists (map fst rg), (map snd rg), (map fst rb), (map snd rb).
  split; [reflexivity|].
  rewrite !length_map. split; [reflexivity|]. split; [reflexivity|].
  split; rewrite Forall_map.
  - apply (Permutation_Forall (Permutation_sym Sg)). exact Bx1.
  - apply (Permutation_Forall (Permutation_sym Sb)). exact Bx2.
Qed.

(** ** What the two editions do to the original and the biased set *)

Lemma shuffle_same_rows {A} (a r1 r2 : list A) (seed : Z)
    (w1 w1' w2 w2' : World) :
  shuffle a seed w1 = (Return r1, w1') ->
  shuffle a seed w2 = (Return r2, w2') -> r1 = r2.
Proof.
  intros H1 H2.
  destruct (shuffle_spec a seed w1) as (r & E & S1 & _).
  destruct (shuffle_spec a seed w2) as (r' & E' & S2 & _).
  rewrite S1 in H1. rewrite S2 in H2. rewrite E in E'.
  injection H1 as <- _. injection H2 as <- _. injection E' as <-.
  reflexivity.
Qed.

Lemma biased_by_nothing (self : DataGenerator) (pts : points) :
  systematic_rotation (loaded self) = None ->
  systematic_translation (loaded self) = None ->
  systematic_scaling (loaded self) = None ->
  biased_by self pts = pts.
Proof.
  intros Hr Ht Hs. unfold biased_by, scaled, translated, rotated.
  rewrite Hr, Ht, Hs. reflexivity.
Qed.

(** X18.  In the mix edition the biased points are the drawn points
    themselves.  So with no Rotation, Translation, Scaling or Box loaded
    the biased set that [generate_data] stores is the original set: the
    same data rows and the same labels, in the same order. *)
Theorem mix_unbiased_without_systematics (self g' : DataGenerator)
    (w w' : World)
    (Hrun : generate_data Mix self w = (Return g', w'))
    (Hnone : loaded self = no_systematics) :
  biased_data g' = generated_data g' /\
  biased_labels g' = generated_labels g'.
Proof.
  apply generate_data_inv in Hrun.
  destruct Hrun as [sd bd0 dimension s b0 bs bb0 w1 b bb lines gdf bdf rg rb
                      _ _ _ _ Hd Hc Eg Ebf _ _ w3 _ Sg Sb].
  pose proof (mix_draws_once self sd bd0 w) as D. unfold two_draws in D.
  destruct (generate_points sd _ _ (random_state w)) as [s' rs1].
  destruct (generate_points bd0 _ _ rs1) as [b' rs2].
  rewrite D in Hd. injection Hd as <- <- <- <- _.
  simpl in Hc. apply ret_Return in Hc. destruct Hc as [Hc _].
  injection Hc as <- <-.
  rewrite !biased_by_nothing in Ebf by (rewrite Hnone; reflexivity).
  rewrite <- Eg in Ebf. subst bdf.
  unfold boxed in Sg, Sb. rewrite Hnone in Sg, Sb. simpl in Sg, Sb.
  rewrite (shuffle_same_rows _ _ _ _ _ _ _ _ Sb Sg).
  split; reflexivity.
Qed.

(** X19.  The original set does not depend on the point systematics:
    two runs from the same world of generators that differ only in the
    loaded Rotation, Translation and Scaling (no Box in either) store
    the same original data and the same original labels. *)
Theorem original_set_ignores_point_systematics (v : Pipeline)
    (self g1 g2 : DataGenerator) (systematics : Systematics)
    (w w1 w2 : World)
    (Hrun1 : generate_data v self w = (Return g1, w1))
    (Hrun2 : generate_data v (with_systematics self systematics) w
             = (Return g2, w2))
    (Hbox1 : systematic_box (loaded self) = None)
    (Hbox2 : systematic_box systematics = None) :
  generated_data g2 = generated_data g1 /\
  generated_labels g2 = generated_labels g1.
Proof.
  apply generate_data_inv in Hrun1, Hrun2.
  destruct Hrun1 as [sd bd0 dimension s b0 bs bb0 wa b bb lines gdf bdf rg rb
                       Es Eb _ _ Hd Hc Eg _ _ _ wb _ Sg _].
  destruct Hrun2 as [sd' bd0' dimension' s' b0' bs' bb0' wa' b' bb' lines'
                       gdf' bdf' rg' rb'
                       Es' Eb' _ _ Hd' Hc' Eg' _ _ _ wb' _ Sg' _].
  simpl in Es', Eb'. rewrite Es in Es'. rewrite Eb in Eb'.
  injection Es' as <-. injection Eb' as <-.
  assert (Dd : draw_data v (with_systematics self systematics) sd bd0 w
               = draw_data v self sd bd0 w) by (destruct v; reflexivity).
  rewrite Dd, Hd in Hd'. injection Hd' as <- <- <- <- <-.
  assert (Dc : copula_block v (with_systematics self systematics) b0 bb0 wa
               = copula_block v self b0 bb0 wa) by (destruct v; reflexivity).
  rewrite Dc, Hc in Hc'. injection Hc' as <- <- _.
  rewrite <- Eg in Eg'. subst gdf'.
  unfold boxed in Sg, Sg'. simpl in Sg'. rewrite Hbox1 in Sg.
  rewrite Hbox2 in Sg'. simpl in Sg, Sg'.
  rewrite (shuffle_same_rows _ _ _ _ _ _ _ _ Sg' Sg).
  split; reflexivity.
Qed.

(** ** The label files *)

Lemma append_assoc (a b c : string) :
  ((a ++ b) ++ c = a ++ (b ++ c))%string.
Proof. induction a as [|x a IH]; simpl; [|rewrite IH]; reflexivity. Qed.

Lemma append_empty (a : string) : (a ++ "" = a)%string.
Proof. induction a as [|x a IH]; simpl; [|rewrite IH]; reflexivity. Qed.

Lemma write_loop_join (labels : list Z) :
  forall (len ind : Z) (file : string),
    len = (ind + Z.of_nat (List.length labels))%Z ->
    write_loop len ind labels file
    = (file ++ String.concat newline (map str labels))%string.
Proof.
  induction labels as [|lbl rest IH]; intros len ind file E; simpl.
  - rewrite append_empty. reflexivity.
  - destruct rest as [|lbl' rest'].
    + simpl in E. replace (ind <? len - 1)%Z with false
        by (symmetry; apply Z.ltb_ge; lia).
      reflexivity.
    + replace (ind <? len - 1)%Z with true
        by (symmetry; apply Z.ltb_lt; simpl List.length in E; lia).
      rewrite IH by (simpl List.length in *; lia).
      rewrite !append_assoc. reflexivity.
Qed.

Lemma write_labels_join (labels : list Z) :
  write_labels labels = String.concat newline (map str labels).
Proof.
  induction labels as [|lbl [|lbl' rest] IH]; try reflexivity.
  change (write_labels (lbl :: lbl' :: rest))
    with (str lbl ++ newline ++ write_labels (lbl' :: rest))%string.
  rewrite IH. reflexivity.
Qed.

(** X20.  The loop of [save_data] that writes a labels file, with its
    test [ind < len(labels) - 1] on the running index, writes the labels
    joined by newlines: one label per line and nothing after the last.
    The text that [save_data] writes to a labels file is this one. *)
Theorem written_labels_join (labels : list Z) :
  written_labels labels = String.concat newline (map str labels) /\
  write_labels labels = written_labels labels.
Proof.
  assert (E : written_labels labels
              = String.concat newline (map str labels)).
  { unfold written_labels. rewrite write_loop_join by lia. reflexivity. }
  split; [exact E|]. rewrite E. apply write_labels_join.
Qed.

(** X21.  The settings that [Setting.get_setting] builds load in the
    all-systematics edition whatever the translation magnitude, for
    every number of events and background fraction whose two counts
    are defined: the constructor returns, with these counts, the signal
    derived from the background, the translation of the given magnitude
    at 90 degrees and no other operator.  The constructor of the mix
    edition raises on the same settings, which lack [background_mu].
    When a count is not defined (the number of events is too large for
    a float), both constructors raise its exception instead. *)
Theorem get_setting_loads (N : Z) (p_b : Q) (z : R) (w : World) :
  match counts AllSystematics N p_b with
  | inr (n_s, n_b) =>
      exists g,
        __init__ AllSystematics (get_setting N p_b z) w
        = (Return g,
           logging w
             [(SUCCESS, "Settings Loaded!");
              (SUCCESS, "Background Distributions Loaded!");
              (SUCCESS, "Signal Distributions Loaded!");
              (SUCCESS, "Systematics Loaded!")]) /\
        number_of_signal_events g = n_s /\
        number_of_background_events g = n_b /\
        signal_distribution g
        = Some (Gaussian
                  {| g_mu := [0 + 2 * cos (radians 0);
                              0 + 2 * sin (radians 0)];
                     g_sigma := [1 * (3 / 10); 1 * (3 / 10)];
                     g_generator := "normal";
                     g_angle_rotation := Some (- 0) |}) /\
        loaded g = with_translation no_systematics
                     (translation_z AllSystematics z 90)
  | inl e =>
      __init__ AllSystematics (get_setting N p_b z) w
      = (Raise e, logging w [(SUCCESS, "Settings Loaded!")])
  end /\
  __init__ Mix (get_setting N p_b z) w
  = (Raise match counts Mix N p_b with
           | inr _ => "KeyError: background_mu"
           | inl e => e
           end,
     logging w [(SUCCESS, "Settings Loaded!")]).
Proof.
  unfold counts. split.
  - destruct (Counts.number_of_signal_events AllSystematics N p_b)
      as [e|n_s] eqn:Es;
      [|destruct (Counts.number_of_background_events N p_b)
          as [e|n_b] eqn:Eb].
    + unfold __init__, get_setting, bind, item, ret, log, or_error, raise.
      cbn -[Counts.number_of_signal_events Counts.number_of_background_events].
      rewrite Es. reflexivity.
    + unfold __init__, get_setting, bind, item, ret, log, or_error, raise.
      cbn -[Counts.number_of_signal_events Counts.number_of_background_events].
      rewrite Es, Eb. reflexivity.
    + eexists. split.
      2: split; [|split; [|split]].
      replace (logging w
                 [(SUCCESS, "Settings Loaded!");
                  (SUCCESS, "Background Distributions Loaded!");
                  (SUCCESS, "Signal Distributions Loaded!");
                  (SUCCESS, "Systematics Loaded!")])
        with (logging
                (logging
                   (logging (logging w [(SUCCESS, "Settings Loaded!")])
                      [(SUCCESS, "Background Distributions Loaded!")])
                   [(SUCCESS, "Signal Distributions Loaded!")])
                [(SUCCESS, "Systematics Loaded!")])
        by (rewrite !logging_app; reflexivity).
      unfold __init__, get_setting, bind, item, ret, log, or_error, raise.
      cbn -[Counts.number_of_signal_events Counts.number_of_background_events
            Counts.ps].
      rewrite Es, Eb.
      cbv -[IZR cos sin PI Rplus Rmult Rminus Ropp Rdiv Rinv Rabs radians
            Rlt_dec Rle_dec Req_dec_T py_round Counts.ps app].
      reflexivity.
      all: reflexivity.
  - unfold __init__, get_setting, bind, item, ret, log, or_error, raise.
    cbn -[Counts.number_of_signal_events Counts.number_of_background_events].
    destruct (Counts.number_of_signal_events Mix N p_b) as [e|n_s];
      [reflexivity|].
    destruct (Counts.number_of_background_events N p_b) as [e|n_b];
      reflexivity.
Qed.

(** X22.  Constructor and generation composed: on a generator that the
    constructor returned, with a sampler that returns as many points as
    asked for in the configured dimension, [generate_data] can fail only
    the signal check.  If a signal distribution is loaded it returns;
    otherwise it logs that the signal distribution is not loaded and
    exits before drawing.  In the mix edition the signal is always
    loaded, so generation after a returned constructor always returns. *)
Theorem constructed_then_generates (v : Pipeline) (s : settings.t)
    (g : DataGenerator) (w w' : World)
    (Hinit : __init__ v s w = (Return g, w'))
    (Hsampler : sampler_returns (problem_dimension g) (problem_dimension g)) :
  forall w2,
    match signal_distribution g with
    | Some _ => exists g' w3, generate_data v g w2 = (Return g', w3)
    | None =>
        v = AllSystematics /\
        generate_data v g w2
        = (SysExit,
           logging w2 [(ERROR, "Signal distribution is not loaded!")])
    end.
Proof.
  intros w2.
  destruct (init_constructed v s g w w' Hinit)
    as [_ _ _ _ _ Hbg Hl _ (c & Hc & _ & _) Hdim].
  destruct (signal_distribution g) as [sd|] eqn:Es.
  - destruct (background_distribution g) as [bd|] eqn:Eb;
      [|contradiction Hbg; reflexivity].
    apply (generate_data_returns v g sd bd (problem_dimension g) w2
             Es Eb Hl Hdim Hsampler).
  - destruct Hc as [_ Hv]. split; [exact Hv|].
    unfold generate_data. rewrite Es. reflexivity.
Qed.

End Extra.

(** ** The properties on concrete inputs *)

Lemma replay_sampler (d : nat) : sampler_returns (ext := replay) d d.
Proof.
  intros dist n rs. simpl. split; [|apply repeat_length].
  apply Forall_forall. intros p Hp. apply repeat_spec in Hp. subst p.
  apply repeat_length.
Qed.

Lemma loaded_within_thresholds_witness :
  exists self w',
    for_each (ext := replay) (load_systematic Mix [2; 0]) no_systematics
      [translation_descriptor 1 90; scaling_descriptor 2; box_descriptor 3]
      fresh
    = (Return self, w') /\
    within_thresholds [2; 0] self /\ w' = fresh.
Proof.
  assert (H : for_each (ext := replay) (load_systematic Mix [2; 0])
                no_systematics
                [translation_descriptor 1 90; scaling_descriptor 2;
                 box_descriptor 3] fresh
              = (Return
                   (with_box
                      (with_scaling
                         (with_translation no_systematics
                            (translation_z Mix 1 90)) 2) [2; 0] 3),
                 fresh)).
  { cbn [for_each].
    rewrite (bind_run _ _ _ _ _
               (load_translation (ext := replay) Mix [2; 0] no_systematics
                  (translation_descriptor 1 90) 1 90 fresh
                  eq_refl eq_refl eq_refl)).
    rewrite (bind_run _ _ _ _ _
               (load_scaling (ext := replay) Mix [2; 0] _
                  (scaling_descriptor 2) 2 fresh eq_refl eq_refl)).
    destruct (Rlt_dec 1 2) as [_|N]; [|exfalso; lra].
    rewrite (bind_run _ _ _ _ _
               (load_box (ext := replay) Mix [2; 0] _
                  (box_descriptor 3) 3 fresh eq_refl eq_refl)).
    destruct (Rlt_dec 1 3) as [_|N]; [|exfalso; lra].
    reflexivity. }
  eexists. eexists. split; [exact H|].
  apply (loaded_within_thresholds (ext := replay) Mix [2; 0] _ _ fresh fresh
           H).
Defined.

Lemma unknown_systematics_ignored_witness :
  Forall (fun d => exists name,
            syst.name d = Some name /\ ~ In name known_systematics)
    [named_descriptor "Ben_New"; named_descriptor "Gamma_Perturbation"] /\
  for_each (ext := replay) (load_systematic AllSystematics [2; 0])
    toy_systematics
    [named_descriptor "Ben_New"; named_descriptor "Gamma_Perturbation"] fresh
  = (Return toy_systematics, fresh).
Proof.
  assert (F : Forall (fun d => exists name,
                        syst.name d = Some name /\
                        ~ In name known_systematics)
                [named_descriptor "Ben_New";
                 named_descriptor "Gamma_Perturbation"]).
  { repeat apply Forall_cons; try apply Forall_nil;
      (eexists; split; [reflexivity|]);
      intros [E|[E|[E|[E|[]]]]]; discriminate E. }
  split; [exact F|].
  apply (unknown_systematics_ignored (ext := replay) AllSystematics [2; 0]
           _ toy_systematics fresh F).
Defined.

Lemma last_translation_wins_witness :
  exists self w',
    for_each (ext := replay) (load_systematic AllSystematics [2; 0])
      no_systematics
      ([translation_descriptor 1 0]
       ++ translation_descriptor 2 90 :: [named_descriptor "Ben_New"])%list
      fresh
    = (Return self, w') /\
    option_map translation_vector (systematic_translation self)
    = Some (translation_z AllSystematics 2 90).
Proof.
  assert (H : exists self w',
            for_each (ext := replay) (load_systematic AllSystematics [2; 0])
              no_systematics
              ([translation_descriptor 1 0]
               ++ translation_descriptor 2 90
                  :: [named_descriptor "Ben_New"])%list
              fresh
            = (Return self, w')).
  { eexists. eexists. run. reflexivity. }
  destruct H as (self & w' & H). exists self, w'. split; [exact H|].
  apply (last_translation_wins (ext := replay) AllSystematics [2; 0]
           [translation_descriptor 1 0] [named_descriptor "Ben_New"]
           (translation_descriptor 2 90) 2 90 no_systematics self fresh w'
           eq_refl eq_refl eq_refl).
  - repeat constructor. discriminate.
  - exact H.
Defined.

(** The starting kit's settings, and settings with a Box of length 3,
    load. *)
Lemma starting_kit_loads :
  exists g w',
    __init__ (ext := replay) AllSystematics (get_setting 1000 (1 # 2) 1) fresh
    = (Return g, w').
Proof. eexists. eexists. run. reflexivity. Defined.

Lemma boxed_settings_load :
  exists g w' box,
    __init__ (ext := replay) Mix
      (example_settings 4 (1 # 2) (gaussian_dist [2; 0] [1; 1])
         [box_descriptor 3]) fresh
    = (Return g, w') /\
    systematic_box (loaded g) = Some box.
Proof.
  run. destruct (Rlt_dec 1 3) as [_|N]; [|exfalso; lra].
  eexists. eexists. eexists. split; reflexivity.
Defined.

Lemma constructed_generator_is_loaded_witness :
  exists g w',
    __init__ (ext := replay) AllSystematics (get_setting 1000 (1 # 2) 1) fresh
    = (Return g, w') /\
    background_distribution g <> None /\
    systematics_loaded g = true /\
    Counts.number_of_signal_events AllSystematics
      (total_number_of_events g) (pb g)
    = inr (number_of_signal_events g) /\
    generated_data g = None.
Proof.
  destruct starting_kit_loads as (g & w' & H). exists g, w'.
  split; [exact H|].
  destruct (constructed_generator_is_loaded (ext := replay) AllSystematics
              _ g fresh w' H)
    as (Hb & Hl & _ & _ & _ & Hs & _ & Hd & _).
  repeat split; assumption.
Defined.

Lemma box_is_centred_on_signal_witness :
  exists g w' box,
    __init__ (ext := replay) Mix
      (example_settings 4 (1 # 2) (gaussian_dist [2; 0] [1; 1])
         [box_descriptor 3]) fresh
    = (Return g, w') /\
    systematic_box (loaded g) = Some box /\
    1 < box_length box /\
    match signal_distribution g with
    | Some (Gaussian p) => box_center box = g_mu p
    | Some (Gamma _) => False
    | None => box_center box = [0; 0]
    end.
Proof.
  destruct boxed_settings_load as (g & w' & box & H & Hb).
  exists g, w', box. split; [exact H|]. split; [exact Hb|].
  destruct (box_is_centred_on_signal (ext := replay) Mix _ g fresh w' box
              H Hb) as (Hl & Hc & _).
  split; assumption.
Defined.

Lemma no_access_before_generation_witness :
  exists g w',
    __init__ (ext := replay) AllSystematics (get_setting 1000 (1 # 2) 1) fresh
    = (Return g, w') /\
    get_data g fresh
    = (SysExit,
       logging fresh
         [(ERROR,
           "Data is not generated. First call `generate_data` function!")]) /\
    save_data g "out" (Some 3%Z) fresh
    = (SysExit,
       logging fresh
         [(ERROR,
           "Data is not generated. First call `generate_data` function!")]).
Proof.
  destruct starting_kit_loads as (g & w' & H). exists g, w'.
  split; [exact H|].
  apply (no_access_before_generation (ext := replay) AllSystematics _ g
           fresh w' H "out" (Some 3%Z) fresh).
Defined.

Lemma systematics_key_is_required_witness :
  settings.systematics (without_systematics (get_setting 1000 (1 # 2) 1))
  = None /\
  forall g w',
    __init__ (ext := replay) AllSystematics
      (without_systematics (get_setting 1000 (1 # 2) 1)) fresh
    <> (Return g, w').
Proof.
  split; [reflexivity|].
  apply (systematics_key_is_required (ext := replay) AllSystematics
           (without_systematics (get_setting 1000 (1 # 2) 1)) fresh
           eq_refl).
Defined.

Lemma generation_succeeds_witness :
  sampler_returns (ext := replay) 2
    (problem_dimension (toy_generator toy_systematics false None None)) /\
  exists g' w',
    generate_data (ext := replay) Mix
      (toy_generator toy_systematics false None None) fresh
    = (Return g', w') /\
    exists gd gl,
      generated_data g' = Some gd /\ generated_labels g' = Some gl /\
      List.length gd = 4%nat /\
      Permutation gl [1; 1; 0; 0]%Z.
Proof.
  split; [apply replay_sampler|].
  destruct (generation_succeeds (ext := replay) Mix
              (toy_generator toy_systematics false None None)
              toy_signal toy_background 2 fresh
              eq_refl eq_refl eq_refl eq_refl (replay_sampler 2))
    as (g' & w' & H & Rows).
  exists g', w'. split; [exact H|].
  destruct (Rows eq_refl) as (gd & gl & _ & _ & E1 & E2 & _ & _ & L & _ & P & _).
  exists gd, gl. repeat split; assumption.
Defined.

Lemma get_data_after_generation_witness :
  exists g' w',
    generate_data (ext := replay) AllSystematics
      (toy_generator toy_systematics false None None) fresh
    = (Return g', w') /\
    exists st gd gl bd bl,
      get_data g' fresh
      = (Return (st,
                 {| dataset.data := Some gd; dataset.labels := Some gl |},
                 {| dataset.data := Some bd; dataset.labels := Some bl |}),
         fresh) /\
      List.length gd = List.length gl /\
      List.length bd = List.length bl.
Proof.
  destruct toy_run_returns as (g' & w' & H). exists g', w'.
  split; [exact H|].
  destruct (get_data_after_generation (ext := replay) AllSystematics _ g'
              fresh w' H fresh)
    as (st & gd & gl & bd & bl & E & L1 & L2 & _).
  exists st, gd, gl, bd, bl. repeat split; assumption.
Defined.

Lemma mix_plain_run_returns :
  exists g' w',
    generate_data (ext := replay) Mix
      (toy_generator no_systematics false None None) fresh
    = (Return g', w').
Proof. eexists. eexists. run. reflexivity. Defined.

Lemma mix_unbiased_without_systematics_witness :
  exists g' w',
    generate_data (ext := replay) Mix
      (toy_generator no_systematics false None None) fresh
    = (Return g', w') /\
    loaded (toy_generator no_systematics false None None) = no_systematics /\
    biased_data g' = generated_data g' /\
    biased_labels g' = generated_labels g'.
Proof.
  destruct mix_plain_run_returns as (g' & w' & H). exists g', w'.
  split; [exact H|]. split; [reflexivity|].
  apply (mix_unbiased_without_systematics (ext := replay) _ g' fresh w' H
           eq_refl).
Defined.

Lemma all_systematics_plain_run_returns :
  exists g' w',
    generate_data (ext := replay) AllSystematics
      (toy_generator no_systematics false None None) fresh
    = (Return g', w').
Proof. eexists. eexists. run. reflexivity. Defined.

Lemma original_set_ignores_point_systematics_witness :
  exists g1 w1 g2 w2,
    generate_data (ext := replay) AllSystematics
      (toy_generator no_systematics false None None) fresh
    = (Return g1, w1) /\
    generate_data (ext := replay) AllSystematics
      (with_systematics (toy_generator no_systematics false None None)
         toy_systematics) fresh
    = (Return g2, w2) /\
    generated_data g2 = generated_data g1 /\
    generated_labels g2 = generated_labels g1.
Proof.
  destruct all_systematics_plain_run_returns as (g1 & w1 & H1).
  destruct toy_run_returns as (g2 & w2 & H2).
  exists g1, w1, g2, w2. split; [exact H1|]. split; [exact H2|].
  apply (original_set_ignores_point_systematics (ext := replay)
           AllSystematics _ g1 g2 toy_systematics fresh w1 w2 H1 H2
           eq_refl eq_refl).
Defined.

Lemma constructed_then_generates_witness :
  exists g w',
    __init__ (ext := replay) AllSystematics (get_setting 1000 (1 # 2) 1) fresh
    = (Return g, w') /\
    sampler_returns (ext := replay) (problem_dimension g)
      (problem_dimension g) /\
    match signal_distribution g with
    | Some _ =>
        exists g' w3,
          generate_data (ext := replay) AllSystematics g w' = (Return g', w3)
    | None =>
        AllSystematics = AllSystematics /\
        generate_data (ext := replay) AllSystematics g w'
        = (SysExit,
           logging w' [(ERROR, "Signal distribution is not loaded!")])
    end.
Proof.
  destruct starting_kit_loads as (g & w' & H). exists g, w'.
  split; [exact H|]. split; [apply replay_sampler|].
  apply (constructed_then_generates (ext := replay) AllSystematics _ g
           fresh w' H (replay_sampler _) w').
Defined.

End GeneratorExtra.
